(** * The arm behaviour nodelet (behaviors/arm/src/arm_nodelet.cc)

    A shallow embedding of [arm::ArmNodelet]: the joint registry, the
    transition table installed by the constructor, [Initialize], the
    helpers [Result], [Equal], [IsStowed], [RequiresClosing] and [Arm], and
    the callbacks [ReconfigureCallback], [JointStateCallback],
    [TimeoutCallback], [WatchdogCallback] and [GoalCallback].

    - A C++ [double] is a primitive binary64 float ([PrimFloat.float]); the
      operators [+ - * /], [fabs], [<] and [==] are the IEEE operations of
      [PrimFloat].
    - [std::map] is [gmap]; [operator[]] on a missing key inserts a
      value-initialised entry, as in C++.
    - An [int32_t] response code is a [Z].
    - The member functions run in a state-and-output monad: the state is
      the nodelet's fields, the output is the list of calls made on the ROS
      collaborators (publishers, timers, the action server), in order.
    - Debug and info log streams are not modelled. *)

From Stdlib Require Import ZArith Floats.
From stdpp Require Import gmap strings list.

Open Scope Z_scope.

(** ** Joints *)

(** [enum JointType { PAN, TILT, GRIPPER }] *)
Inductive JointType := PAN | TILT | GRIPPER.

#[global] Instance JointType_eq_dec : EqDecision JointType.
Proof. solve_decision. Defined.

#[global] Instance JointType_countable : Countable JointType.
Proof.
  refine (inj_countable'
    (fun t => match t with PAN => 0%nat | TILT => 1%nat | GRIPPER => 2%nat end)
    (fun k => match k with 0%nat => PAN | 1%nat => TILT | _ => GRIPPER end) _).
  intros []; reflexivity.
Defined.

(** [struct JointInfo], where HUMAN = SCALE * DRIVER + OFFSET *)
Record JointInfo := mkJointInfo {
  name : string;      (* low level joint state name *)
  generic : string;   (* generic name for joint state *)
  val : float;        (* current value in HUMAN form *)
  goal : float;       (* current goal in HUMAN form *)
  tol : float;        (* tolerance in HUMAN form *)
  offset : float;     (* DRIVER -> HUMAN offset *)
  scale : float       (* DRIVER -> HUMAN scale *)
}.

(** What [JointInfo()] yields: [operator[]] value-initialises a missing
    entry, so the strings are empty and the doubles are zero. *)
Definition JointInfo_default : JointInfo :=
  mkJointInfo "" "" 0%float 0%float 0%float 0%float 0%float.

Definition set_val (v : float) (j : JointInfo) : JointInfo :=
  mkJointInfo (name j) (generic j) v (goal j) (tol j) (offset j) (scale j).
Definition set_goal (g : float) (j : JointInfo) : JointInfo :=
  mkJointInfo (name j) (generic j) (val j) g (tol j) (offset j) (scale j).

(** [typedef std::map<JointType, JointInfo> JointMap] and
    [typedef std::map<std::string, JointType> JointDictionary] *)
Abbreviation JointMap := (gmap JointType JointInfo).
Abbreviation JointDictionary := (gmap string JointType).

(** ** Constant values *)

(* M_PI, rounded to the nearest double *)
Definition M_PI : float := 0x1.921fb54442d18p+1%float.
Definition K_PAN_OFFSET : float := 0.0%float.
Definition K_PAN_MIN : float := (-90.0)%float.
Definition K_PAN_MAX : float := 90.0%float.
Definition K_PAN_STOW : float := 0.0%float.
Definition K_PAN_DEPLOY : float := 0.0%float.
Definition K_TILT_OFFSET : float := 90.0%float.
Definition K_TILT_MIN : float := (-20.0)%float.
Definition K_TILT_MAX : float := 180.0%float.
Definition K_TILT_STOW : float := 180.0%float.
Definition K_TILT_DEPLOY : float := 0.0%float.
Definition K_TILT_SAFE : float := 90.0%float.
Definition K_GRIPPER_STOW : float := 20.0%float.
Definition K_GRIPPER_DEPLOY : float := 20.0%float.
Definition K_GRIPPER_OPEN : float := 45.0%float.
Definition K_GRIPPER_CLOSE : float := 20.0%float.
Definition K_GRIPPER_CAL : float := (-100.0)%float.
Definition K_RADS_TO_DEGS : float := (180.0 / M_PI)%float.
Definition K_DEGS_TO_RADS : float := (M_PI / 180.0)%float.

(** ** States, events, responses *)

(** The constants of [ff_msgs::ArmState]. The message definition is not
    part of the sources; the thirteen states are those the nodelet names. *)
Module STATE.
Inductive t :=
| INITIALIZING | UNKNOWN | STOWED | DEPLOYED
| PANNING | TILTING | SETTING | CALIBRATING
| STOWING_SETTING | STOWING_PANNING | STOWING_TILTING
| DEPLOYING_PANNING | DEPLOYING_TILTING.

#[global] Instance eq_dec : EqDecision t.
Proof. solve_decision. Defined.
End STATE.

(** [FSM::Event]: a bit mask; the nodelet's events are single bits. *)
Definition Event := Z.
Definition READY : Event := Z.shiftl 1 0.
Definition DEPLOYED : Event := Z.shiftl 1 1.
Definition STOWED : Event := Z.shiftl 1 2.
Definition GOAL_DEPLOY : Event := Z.shiftl 1 3.
Definition GOAL_STOW : Event := Z.shiftl 1 4.
Definition GOAL_MOVE : Event := Z.shiftl 1 5.
Definition GOAL_CALIBRATE : Event := Z.shiftl 1 6.
Definition GOAL_SET : Event := Z.shiftl 1 7.
Definition GOAL_CANCEL : Event := Z.shiftl 1 8.
Definition PAN_COMPLETE : Event := Z.shiftl 1 9.
Definition TILT_COMPLETE : Event := Z.shiftl 1 10.
Definition GRIPPER_COMPLETE : Event := Z.shiftl 1 11.
Definition CALIBRATE_COMPLETE : Event := Z.shiftl 1 12.
Definition TIMEOUT : Event := Z.shiftl 1 13.

(** Modelled from the spec: the response constants of [ff_msgs::ArmResult],
    whose message definition is not part of the sources. The spec fixes
    their sign only (positive = success, negative = aborted or failed,
    zero = preempted); the values below are distinct and follow that
    convention. *)
Module RESPONSE.
Definition SUCCESS : Z := 1.
Definition PREEMPTED : Z := 0.
Definition INVALID_COMMAND : Z := -1.
Definition BAD_TILT_VALUE : Z := -2.
Definition BAD_PAN_VALUE : Z := -3.
Definition BAD_GRIPPER_VALUE : Z := -4.
Definition NOT_ALLOWED : Z := -5.
Definition TILT_FAILED : Z := -6.
Definition PAN_FAILED : Z := -7.
Definition GRIPPER_FAILED : Z := -8.
Definition COMMUNICATION_ERROR : Z := -9.
Definition COLLISION_AVOIDED : Z := -10.
Definition NEED_TO_CALIBRATE : Z := -11.
Definition CALIBRATE_FAILED : Z := -12.
End RESPONSE.

(** ** The nodelet's fields and the calls it makes *)

(** The values read through [cfg_.Get<double>]. *)
Record Config := mkConfig {
  timeout_watchdog : float;
  timeout_goal : float;
  tol_pan : float;
  tol_tilt : float;
  tol_gripper : float
}.

Record ArmNodelet := mkArmNodelet {
  fsm_ : STATE.t;                (* the current state held by [fsm_] *)
  cfg_ : Config;
  joints_ : JointMap;
  dictionary_ : JointDictionary
}.

Definition with_state (s : STATE.t) (n : ArmNodelet) : ArmNodelet :=
  mkArmNodelet s (cfg_ n) (joints_ n) (dictionary_ n).
Definition with_joints (jm : JointMap) (n : ArmNodelet) : ArmNodelet :=
  mkArmNodelet (fsm_ n) (cfg_ n) jm (dictionary_ n).

Inductive Timer := timer_goal_ | timer_watchdog_.

(** [ff_util::FreeFlyerActionState], as far as [Result] uses it. *)
Inductive FreeFlyerActionState := AS_SUCCESS | AS_ABORTED | AS_PREEMPTED.

Inductive ArmGripperState := G_UNCALIBRATED | G_CLOSED | G_OPEN | G_CALIBRATING.
Inductive ArmJointState :=
  J_UNKNOWN | J_DEPLOYING | J_STOPPED | J_MOVING | J_STOWING | J_STOWED.

(** [ff_msgs::JointSample] *)
Record JointSample := mkJointSample {
  js_name : string;
  js_angle_pos : float;
  js_angle_vel : float;
  js_current : float
}.

(** The subscriber, the publishers, the service and the action server
    that [Initialize] sets up on the node handle. *)
Inductive Endpoint :=
| sub_joint_states_ | pub_joint_goals_ | pub_state_ | srv_set_state_
| pub_arm_state_ | pub_joint_sample_ | server_.

(** A call on a collaborator. [FsmUpdate e] records that [fsm_.Update(e)]
    was invoked, that is, that event [e] was raised. *)
Inductive Call :=
| FsmUpdate (e : Event)
| PubJointGoal (joint : string) (position : float)  (* pub_joint_goals_ *)
| TimerStop (t : Timer)
| TimerSetPeriod (t : Timer) (d : float)
| TimerStart (t : Timer)
| SendResult (s : FreeFlyerActionState) (response : Z)
| SendFeedback (s : STATE.t) (pan tilt gripper : float)
| PubState (s : STATE.t)                            (* pub_state_ *)
| PubArmState (g : ArmGripperState) (j : ArmJointState)  (* pub_arm_state_ *)
| PubJointSample (samples : list JointSample)       (* pub_joint_sample_ *)
| AssertFault (key message : string)
| CreateTimer (t : Timer) (period : float)          (* nh->createTimer *)
| Connect (e : Endpoint).   (* subscribe, advertise, advertiseService, Create *)

(** ** The state-and-output monad *)

Definition M (A : Type) : Type := ArmNodelet -> A * ArmNodelet * list Call.

Definition ret {A} (a : A) : M A := fun n => (a, n, []).
Definition bind {A B} (m : M A) (f : A -> M B) : M B := fun n =>
  let '(a, n1, o1) := m n in
  let '(b, n2, o2) := f a n1 in
  (b, n2, o1 ++ o2).
Definition get : M ArmNodelet := fun n => (n, n, []).
Definition put (n : ArmNodelet) : M unit := fun _ => (tt, n, []).
Definition call (c : Call) : M unit := fun n => (tt, n, [c]).

Declare Scope arm_scope.
Delimit Scope arm_scope with arm.
Notation "x <- m ;; k" := (bind m (fun x => k))
  (at level 20, m at level 99, k at level 200, only parsing) : arm_scope.
Notation "m ;; k" := (bind m (fun _ => k))
  (at level 100, k at level 200, only parsing, right associativity) : arm_scope.
Open Scope arm_scope.

(** The three components of a run. *)
Definition value {A} (r : A * ArmNodelet * list Call) : A := r.1.1.
Definition after {A} (r : A * ArmNodelet * list Call) : ArmNodelet := r.1.2.
Definition calls {A} (r : A * ArmNodelet * list Call) : list Call := r.2.

(** [joints_[t]]: a reference to the entry of [t], inserted first when the
    key is missing. *)
Definition touch (t : JointType) (jm : JointMap) : JointMap :=
  match jm !! t with
  | Some _ => jm
  | None => <[t := JointInfo_default]> jm
  end.
Definition peek (t : JointType) (jm : JointMap) : JointInfo :=
  default JointInfo_default (jm !! t).

Definition joints_at (t : JointType) : M JointInfo := fun n =>
  (peek t (joints_ n), with_joints (touch t (joints_ n)) n, []).

(** [joints_[t].f = v], for a field setter [upd]. *)
Definition joints_assign (t : JointType) (upd : JointInfo -> JointInfo) : M unit :=
  fun n => (tt, with_joints (<[t := upd (peek t (joints_ n))]> (joints_ n)) n, []).

(** ** Tolerant comparison *)

(** The arithmetic of [Equal]:
    [(180. - fabs(fabs(val - v) - 180.)) < tol]. *)
Definition wrap_lt (x v tolerance : float) : bool :=
  ((180.0 - abs (abs (x - v) - 180.0)) <? tolerance)%float.

(** [bool Equal(JointType t, double v)] *)
Definition Equal (t : JointType) (v : float) : M bool :=
  j <- joints_at t ;;
  j' <- joints_at t ;;
  ret (wrap_lt (val j) v (tol j')).

(** [bool IsStowed()] *)
Definition IsStowed : M bool :=
  p <- Equal PAN K_PAN_STOW ;;
  if negb p then ret false else
  t <- Equal TILT K_TILT_STOW ;;
  if negb t then ret false else
  ret true.

(** [bool RequiresClosing()] *)
Definition RequiresClosing : M bool :=
  c <- Equal GRIPPER K_GRIPPER_CAL ;;
  if c then ret false else
  s <- Equal GRIPPER K_GRIPPER_STOW ;;
  ret (negb s).

(** ** Sending a joint goal *)

(** [bool Arm(JointType type)]: one joint goal to the low-level
    controller, then the goal timer is restarted. *)
Definition Arm (type : JointType) : M bool :=
  n <- get ;;
  match joints_ n !! type with
  | None => ret false
  | Some it =>
      call (PubJointGoal (name it) ((goal it - offset it) / scale it)%float) ;;
      call (TimerStop timer_goal_) ;;
      call (TimerSetPeriod timer_goal_ (timeout_goal (cfg_ n))) ;;
      call (TimerStart timer_goal_) ;;
      ret true
  end.

(** ** Completing the current action *)

(** [it->second.goal = it->second.val] *)
Definition snap (j : JointInfo) : JointInfo := set_goal (val j) j.

(** The states in which a goal is being tracked: the case labels of the
    switch in [Result] (and of the feedback switch of
    [JointStateCallback]). *)
Definition tracking (s : STATE.t) : bool :=
  match s with
  | STATE.PANNING | STATE.TILTING | STATE.SETTING | STATE.CALIBRATING
  | STATE.STOWING_SETTING | STATE.STOWING_PANNING | STATE.STOWING_TILTING
  | STATE.DEPLOYING_PANNING | STATE.DEPLOYING_TILTING => true
  | _ => false
  end.

(** [server_.SendResult] on the channel chosen by the sign of the code. *)
Definition SendResult_by_sign (response : Z) : M unit :=
  if 0 <? response then call (SendResult AS_SUCCESS response)
  else if response <? 0 then call (SendResult AS_ABORTED response)
  else call (SendResult AS_PREEMPTED response).

(** [int32_t Result(int32_t response, bool send = false)] *)
Definition Result (response : Z) (send : bool) : M STATE.t :=
  n <- get ;;
  put (with_joints (snap <$> joints_ n) n) ;;
  n <- get ;;
  let send := if tracking (fsm_ n) then true else send in
  (if send then SendResult_by_sign response else ret tt) ;;
  if response =? RESPONSE.COMMUNICATION_ERROR then ret STATE.INITIALIZING else
  s <- IsStowed ;;
  if s then ret STATE.STOWED else
  ret STATE.DEPLOYED.

(** ** The state-change observer *)

(** [void UpdateCallback(FSM::State const& state, FSM::Event const& event)] *)
Definition UpdateCallback (state : STATE.t) (event : Event) : M unit :=
  call (PubState state) ;;
  g0 <- joints_at GRIPPER ;;
  let tol_ := tol g0 in
  g1 <- joints_at GRIPPER ;;
  gs <- (if (val g1 <? 0)%float then ret G_UNCALIBRATED else
         g2 <- joints_at GRIPPER ;;
         if (abs (val g2 - K_GRIPPER_CLOSE) <? tol_)%float then ret G_CLOSED
         else ret G_OPEN) ;;
  match state with
  | STATE.DEPLOYING_PANNING | STATE.DEPLOYING_TILTING =>
      call (PubArmState gs J_DEPLOYING)
  | STATE.CALIBRATING =>
      call (PubArmState G_CALIBRATING J_STOPPED)
  | STATE.DEPLOYED | STATE.SETTING =>
      call (PubArmState gs J_STOPPED)
  | STATE.PANNING | STATE.TILTING =>
      call (PubArmState gs J_MOVING)
  | STATE.STOWING_SETTING | STATE.STOWING_PANNING | STATE.STOWING_TILTING =>
      call (PubArmState gs J_STOWING)
  | STATE.STOWED =>
      call (PubArmState gs J_STOWED)
  | _ =>
      call (PubArmState gs J_UNKNOWN)
  end.

(** ** The finite state machine *)

Definition TransitionCallback : Type := Event -> M STATE.t.

(** Modelled from the spec: the transition table of [ff_util::FSM], whose
    header ff_util/ff_fsm.h is not part of the sources. The table maps a
    (state, event) pair to a transition; a transition registered under a
    mask of several events is registered under each of its events. *)
Definition Table : Type := list (STATE.t * Event * TransitionCallback).

(** Modelled from the spec: the single events of a 32-bit mask. *)
Definition mask_events (mask : Event) : list Event :=
  omap (fun i : nat =>
          if Z.testbit mask (Z.of_nat i) then Some (Z.shiftl 1 (Z.of_nat i))
          else None)
       (seq 0 32).

(** Modelled from the spec: [FSM::Add] for one state and for two states.
    A later registration for the same pair replaces an earlier one. *)
Definition fsm_Add (s : STATE.t) (mask : Event) (cb : TransitionCallback)
    (tbl : Table) : Table :=
  map (fun e => (s, e, cb)) (mask_events mask) ++ tbl.

Definition fsm_Add2 (s1 s2 : STATE.t) (mask : Event) (cb : TransitionCallback)
    (tbl : Table) : Table :=
  fsm_Add s2 mask cb (fsm_Add s1 mask cb tbl).

(** Modelled from the spec: the table entry for a (state, event) pair. *)
Fixpoint fsm_find (tbl : Table) (s : STATE.t) (e : Event)
    : option TransitionCallback :=
  match tbl with
  | [] => None
  | (s', e', cb) :: tbl' =>
      if bool_decide (s = s') && (e =? e') then Some cb else fsm_find tbl' s e
  end.

(** The table installed by the constructor [ArmNodelet()], in the order of
    its [fsm_.Add] calls. *)
Definition fsm_table : Table :=
  fold_left (fun tbl add => add tbl) [
    (* INITIALIZING -> UNKNOWN *)
    fsm_Add STATE.INITIALIZING READY (fun event =>
      ret STATE.UNKNOWN);
    (* UNKNOWN -> STOWED *)
    fsm_Add STATE.UNKNOWN STOWED (fun event =>
      ret STATE.STOWED);
    (* UNKNOWN -> DEPLOYED *)
    fsm_Add STATE.UNKNOWN DEPLOYED (fun event =>
      ret STATE.DEPLOYED);
    (* STOWED -> DEPLOYED *)
    fsm_Add STATE.STOWED DEPLOYED (fun event =>
      ret STATE.DEPLOYED);
    (* DEPLOYED -> STOWED *)
    fsm_Add STATE.DEPLOYED STOWED (fun event =>
      ret STATE.STOWED);
    (* STOWED -> DEPLOYING_PANNING *)
    fsm_Add STATE.STOWED GOAL_DEPLOY (fun event =>
      ok <- Arm PAN ;;
      if negb ok then Result RESPONSE.PAN_FAILED false else
      ret STATE.DEPLOYING_PANNING);
    (* DEPLOYING_PANNING -> DEPLOYING_TILTING *)
    fsm_Add STATE.DEPLOYING_PANNING PAN_COMPLETE (fun event =>
      ok <- Arm TILT ;;
      if negb ok then Result RESPONSE.TILT_FAILED false else
      ret STATE.DEPLOYING_TILTING);
    (* DEPLOYING_TILTING -> DEPLOYED *)
    fsm_Add STATE.DEPLOYING_TILTING TILT_COMPLETE (fun event =>
      Result RESPONSE.SUCCESS false);
    (* DEPLOYED -> STOWING_SETTING *)
    fsm_Add STATE.DEPLOYED GOAL_STOW (fun event =>
      rc <- RequiresClosing ;;
      if rc then
        ok <- Arm GRIPPER ;;
        if negb ok then Result RESPONSE.GRIPPER_FAILED false else
        ret STATE.STOWING_SETTING
      else
      ok <- Arm PAN ;;
      if negb ok then Result RESPONSE.PAN_FAILED false else
      ret STATE.STOWING_PANNING);
    (* STOWING_SETTING -> STOWING_PANNING *)
    fsm_Add STATE.STOWING_SETTING GRIPPER_COMPLETE (fun event =>
      ok <- Arm PAN ;;
      if negb ok then Result RESPONSE.PAN_FAILED false else
      ret STATE.STOWING_PANNING);
    (* STOWING_SETTING -> DEPLOYED *)
    fsm_Add STATE.STOWING_SETTING (Z.lor TIMEOUT GOAL_CANCEL) (fun event =>
      Result RESPONSE.GRIPPER_FAILED false);
    (* STOWING_PANNING -> STOWING_TILTING *)
    fsm_Add STATE.STOWING_PANNING PAN_COMPLETE (fun event =>
      ok <- Arm TILT ;;
      if negb ok then Result RESPONSE.TILT_FAILED false else
      ret STATE.STOWING_TILTING);
    (* STOWING_PANNING -> DEPLOYED *)
    fsm_Add STATE.STOWING_PANNING (Z.lor TIMEOUT GOAL_CANCEL) (fun event =>
      Result RESPONSE.PAN_FAILED false);
    (* STOWING_TILTING -> STOWED *)
    fsm_Add STATE.STOWING_TILTING TILT_COMPLETE (fun event =>
      Result RESPONSE.SUCCESS false);
    (* STOWING_TILTING -> DEPLOYED *)
    fsm_Add STATE.STOWING_TILTING (Z.lor TIMEOUT GOAL_CANCEL) (fun event =>
      Result RESPONSE.TILT_FAILED false);
    (* {STOWED, DEPLOYED} -> PANNING *)
    fsm_Add2 STATE.STOWED STATE.DEPLOYED GOAL_MOVE (fun event =>
      ok <- Arm PAN ;;
      if negb ok then Result RESPONSE.PAN_FAILED false else
      ret STATE.PANNING);
    (* PANNING -> TILTING *)
    fsm_Add STATE.PANNING PAN_COMPLETE (fun event =>
      ok <- Arm TILT ;;
      if negb ok then Result RESPONSE.TILT_FAILED false else
      ret STATE.TILTING);
    (* PANNING -> DEPLOYED *)
    fsm_Add STATE.PANNING (Z.lor TIMEOUT GOAL_CANCEL) (fun event =>
      Result RESPONSE.PAN_FAILED false);
    (* TILTING -> DEPLOYED *)
    fsm_Add STATE.TILTING TILT_COMPLETE (fun event =>
      Result RESPONSE.SUCCESS false);
    (* TILTING -> DEPLOYED *)
    fsm_Add STATE.TILTING (Z.lor TIMEOUT GOAL_CANCEL) (fun event =>
      Result RESPONSE.TILT_FAILED false);
    (* DEPLOYED -> SETTING *)
    fsm_Add STATE.DEPLOYED GOAL_SET (fun event =>
      ok <- Arm GRIPPER ;;
      if negb ok then Result RESPONSE.GRIPPER_FAILED false else
      ret STATE.SETTING);
    (* SETTING -> DEPLOYED *)
    fsm_Add STATE.SETTING GRIPPER_COMPLETE (fun event =>
      Result RESPONSE.SUCCESS false);
    (* SETTING -> DEPLOYED *)
    fsm_Add STATE.SETTING (Z.lor TIMEOUT GOAL_CANCEL) (fun event =>
      Result RESPONSE.GRIPPER_FAILED false);
    (* DEPLOYED -> CALIBRATING *)
    fsm_Add STATE.DEPLOYED GOAL_CALIBRATE (fun event =>
      ok <- Arm GRIPPER ;;
      if negb ok then Result RESPONSE.CALIBRATE_FAILED false else
      ret STATE.CALIBRATING);
    (* CALIBRATING -> DEPLOYED *)
    fsm_Add STATE.CALIBRATING CALIBRATE_COMPLETE (fun event =>
      Result RESPONSE.SUCCESS false);
    (* CALIBRATING -> DEPLOYED *)
    fsm_Add STATE.CALIBRATING (Z.lor TIMEOUT GOAL_CANCEL) (fun event =>
      Result RESPONSE.CALIBRATE_FAILED false)
  ] [].

(** Modelled from the spec: [FSM::SetState] forces the current state,
    bypassing the table. *)
Definition fsm_SetState (s : STATE.t) : M unit :=
  n <- get ;; put (with_state s n).

(** Modelled from the spec: [FSM::Update]. With no table entry for the
    current state and the event, the event is ignored. Otherwise the
    transition runs while the state being left is still current, its
    result becomes the current state, and the observer fires with the new
    state and the triggering event. *)
Definition fsm_Update (event : Event) : M unit :=
  call (FsmUpdate event) ;;
  n <- get ;;
  match fsm_find fsm_table (fsm_ n) event with
  | None => ret tt
  | Some cb =>
      s <- cb event ;;
      fsm_SetState s ;;
      UpdateCallback s event
  end.

(** ** Telemetry *)

(** One entry of a [sensor_msgs::JointState] message: the values at one
    index of its [name], [position], [velocity] and [effort] arrays (the
    arrays of a well-formed message have the same length). *)
Record JointState := mkJointState {
  s_name : string;
  s_position : float;
  s_velocity : float;
  s_effort : float
}.

(** The loop of [JointStateCallback] over the entries of the message;
    [samples] is [jss.samples]. *)
Fixpoint ingest (msg : list JointState) (samples : list JointSample)
    : M (list JointSample) :=
  match msg with
  | [] => ret samples
  | m :: rest =>
      n <- get ;;
      match dictionary_ n !! s_name m with
      | None => ingest rest samples
      | Some g =>
          jscale <- joints_at g ;;
          joffset <- joints_at g ;;
          joints_assign g
            (set_val (s_position m * scale jscale + offset joffset)%float) ;;
          jg <- joints_at g ;;
          (if String.eqb (generic jg) "gripper"
              && (s_position m =? K_GRIPPER_CAL)%float
           then joints_assign g (set_val K_GRIPPER_CAL)
           else ret tt) ;;
          j <- joints_at g ;;
          j' <- joints_at g ;;
          ingest rest
            (samples ++
             [mkJointSample (generic j) (val j') (s_velocity m) (s_effort m)])
      end
  end.

(** The feedback sent at the end of [JointStateCallback]. *)
Definition send_feedback : M unit :=
  n <- get ;;
  if tracking (fsm_ n) then
    p <- joints_at PAN ;;
    t <- joints_at TILT ;;
    g <- joints_at GRIPPER ;;
    call (SendFeedback (fsm_ n) (val p) (val t) (val g))
  else ret tt.

(** The switch of [JointStateCallback] on the current state. The result
    tells whether control reaches the code after the switch ([break]) or
    leaves the callback ([return]). *)
Definition update_state_machine : M bool :=
  n <- get ;;
  match fsm_ n with
  | STATE.UNKNOWN =>
      s <- IsStowed ;;
      (if s then fsm_Update STOWED else fsm_Update DEPLOYED) ;;
      ret false
  | STATE.STOWED =>
      s <- IsStowed ;;
      if negb s then fsm_Update DEPLOYED ;; ret false else ret true
  | STATE.DEPLOYED =>
      s <- IsStowed ;;
      if s then fsm_Update STOWED ;; ret false else ret true
  | STATE.INITIALIZING =>
      fsm_Update READY ;;
      ret true
  | STATE.PANNING | STATE.STOWING_PANNING | STATE.DEPLOYING_PANNING =>
      j <- joints_at PAN ;;
      e <- Equal PAN (goal j) ;;
      (if e then call (TimerStop timer_goal_) ;; fsm_Update PAN_COMPLETE
       else ret tt) ;;
      ret true
  | STATE.TILTING | STATE.STOWING_TILTING | STATE.DEPLOYING_TILTING =>
      j <- joints_at TILT ;;
      e <- Equal TILT (goal j) ;;
      (if e then call (TimerStop timer_goal_) ;; fsm_Update TILT_COMPLETE
       else ret tt) ;;
      ret true
  | STATE.SETTING | STATE.STOWING_SETTING =>
      j <- joints_at GRIPPER ;;
      e <- Equal GRIPPER (goal j) ;;
      (if e then call (TimerStop timer_goal_) ;; fsm_Update GRIPPER_COMPLETE
       else ret tt) ;;
      ret true
  | STATE.CALIBRATING =>
      e <- Equal GRIPPER K_GRIPPER_CAL ;;
      (if negb e then
         call (TimerStop timer_goal_) ;; fsm_Update CALIBRATE_COMPLETE
       else ret tt) ;;
      ret true
  end.

(** [void JointStateCallback(sensor_msgs::JointState::ConstPtr const& msg)] *)
Definition JointStateCallback (msg : list JointState) : M unit :=
  samples <- ingest msg [] ;;
  match samples with
  | [] => ret tt
  | _ :: _ =>
      n <- get ;;
      call (TimerStop timer_watchdog_) ;;
      call (TimerSetPeriod timer_watchdog_ (timeout_watchdog (cfg_ n))) ;;
      call (TimerStart timer_watchdog_) ;;
      continue <- update_state_machine ;;
      if continue then
        call (PubJointSample samples) ;;
        send_feedback
      else ret tt
  end.

(** ** Timers *)

(** [void TimeoutCallback(ros::TimerEvent const& event)] *)
Definition TimeoutCallback : M unit :=
  fsm_Update TIMEOUT.

(** [void WatchdogCallback(ros::TimerEvent const& event)] *)
Definition WatchdogCallback : M unit :=
  s <- Result RESPONSE.COMMUNICATION_ERROR false ;;
  fsm_SetState s.

(** ** Goals *)

(** The [command] constants of [ff_msgs::ArmGoal]; [OTHER_COMMAND] is any
    value that matches none of the case labels of [GoalCallback]. *)
Inductive ArmCommand :=
| ARM_STOP | ARM_DEPLOY | ARM_STOW | ARM_PAN | ARM_TILT | ARM_MOVE
| GRIPPER_CALIBRATE | GRIPPER_SET | GRIPPER_OPEN | GRIPPER_CLOSE
| OTHER_COMMAND.

(** [ff_msgs::ArmGoal] *)
Record ArmGoal := mkArmGoal {
  command : ArmCommand;
  pan : float;
  tilt : float;
  gripper : float
}.

(** The proposed pan and tilt of a PAN, TILT or MOVE command: the value of
    the goal for an axis the command names, the joint's current goal
    otherwise. *)
Definition proposed_pan (goal_ : ArmGoal) (current : JointInfo) : float :=
  match command goal_ with
  | ARM_MOVE | ARM_PAN => pan goal_
  | _ => goal current
  end.
Definition proposed_tilt (goal_ : ArmGoal) (current : JointInfo) : float :=
  match command goal_ with
  | ARM_MOVE | ARM_TILT => tilt goal_
  | _ => goal current
  end.

(** The statement after the switch of [GoalCallback], reached by [break]. *)
Definition not_allowed : M unit :=
  Result RESPONSE.NOT_ALLOWED true ;; ret tt.

(** The common prefix of the three gripper commands. *)
Definition need_to_calibrate : M unit :=
  Result RESPONSE.NEED_TO_CALIBRATE true ;; ret tt.

(** [void GoalCallback(ff_msgs::ArmGoalConstPtr const& goal)] *)
#[warnings="-inexact-float"]
Definition GoalCallback (goal_ : ArmGoal) : M unit :=
  match command goal_ with
  | ARM_STOP =>
      p <- joints_at PAN ;; joints_assign PAN (set_goal (val p)) ;;
      t <- joints_at TILT ;; joints_assign TILT (set_goal (val t)) ;;
      g <- joints_at GRIPPER ;; joints_assign GRIPPER (set_goal (val g)) ;;
      fsm_Update GOAL_CANCEL
  | ARM_DEPLOY =>
      n <- get ;;
      if bool_decide (fsm_ n = STATE.STOWED) then
        joints_assign PAN (set_goal K_PAN_DEPLOY) ;;
        joints_assign TILT (set_goal K_TILT_DEPLOY) ;;
        joints_assign GRIPPER (set_goal K_GRIPPER_DEPLOY) ;;
        fsm_Update GOAL_DEPLOY
      else not_allowed
  | ARM_STOW =>
      n <- get ;;
      if bool_decide (fsm_ n = STATE.DEPLOYED) then
        joints_assign PAN (set_goal K_PAN_STOW) ;;
        joints_assign TILT (set_goal K_TILT_STOW) ;;
        joints_assign GRIPPER (set_goal K_GRIPPER_STOW) ;;
        fsm_Update GOAL_STOW
      else not_allowed
  | ARM_PAN | ARM_TILT | ARM_MOVE =>
      n <- get ;;
      if bool_decide (fsm_ n = STATE.DEPLOYED)
         || bool_decide (fsm_ n = STATE.STOWED) then
        p <- joints_at PAN ;;
        let new_p := proposed_pan goal_ p in
        t <- joints_at TILT ;;
        let new_t := proposed_tilt goal_ t in
        if (new_t <? K_TILT_MIN)%float || (K_TILT_MAX <? new_t)%float then
          Result RESPONSE.BAD_TILT_VALUE true ;; ret tt
        else if (new_p <? K_PAN_MIN)%float || (K_PAN_MAX <? new_p)%float then
          Result RESPONSE.BAD_PAN_VALUE true ;; ret tt
        else if (K_TILT_SAFE <? new_t)%float
                && (0.1 <? abs (new_p - K_PAN_STOW))%float then
          Result RESPONSE.COLLISION_AVOIDED true ;; ret tt
        else
          joints_assign PAN (set_goal new_p) ;;
          joints_assign TILT (set_goal new_t) ;;
          fsm_Update GOAL_MOVE
      else not_allowed
  | GRIPPER_CALIBRATE =>
      n <- get ;;
      if bool_decide (fsm_ n = STATE.DEPLOYED) then
        joints_assign TILT (set_goal K_GRIPPER_CAL) ;;
        fsm_Update GOAL_CALIBRATE
      else not_allowed
  | GRIPPER_SET =>
      g <- joints_at GRIPPER ;;
      if (val g <? 0)%float then need_to_calibrate else
      n <- get ;;
      if bool_decide (fsm_ n = STATE.DEPLOYED) then
        if (gripper goal_ <? K_GRIPPER_CLOSE)%float
           || (K_GRIPPER_OPEN <? gripper goal_)%float then
          Result RESPONSE.BAD_GRIPPER_VALUE true ;; ret tt
        else
          joints_assign GRIPPER (set_goal (gripper goal_)) ;;
          fsm_Update GOAL_SET
      else not_allowed
  | GRIPPER_OPEN =>
      g <- joints_at GRIPPER ;;
      if (val g <? 0)%float then need_to_calibrate else
      n <- get ;;
      if bool_decide (fsm_ n = STATE.DEPLOYED) then
        joints_assign GRIPPER (set_goal K_GRIPPER_OPEN) ;;
        fsm_Update GOAL_SET
      else not_allowed
  | GRIPPER_CLOSE =>
      g <- joints_at GRIPPER ;;
      if (val g <? 0)%float then need_to_calibrate else
      n <- get ;;
      if bool_decide (fsm_ n = STATE.DEPLOYED) then
        joints_assign GRIPPER (set_goal K_GRIPPER_CLOSE) ;;
        fsm_Update GOAL_SET
      else not_allowed
  | OTHER_COMMAND =>
      Result RESPONSE.INVALID_COMMAND true ;; ret tt
  end.

(** [void PreemptCallback()] and [void CancelCallback()] *)
Definition PreemptCallback : M unit := fsm_Update GOAL_CANCEL.
Definition CancelCallback : M unit := fsm_Update GOAL_CANCEL.

(** [bool SetStateCallback(req, res)] *)
Definition SetStateCallback (state : STATE.t) : M bool :=
  fsm_SetState state ;; ret true.

(** ** Initialisation *)

(** [joints_[t].name = v] and the like: the setters of the fields that
    are written at initialisation and at reconfiguration. *)
Definition set_name (s : string) (j : JointInfo) : JointInfo :=
  mkJointInfo s (generic j) (val j) (goal j) (tol j) (offset j) (scale j).
Definition set_generic (s : string) (j : JointInfo) : JointInfo :=
  mkJointInfo (name j) s (val j) (goal j) (tol j) (offset j) (scale j).
Definition set_tol (t : float) (j : JointInfo) : JointInfo :=
  mkJointInfo (name j) (generic j) (val j) (goal j) t (offset j) (scale j).
Definition set_scale (s : float) (j : JointInfo) : JointInfo :=
  mkJointInfo (name j) (generic j) (val j) (goal j) (tol j) (offset j) s.
Definition set_offset (o : float) (j : JointInfo) : JointInfo :=
  mkJointInfo (name j) (generic j) (val j) (goal j) (tol j) o (scale j).

(** [dictionary_[name] = t] *)
Definition dictionary_assign (nm : string) (t : JointType) : M unit := fun n =>
  (tt, mkArmNodelet (fsm_ n) (cfg_ n) (joints_ n) (<[nm := t]> (dictionary_ n)),
   []).

(** The nodelet as the constructor leaves it: [fsm_] in INITIALIZING, the
    registry and the dictionary empty. The configuration server holds
    nothing of its own yet; [unset] stands for its content, which
    [Initialize] replaces before reading any value. *)
Definition constructed (unset : Config) : ArmNodelet :=
  mkArmNodelet STATE.INITIALIZING unset ∅ ∅.

(** [config_reader::ConfigReader::Table], as far as [GetStr] reads it:
    the strings of a table of the configuration, by key. [GetStr] fails
    on a key the table lacks. *)
Abbreviation ConfigTable := (gmap string string).

(** [void Initialize(ros::NodeHandle *nh)]. The configuration server and
    the configuration reader belong to other packages; their answers are
    arguments: [loaded] is the configuration [cfg_.Initialize] loads,
    [listen] what [cfg_.Listen] returns, and [table] the table of joints
    that [GetTable] finds under the name of the node, if it finds one.
    Each [return AssertFault(...)] ends the function where it stands, with
    the registry filled as far as it got. The callbacks handed to the
    timers, the subscriber, the service and the action server are the
    member functions of this file. *)
Definition Initialize (loaded : Config) (listen : bool)
    (table : option ConfigTable) : M unit :=
  n <- get ;;
  put (mkArmNodelet (fsm_ n) loaded (joints_ n) (dictionary_ n)) ;;
  if negb listen then
    call (AssertFault "INITIALIZATION_FAULT" "Could not load config")
  else
  match table with
  | None => call (AssertFault "INITIALIZATION_FAULT" "Cannot read LUA file")
  | Some joints =>
  match joints !! "pan" with
  | None => call (AssertFault "INITIALIZATION_FAULT" "Cannot read PAN joint")
  | Some name =>
  joints_assign PAN (set_name name) ;;
  joints_assign PAN (set_generic "pan") ;;
  n <- get ;;
  joints_assign PAN (set_tol (tol_pan (cfg_ n))) ;;
  joints_assign PAN (set_scale K_RADS_TO_DEGS) ;;
  joints_assign PAN (set_offset K_PAN_OFFSET) ;;
  dictionary_assign name PAN ;;
  match joints !! "tilt" with
  | None => call (AssertFault "INITIALIZATION_FAULT" "Cannot read TILT joint")
  | Some name =>
  joints_assign TILT (set_name name) ;;
  joints_assign TILT (set_generic "tilt") ;;
  n <- get ;;
  joints_assign TILT (set_tol (tol_tilt (cfg_ n))) ;;
  joints_assign TILT (set_scale K_RADS_TO_DEGS) ;;
  joints_assign TILT (set_offset K_TILT_OFFSET) ;;
  dictionary_assign name TILT ;;
  match joints !! "gripper" with
  | None =>
      call (AssertFault "INITIALIZATION_FAULT" "Cannot read GRIPPER joint")
  | Some name =>
  joints_assign GRIPPER (set_name name) ;;
  joints_assign GRIPPER (set_generic "gripper") ;;
  n <- get ;;
  joints_assign GRIPPER (set_tol (tol_gripper (cfg_ n))) ;;
  joints_assign GRIPPER
    (set_scale ((K_GRIPPER_OPEN - K_GRIPPER_CLOSE) / 100.00)%float) ;;
  joints_assign GRIPPER (set_offset K_GRIPPER_CLOSE) ;;
  dictionary_assign name GRIPPER ;;
  n <- get ;;
  call (CreateTimer timer_watchdog_ (timeout_watchdog (cfg_ n))) ;;
  n <- get ;;
  call (CreateTimer timer_goal_ (timeout_goal (cfg_ n))) ;;
  call (Connect sub_joint_states_) ;;
  call (Connect pub_joint_goals_) ;;
  call (Connect pub_state_) ;;
  call (Connect srv_set_state_) ;;
  call (Connect pub_arm_state_) ;;
  call (Connect pub_joint_sample_) ;;
  call (Connect server_)
  end end end end.

(** ** Reconfiguration *)

(** [bool ReconfigureCallback(dynamic_reconfigure::Config & config)].
    The call [cfg_.Reconfigure(config)] belongs to the configuration
    server; [outcome] is what it returns and the configuration it leaves. *)
Definition ReconfigureCallback (outcome : bool * Config) : M bool :=
  n <- get ;;
  match fsm_ n with
  | STATE.DEPLOYED | STATE.STOWED | STATE.UNKNOWN =>
      put (mkArmNodelet (fsm_ n) outcome.2 (joints_ n) (dictionary_ n)) ;;
      n <- get ;;
      joints_assign PAN (set_tol (tol_pan (cfg_ n))) ;;
      n <- get ;;
      joints_assign TILT (set_tol (tol_tilt (cfg_ n))) ;;
      n <- get ;;
      joints_assign GRIPPER (set_tol (tol_gripper (cfg_ n))) ;;
      ret outcome.1
  | _ => ret false
  end.

(** * Vocabulary of the properties *)

(** [jm'] is [jm] together with value-initialised entries for keys that
    [jm] lacks: what reads through [operator[]] can do to the map. *)
Definition extends (jm jm' : JointMap) : Prop :=
  forall t, jm' !! t = jm !! t \/
            (jm !! t = None /\ jm' !! t = Some JointInfo_default).

(** Every joint of the registry has its goal at its value. *)
Definition goals_held (jm : JointMap) : Prop :=
  forall t j, jm !! t = Some j -> goal j = val j.

(** Pure views of [Equal], [IsStowed] and [RequiresClosing]: their results
    as functions of the registry. *)
Definition within (t : JointType) (v : float) (jm : JointMap) : bool :=
  wrap_lt (val (peek t jm)) v (tol (peek t jm)).

Definition stowed_pose (jm : JointMap) : bool :=
  within PAN K_PAN_STOW jm && within TILT K_TILT_STOW jm.

Definition requires_closing (jm : JointMap) : bool :=
  negb (within GRIPPER K_GRIPPER_CAL jm) && negb (within GRIPPER K_GRIPPER_STOW jm).

(** The channel [Result] reports on, by the sign of the code. *)
Definition channel (response : Z) : FreeFlyerActionState :=
  if 0 <? response then AS_SUCCESS
  else if response <? 0 then AS_ABORTED else AS_PREEMPTED.

(** Example arms. The configuration has a watchdog timeout of 1 s, a goal
    timeout of 10 s, and tolerances of 3 degrees for pan and tilt and of 1
    percent for the gripper. *)
Definition example_cfg : Config :=
  mkConfig 1.0%float 10.0%float 3.0%float 3.0%float 1.0%float.

(** The table of joints of the example configuration. *)
Definition example_joints : ConfigTable :=
  <["pan" := "arm_pan"]>
    (<["tilt" := "arm_tilt"]> (<["gripper" := "arm_gripper"]> ∅)).

(** The nodelet that [Initialize] leaves when the example configuration
    is loaded without fault. *)
Definition example_initialized : ArmNodelet :=
  Eval vm_compute in
    after (Initialize example_cfg true (Some example_joints)
             (constructed example_cfg)).

(** An initialised arm in state [s] whose joints have the given values and
    goals (degrees for pan and tilt, percent for the gripper). *)
Definition example_arm (s : STATE.t)
    (pan_val pan_goal tilt_val tilt_goal gripper_val gripper_goal : float)
    : ArmNodelet :=
  let n := example_initialized in
  with_state s
    (with_joints
       (alter (fun j => set_goal gripper_goal (set_val gripper_val j)) GRIPPER
          (alter (fun j => set_goal tilt_goal (set_val tilt_val j)) TILT
             (alter (fun j => set_goal pan_goal (set_val pan_val j)) PAN
                (joints_ n)))) n).

(** The (state, event) pairs of the table of section 4.4 of the
    specification, a mask of two events counting as two pairs. *)
Definition table_pairs : list (STATE.t * Event) :=
  [ (STATE.INITIALIZING, READY);
    (STATE.UNKNOWN, STOWED); (STATE.UNKNOWN, DEPLOYED);
    (STATE.STOWED, DEPLOYED); (STATE.DEPLOYED, STOWED);
    (STATE.STOWED, GOAL_DEPLOY);
    (STATE.DEPLOYING_PANNING, PAN_COMPLETE);
    (STATE.DEPLOYING_TILTING, TILT_COMPLETE);
    (STATE.DEPLOYED, GOAL_STOW);
    (STATE.STOWING_SETTING, GRIPPER_COMPLETE);
    (STATE.STOWING_SETTING, TIMEOUT); (STATE.STOWING_SETTING, GOAL_CANCEL);
    (STATE.STOWING_PANNING, PAN_COMPLETE);
    (STATE.STOWING_PANNING, TIMEOUT); (STATE.STOWING_PANNING, GOAL_CANCEL);
    (STATE.STOWING_TILTING, TILT_COMPLETE);
    (STATE.STOWING_TILTING, TIMEOUT); (STATE.STOWING_TILTING, GOAL_CANCEL);
    (STATE.STOWED, GOAL_MOVE); (STATE.DEPLOYED, GOAL_MOVE);
    (STATE.PANNING, PAN_COMPLETE);
    (STATE.PANNING, TIMEOUT); (STATE.PANNING, GOAL_CANCEL);
    (STATE.TILTING, TILT_COMPLETE);
    (STATE.TILTING, TIMEOUT); (STATE.TILTING, GOAL_CANCEL);
    (STATE.DEPLOYED, GOAL_SET);
    (STATE.SETTING, GRIPPER_COMPLETE);
    (STATE.SETTING, TIMEOUT); (STATE.SETTING, GOAL_CANCEL);
    (STATE.DEPLOYED, GOAL_CALIBRATE);
    (STATE.CALIBRATING, CALIBRATE_COMPLETE);
    (STATE.CALIBRATING, TIMEOUT); (STATE.CALIBRATING, GOAL_CANCEL) ].

(** The joint goals published by a list of calls, in order. *)
Definition joint_goals (cs : list Call) : list (string * float) :=
  omap (fun c => match c with
                 | PubJointGoal joint position => Some (joint, position)
                 | _ => None
                 end) cs.

(** The goal that [Arm] publishes for a joint: its low-level name and its
    goal in driver units. *)
Definition driver_goal (j : JointInfo) : string * float :=
  (name j, ((goal j - offset j) / scale j)%float).

(** The three checks of a PAN, TILT or MOVE command, on the proposed pan
    [new_p] and tilt [new_t]. *)
Definition tilt_out_of_bounds (new_t : float) : bool :=
  (new_t <? K_TILT_MIN)%float || (K_TILT_MAX <? new_t)%float.
Definition pan_out_of_bounds (new_p : float) : bool :=
  (new_p <? K_PAN_MIN)%float || (K_PAN_MAX <? new_p)%float.
#[warnings="-inexact-float"]
Definition would_collide (new_p new_t : float) : bool :=
  (K_TILT_SAFE <? new_t)%float && (0.1 <? abs (new_p - K_PAN_STOW))%float.

Definition moving_command (c : ArmCommand) : bool :=
  match c with ARM_PAN | ARM_TILT | ARM_MOVE => true | _ => false end.

Definition resting (s : STATE.t) : bool :=
  match s with STATE.STOWED | STATE.DEPLOYED => true | _ => false end.

(** The codes with which [GoalCallback] rejects a command itself, and the
    codes with which a transition of the table resolves an action. *)
Definition rejection_codes : list Z :=
  [RESPONSE.BAD_TILT_VALUE; RESPONSE.BAD_PAN_VALUE; RESPONSE.COLLISION_AVOIDED;
   RESPONSE.NEED_TO_CALIBRATE; RESPONSE.BAD_GRIPPER_VALUE;
   RESPONSE.INVALID_COMMAND; RESPONSE.NOT_ALLOWED].
Definition action_codes : list Z :=
  [RESPONSE.SUCCESS; RESPONSE.PAN_FAILED; RESPONSE.TILT_FAILED;
   RESPONSE.GRIPPER_FAILED; RESPONSE.CALIBRATE_FAILED].

(** Every result among the calls carries an action code. *)
Definition only_action_results (cs : list Call) : Prop :=
  forall ch c, In (SendResult ch c) cs -> In c action_codes.

(** A property of the transitions of a table. *)
Definition all_transitions (P : TransitionCallback -> Prop) (tbl : Table) : Prop :=
  Forall (fun entry => P entry.2) tbl.

(** What a rejection leaves behind, relative to the nodelet [n0] that
    received the command. *)
Definition rejection_outcome (n0 : ArmNodelet) (code : Z)
    (r : unit * ArmNodelet * list Call) : Prop :=
  calls r = [SendResult AS_ABORTED code]
  /\ fsm_ (after r) = fsm_ n0
  /\ extends (snap <$> joints_ n0) (joints_ (after r)).

(** A run is sound for rejections when any rejection code among its
    results comes with the outcome of a rejection. *)
Definition rejections_sound (n0 : ArmNodelet) (r : unit * ArmNodelet * list Call)
    : Prop :=
  forall ch code,
    In code rejection_codes -> In (SendResult ch code) (calls r) ->
    rejection_outcome n0 code r.

(** The joint a tracking state waits on and the event that completes it. *)
Definition awaited_joint (s : STATE.t) : JointType :=
  match s with
  | STATE.PANNING | STATE.STOWING_PANNING | STATE.DEPLOYING_PANNING => PAN
  | STATE.TILTING | STATE.STOWING_TILTING | STATE.DEPLOYING_TILTING => TILT
  | _ => GRIPPER
  end.
Definition complete_event (s : STATE.t) : Event :=
  match s with
  | STATE.PANNING | STATE.STOWING_PANNING | STATE.DEPLOYING_PANNING => PAN_COMPLETE
  | STATE.TILTING | STATE.STOWING_TILTING | STATE.DEPLOYING_TILTING => TILT_COMPLETE
  | STATE.CALIBRATING => CALIBRATE_COMPLETE
  | _ => GRIPPER_COMPLETE
  end.

(** A message has a recognised entry when one of its names is in the
    dictionary. *)
Definition recognised (msg : list JointState) (n : ArmNodelet) : Prop :=
  exists m, In m msg /\ is_Some (dictionary_ n !! s_name m).

(** The test that [JointStateCallback] makes in a tracking state. *)
Definition completion_test (n : ArmNodelet) : bool :=
  match fsm_ n with
  | STATE.CALIBRATING => negb (within GRIPPER K_GRIPPER_CAL (joints_ n))
  | s => within (awaited_joint s)
           (goal (peek (awaited_joint s) (joints_ n))) (joints_ n)
  end.

(** What a joint is configured with, as opposed to its value and goal. *)
Definition static (j : JointInfo) : string * string * float * float * float :=
  (name j, generic j, tol j, offset j, scale j).

(** What is configured or observed of a joint: everything but its goal. *)
Definition observed (j : JointInfo) : string * string * float * float * float * float :=
  (static j, val j).

(** The registry [jm'] has every joint of [jm] and shows the same [view] of
    every joint as [jm]. *)
Definition keeps {X} (view : JointInfo -> X) (jm jm' : JointMap) : Prop :=
  forall t, (is_Some (jm !! t) -> is_Some (jm' !! t))
            /\ view (peek t jm') = view (peek t jm).

(** An action keeps the [view] of every joint and leaves the configuration
    and the dictionary alone. *)
Definition preserves {X A} (view : JointInfo -> X) (m : M A) : Prop :=
  forall n, keeps view (joints_ n) (joints_ (after (m n)))
            /\ cfg_ (after (m n)) = cfg_ n
            /\ dictionary_ (after (m n)) = dictionary_ n.


(** Between [n] and [n'] no joint is lost and nothing but the goals of the
    joints differs in the registry; configuration and dictionary are the
    same. *)
Definition only_goals_differ (n n' : ArmNodelet) : Prop :=
  cfg_ n' = cfg_ n /\ dictionary_ n' = dictionary_ n
  /\ forall t,
       (is_Some (joints_ n !! t) -> is_Some (joints_ n' !! t))
       /\ name (peek t (joints_ n')) = name (peek t (joints_ n))
       /\ generic (peek t (joints_ n')) = generic (peek t (joints_ n))
       /\ val (peek t (joints_ n')) = val (peek t (joints_ n))
       /\ tol (peek t (joints_ n')) = tol (peek t (joints_ n))
       /\ offset (peek t (joints_ n')) = offset (peek t (joints_ n))
       /\ scale (peek t (joints_ n')) = scale (peek t (joints_ n)).

(** As [only_goals_differ], but the values of the joints may differ too. *)
Definition calibration_kept (n n' : ArmNodelet) : Prop :=
  cfg_ n' = cfg_ n /\ dictionary_ n' = dictionary_ n
  /\ forall t,
       (is_Some (joints_ n !! t) -> is_Some (joints_ n' !! t))
       /\ name (peek t (joints_ n')) = name (peek t (joints_ n))
       /\ generic (peek t (joints_ n')) = generic (peek t (joints_ n))
       /\ tol (peek t (joints_ n')) = tol (peek t (joints_ n))
       /\ offset (peek t (joints_ n')) = offset (peek t (joints_ n))
       /\ scale (peek t (joints_ n')) = scale (peek t (joints_ n)).

(** The results sent by a list of calls, in order. *)
Definition results (cs : list Call) : list (FreeFlyerActionState * Z) :=
  omap (fun c => match c with
                 | SendResult ch code => Some (ch, code)
                 | _ => None
                 end) cs.

(** The state that telemetry gives a nodelet that tracks no goal: UNKNOWN
    once connected, and then STOWED or DEPLOYED by the pose. *)
Definition background_state (s : STATE.t) (stowed : bool) : STATE.t :=
  match s with
  | STATE.INITIALIZING => STATE.UNKNOWN
  | _ => if stowed then STATE.STOWED else STATE.DEPLOYED
  end.

(** Calls that only raise an event or publish a state. *)
Definition quiet (c : Call) : Prop :=
  match c with
  | FsmUpdate _ | PubState _ | PubArmState _ _ => True
  | _ => False
  end.

(** The states that have a transition for TIMEOUT and GOAL_CANCEL, and the
    code with which that transition resolves the action. The two
    deploying states have no such transition. *)
Definition abortable (s : STATE.t) : bool :=
  match s with
  | STATE.PANNING | STATE.TILTING | STATE.SETTING | STATE.CALIBRATING
  | STATE.STOWING_SETTING | STATE.STOWING_PANNING | STATE.STOWING_TILTING => true
  | _ => false
  end.
Definition failure_code (s : STATE.t) : Z :=
  match s with
  | STATE.PANNING | STATE.STOWING_PANNING => RESPONSE.PAN_FAILED
  | STATE.TILTING | STATE.STOWING_TILTING => RESPONSE.TILT_FAILED
  | STATE.CALIBRATING => RESPONSE.CALIBRATE_FAILED
  | _ => RESPONSE.GRIPPER_FAILED
  end.

(** The states whose completion event starts the next sub-action, with the
    joint that is commanded next and the state that follows. *)
Definition chained (s : STATE.t) : bool :=
  match s with
  | STATE.PANNING | STATE.STOWING_PANNING | STATE.DEPLOYING_PANNING
  | STATE.STOWING_SETTING => true
  | _ => false
  end.
Definition next_joint (s : STATE.t) : JointType :=
  match s with STATE.STOWING_SETTING => PAN | _ => TILT end.
Definition next_state (s : STATE.t) : STATE.t :=
  match s with
  | STATE.PANNING => STATE.TILTING
  | STATE.STOWING_PANNING => STATE.STOWING_TILTING
  | STATE.DEPLOYING_PANNING => STATE.DEPLOYING_TILTING
  | _ => STATE.STOWING_PANNING
  end.

(** The states whose completion event completes the action. *)
Definition final (s : STATE.t) : bool :=
  match s with
  | STATE.TILTING | STATE.STOWING_TILTING | STATE.DEPLOYING_TILTING
  | STATE.SETTING | STATE.CALIBRATING => true
  | _ => false
  end.

(** The resting state of a pose. *)
Definition resting_state (stowed : bool) : STATE.t :=
  if stowed then STATE.STOWED else STATE.DEPLOYED.

(** A property of the entries of a table that may depend on the state and
    the event an entry is registered for. *)
Definition all_entries (P : STATE.t -> Event -> TransitionCallback -> Prop)
    (tbl : Table) : Prop :=
  Forall (fun entry => P entry.1.1 entry.1.2 entry.2) tbl.

(** What a transition taken in state [s] may do about results: send none
    and stay in an action if it was in one, or send exactly one and leave
    the action. *)
Definition one_result (s : STATE.t) (r : STATE.t * ArmNodelet * list Call) : Prop :=
  (results (calls r) = [] /\ (tracking s = true -> tracking (value r) = true))
  \/ (exists ch code, results (calls r) = [(ch, code)]
      /\ tracking s = true /\ tracking (value r) = false).

(** The three commands that move the gripper, and the opening each asks
    for. *)
Definition gripper_motion (c : ArmCommand) : bool :=
  match c with GRIPPER_SET | GRIPPER_OPEN | GRIPPER_CLOSE => true | _ => false end.
Definition gripper_target (goal_ : ArmGoal) : float :=
  match command goal_ with
  | GRIPPER_OPEN => K_GRIPPER_OPEN
  | GRIPPER_CLOSE => K_GRIPPER_CLOSE
  | _ => gripper goal_
  end.

(** The states in which [GoalCallback] lets a command through to the
    state machine. *)
Definition accepted_in (c : ArmCommand) (s : STATE.t) : bool :=
  match c with
  | ARM_STOP => true
  | ARM_DEPLOY => bool_decide (s = STATE.STOWED)
  | ARM_STOW => bool_decide (s = STATE.DEPLOYED)
  | ARM_PAN | ARM_TILT | ARM_MOVE => resting s
  | GRIPPER_CALIBRATE | GRIPPER_SET | GRIPPER_OPEN | GRIPPER_CLOSE =>
      bool_decide (s = STATE.DEPLOYED)
  | OTHER_COMMAND => false
  end.

(** The opening a GRIPPER_SET asks for lies between closed and open; the
    other commands need no check. *)
Definition gripper_in_range (goal_ : ArmGoal) : bool :=
  match command goal_ with
  | GRIPPER_SET =>
      negb ((gripper goal_ <? K_GRIPPER_CLOSE)%float
            || (K_GRIPPER_OPEN <? gripper goal_)%float)
  | _ => true
  end.

(** [joints_[t].goal = joints_[t].val] on a registry. *)
Definition freeze (t : JointType) (jm : JointMap) : JointMap :=
  <[t := set_goal (val (peek t jm)) (peek t jm)]> (touch t jm).

(** The states in which [ReconfigureCallback] accepts a reconfiguration. *)
Definition reconfigurable (s : STATE.t) : bool :=
  match s with
  | STATE.DEPLOYED | STATE.STOWED | STATE.UNKNOWN => true
  | _ => false
  end.

(** The value that telemetry records for a joint [j] from the driver
    position [position]. *)
Definition human_value (j : JointInfo) (position : float) : float :=
  if String.eqb (generic j) "gripper" && (position =? K_GRIPPER_CAL)%float
  then K_GRIPPER_CAL
  else (position * scale j + offset j)%float.

(** The key under which the configuration's table of joints names the
    low-level joint of [t]. *)
Definition config_key (t : JointType) : string :=
  match t with PAN => "pan" | TILT => "tilt" | GRIPPER => "gripper" end.

(** The low-level name that [Initialize] can read for joint [t]: none when
    the configuration could not be listened to, when it has no table of
    joints, or when the table lacks the key. *)
Definition configured_name (listen : bool) (table : option ConfigTable)
    (t : JointType) : option string :=
  match listen, table with
  | true, Some joints => joints !! config_key t
  | _, _ => None
  end.

(** The joints whose names [Initialize] reads up to that of [t], in its
    order: pan, tilt, gripper. *)
Definition read_up_to (t : JointType) : list JointType :=
  match t with
  | PAN => [PAN]
  | TILT => [PAN; TILT]
  | GRIPPER => [PAN; TILT; GRIPPER]
  end.

(** [Initialize] gets as far as registering [t] when it can read the name
    of [t] and of every joint before it. *)
Definition registers (listen : bool) (table : option ConfigTable)
    (t : JointType) : bool :=
  forallb (fun t' => match configured_name listen table t' with
                     | Some _ => true
                     | None => false
                     end) (read_up_to t).

(** The entry of a joint just registered under the low-level name [nm]:
    value and goal are zero. *)
Definition initial_entry (cfg : Config) (t : JointType) (nm : string)
    : JointInfo :=
  match t with
  | PAN =>
      mkJointInfo nm "pan" 0 0 (tol_pan cfg) K_PAN_OFFSET K_RADS_TO_DEGS
  | TILT =>
      mkJointInfo nm "tilt" 0 0 (tol_tilt cfg) K_TILT_OFFSET K_RADS_TO_DEGS
  | GRIPPER =>
      mkJointInfo nm "gripper" 0 0 (tol_gripper cfg) K_GRIPPER_CLOSE
        ((K_GRIPPER_OPEN - K_GRIPPER_CLOSE) / 100)%float
  end.

(** The timers and endpoints that a complete initialisation sets up, in
    order. *)
Definition setup (cfg : Config) : list Call :=
  [CreateTimer timer_watchdog_ (timeout_watchdog cfg);
   CreateTimer timer_goal_ (timeout_goal cfg);
   Connect sub_joint_states_; Connect pub_joint_goals_; Connect pub_state_;
   Connect srv_set_state_; Connect pub_arm_state_; Connect pub_joint_sample_;
   Connect server_].

(** The code with which [GoalCallback] refuses a command itself, before
    the state machine sees it, if it refuses it. The tests come in this
    order: an uncalibrated gripper, for the commands that move it; the
    current state; for PAN, TILT and MOVE the proposed tilt, the proposed
    pan and the collision test; for GRIPPER_SET the opening asked for.
    STOP is never refused, and a command that is none of the ten known ones
    always is. *)
Definition refusal (goal_ : ArmGoal) (n : ArmNodelet) : option Z :=
  let c := command goal_ in
  let new_p := proposed_pan goal_ (peek PAN (joints_ n)) in
  let new_t := proposed_tilt goal_ (peek TILT (joints_ n)) in
  match c with
  | ARM_STOP => None
  | OTHER_COMMAND => Some RESPONSE.INVALID_COMMAND
  | _ =>
      if gripper_motion c && (val (peek GRIPPER (joints_ n)) <? 0)%float
      then Some RESPONSE.NEED_TO_CALIBRATE
      else if negb (accepted_in c (fsm_ n)) then Some RESPONSE.NOT_ALLOWED
      else if moving_command c && tilt_out_of_bounds new_t
      then Some RESPONSE.BAD_TILT_VALUE
      else if moving_command c && pan_out_of_bounds new_p
      then Some RESPONSE.BAD_PAN_VALUE
      else if moving_command c && would_collide new_p new_t
      then Some RESPONSE.COLLISION_AVOIDED
      else if negb (gripper_in_range goal_)
      then Some RESPONSE.BAD_GRIPPER_VALUE
      else None
  end.

(** * Properties *)

(** ** Doubles: subtraction under [fabs] *)

Section SpecFloatFacts.
Variables prec emax : Z.

Lemma SFabs_binary_round_aux (s s' : bool) (m e : Z) (l : location) :
  SFabs (binary_round_aux prec emax s m e l)
  = SFabs (binary_round_aux prec emax s' m e l).
Proof.
  unfold binary_round_aux.
  destruct (shr_fexp prec emax m e l) as [mrs e1].
  destruct (shr_fexp prec emax _ e1 loc_Exact) as [mrs' e2].
  destruct (shr_m mrs') as [|p|p]; [reflexivity| |reflexivity].
  destruct (e2 <=? emax - prec); reflexivity.
Qed.

Lemma SFabs_binary_round (s s' : bool) (m : positive) (e : Z) :
  SFabs (binary_round prec emax s m e) = SFabs (binary_round prec emax s' m e).
Proof.
  unfold binary_round.
  destruct (shl_align m e _) as [mz ez].
  apply SFabs_binary_round_aux.
Qed.

Lemma SFabs_binary_normalize_opp (m e : Z) (sz sz' : bool) :
  SFabs (binary_normalize prec emax m e sz)
  = SFabs (binary_normalize prec emax (- m) e sz').
Proof.
  destruct m as [|p|p]; cbn [Z.opp binary_normalize];
    [reflexivity | apply SFabs_binary_round ..].
Qed.

(** [|a - b| = |b - a|], for all values including infinities and NaN. *)
Lemma SFabs_SFsub_comm (a b : spec_float) :
  SFabs (SFsub prec emax a b) = SFabs (SFsub prec emax b a).
Proof.
  destruct a as [sa|sa| |sa ma ea], b as [sb|sb| |sb mb eb];
    try reflexivity;
    try (destruct sa, sb; reflexivity);
    try (destruct sa; reflexivity); try (destruct sb; reflexivity).
  cbn [SFsub].
  rewrite (Z.min_comm eb ea).
  rewrite (SFabs_binary_normalize_opp _ _ false false).
  f_equal. f_equal. lia.
Qed.
End SpecFloatFacts.

Lemma abs_sub_comm (x y : float) : abs (x - y) = abs (y - x).
Proof.
  apply Prim2SF_inj.
  rewrite !abs_spec, !sub_spec.
  apply SFabs_SFsub_comm.
Qed.

(** ** The joint registry under [operator[]] *)

Lemma extends_refl (jm : JointMap) : extends jm jm.
Proof. intros t; by left. Qed.

Lemma extends_trans (jm1 jm2 jm3 : JointMap) :
  extends jm1 jm2 -> extends jm2 jm3 -> extends jm1 jm3.
Proof.
  intros H12 H23 t.
  destruct (H12 t) as [E|[E1 E2]], (H23 t) as [F|[F1 F2]].
  - left. congruence.
  - right. split; congruence.
  - right. split; congruence.
  - congruence.
Qed.

Lemma extends_touch (t : JointType) (jm : JointMap) : extends jm (touch t jm).
Proof.
  intros t'. unfold touch. destruct (jm !! t) eqn:E; [by left|].
  destruct (decide (t = t')) as [->|Hne].
  - right. by rewrite lookup_insert_eq.
  - left. by rewrite lookup_insert_ne.
Qed.

Lemma extends_peek (t : JointType) (jm jm' : JointMap) :
  extends jm jm' -> peek t jm' = peek t jm.
Proof.
  intros H. unfold peek. destruct (H t) as [->|[-> ->]]; reflexivity.
Qed.

Lemma extends_lookup (jm jm' : JointMap) (t : JointType) (j : JointInfo) :
  extends jm jm' -> jm !! t = Some j -> jm' !! t = Some j.
Proof. intros H E. destruct (H t) as [->|[F _]]; congruence. Qed.

Lemma extends_snap (jm jm' : JointMap) :
  extends jm jm' -> extends (snap <$> jm) (snap <$> jm').
Proof.
  intros H t. rewrite !lookup_fmap.
  destruct (H t) as [->|[-> ->]]; [by left | by right].
Qed.

Lemma extends_assign (jm jm' : JointMap) (t : JointType) (j : JointInfo) :
  extends jm jm' -> extends (<[t := j]> jm) (<[t := j]> jm').
Proof.
  intros H t'. destruct (decide (t = t')) as [->|Hne].
  - left. by rewrite !lookup_insert_eq.
  - rewrite !lookup_insert_ne by done. apply H.
Qed.

Lemma peek_touch (t t' : JointType) (jm : JointMap) :
  peek t (touch t' jm) = peek t jm.
Proof. apply extends_peek, extends_touch. Qed.

Lemma touch_present (t : JointType) (jm : JointMap) :
  is_Some (jm !! t) -> touch t jm = jm.
Proof. intros [j E]. unfold touch. by rewrite E. Qed.

Lemma touch_touch (t : JointType) (jm : JointMap) :
  touch t (touch t jm) = touch t jm.
Proof.
  apply touch_present. unfold touch.
  destruct (jm !! t) eqn:E; [by rewrite E | by rewrite lookup_insert_eq].
Qed.

Lemma peek_snap (t : JointType) (jm : JointMap) :
  peek t (snap <$> jm) = snap (peek t jm).
Proof. unfold peek. rewrite lookup_fmap. by destruct (jm !! t). Qed.

Lemma peek_lookup (t : JointType) (jm : JointMap) (j : JointInfo) :
  jm !! t = Some j -> peek t jm = j.
Proof. intros E. unfold peek. by rewrite E. Qed.

Lemma extends_snap_held (jm jm' : JointMap) :
  extends (snap <$> jm) jm' -> goals_held jm'.
Proof.
  intros H t j E. destruct (H t) as [F|[_ F]]; rewrite E in F.
  - symmetry in F. rewrite lookup_fmap in F.
    destruct (jm !! t) as [j0|]; [|done]. by injection F as <-.
  - by injection F as ->.
Qed.

Lemma extends_snap_lookup (jm jm' : JointMap) (t : JointType) (j : JointInfo) :
  extends (snap <$> jm) jm' -> jm !! t = Some j -> jm' !! t = Some (snap j).
Proof.
  intros H E. apply (extends_lookup _ _ _ _ H).
  by rewrite lookup_fmap, E.
Qed.

Lemma within_extends (t : JointType) (v : float) (jm jm' : JointMap) :
  extends jm jm' -> within t v jm' = within t v jm.
Proof. intros H. unfold within. by rewrite (extends_peek _ _ _ H). Qed.

Lemma within_snap (t : JointType) (v : float) (jm : JointMap) :
  within t v (snap <$> jm) = within t v jm.
Proof. unfold within. by rewrite peek_snap. Qed.

Lemma stowed_pose_extends (jm jm' : JointMap) :
  extends jm jm' -> stowed_pose jm' = stowed_pose jm.
Proof. intros H. unfold stowed_pose. by rewrite !(within_extends _ _ _ _ H). Qed.

Lemma stowed_pose_snap (jm : JointMap) : stowed_pose (snap <$> jm) = stowed_pose jm.
Proof. unfold stowed_pose. by rewrite !within_snap. Qed.

(** ** Running the helpers *)

#[global] Arguments wrap_lt : simpl never.
#[global] Arguments within : simpl never.
#[global] Arguments touch : simpl never.
#[global] Arguments peek : simpl never.
#[global] Arguments snap : simpl never.
#[global] Arguments Equal : simpl never.
#[global] Arguments IsStowed : simpl never.
#[global] Arguments RequiresClosing : simpl never.
#[global] Arguments Arm : simpl never.
#[global] Arguments Result : simpl never.
#[global] Arguments UpdateCallback : simpl never.
#[global] Arguments fsm_Update : simpl never.
#[global] Arguments fsm_SetState : simpl never.
#[global] Arguments fsm_find : simpl never.
#[global] Arguments fsm_table : simpl never.

Lemma Equal_run (t : JointType) (v : float) (n : ArmNodelet) :
  Equal t v n = (within t v (joints_ n), with_joints (touch t (joints_ n)) n, []).
Proof.
  unfold Equal, bind, joints_at, ret, within. cbn.
  by rewrite !peek_touch, touch_touch.
Qed.

Lemma IsStowed_run (n : ArmNodelet) :
  exists jm', IsStowed n = (stowed_pose (joints_ n), with_joints jm' n, [])
              /\ extends (joints_ n) jm'.
Proof.
  unfold IsStowed, bind. rewrite Equal_run. unfold stowed_pose.
  destruct (within PAN K_PAN_STOW (joints_ n)) eqn:Ep; cbn.
  - rewrite Equal_run. cbn. rewrite (within_extends _ _ _ _ (extends_touch _ _)).
    eexists; split;
      [by destruct (within TILT K_TILT_STOW (joints_ n))|].
    eapply extends_trans; apply extends_touch.
  - eexists; split; [done | apply extends_touch].
Qed.

Lemma RequiresClosing_run (n : ArmNodelet) :
  RequiresClosing n
  = (requires_closing (joints_ n), with_joints (touch GRIPPER (joints_ n)) n, []).
Proof.
  unfold RequiresClosing, bind. rewrite Equal_run. unfold requires_closing.
  destruct (within GRIPPER K_GRIPPER_CAL (joints_ n)) eqn:Ec; cbn; [done|].
  rewrite Equal_run. cbn.
  by rewrite (within_extends _ _ _ _ (extends_touch _ _)), touch_touch.
Qed.

Lemma SendResult_by_sign_run (response : Z) (n : ArmNodelet) :
  SendResult_by_sign response n = (tt, n, [SendResult (channel response) response]).
Proof.
  unfold SendResult_by_sign, channel.
  destruct (0 <? response); [done|]. by destruct (response <? 0).
Qed.

Lemma Result_run (response : Z) (send : bool) (n : ArmNodelet) :
  exists jm',
    Result response send n
    = (if response =? RESPONSE.COMMUNICATION_ERROR then STATE.INITIALIZING
       else if stowed_pose (joints_ n) then STATE.STOWED else STATE.DEPLOYED,
       with_joints jm' n,
       if tracking (fsm_ n) || send
       then [SendResult (channel response) response] else [])
    /\ extends (snap <$> joints_ n) jm'
    /\ (response = RESPONSE.COMMUNICATION_ERROR -> jm' = snap <$> joints_ n).
Proof.
  unfold Result, bind, get, put. cbn.
  set (n1 := with_joints (snap <$> joints_ n) n).
  assert (Hs : (if tracking (fsm_ n) then true else send) = tracking (fsm_ n) || send)
    by by destruct (tracking (fsm_ n)).
  rewrite Hs. clear Hs.
  assert (Hsend : forall b : bool,
    (if b then SendResult_by_sign response else ret tt) n1
    = (tt, n1, if b then [SendResult (channel response) response] else [])).
  { intros []; [apply SendResult_by_sign_run | reflexivity]. }
  rewrite Hsend. clear Hsend.
  destruct (Z.eqb_spec response RESPONSE.COMMUNICATION_ERROR) as [Hc|Hc].
  - cbn. rewrite app_nil_r.
    eexists; split; [reflexivity | split; [apply extends_refl | done]].
  - destruct (IsStowed_run n1) as (jm' & -> & Hext). cbn.
    rewrite stowed_pose_snap.
    exists jm'.
    destruct (stowed_pose (joints_ n)); cbn; rewrite app_nil_r; done.
Qed.

Lemma IsStowed_value (n : ArmNodelet) :
  value (IsStowed n) = stowed_pose (joints_ n).
Proof. by destruct (IsStowed_run n) as (jm' & -> & _). Qed.

Lemma Equal_value (t : JointType) (v : float) (n : ArmNodelet) :
  value (Equal t v n) = within t v (joints_ n).
Proof. by rewrite Equal_run. Qed.

Lemma RequiresClosing_value (n : ArmNodelet) :
  value (RequiresClosing n) = requires_closing (joints_ n).
Proof. by rewrite RequiresClosing_run. Qed.

(** ** Resolution of an action: [Result] *)

(** C1: a call [Result(code)] sets the goal of every joint of the registry
    to the joint's current value; when the state being left is one in which
    a goal is tracked, it reports the code on the result channel; and it
    returns INITIALIZING when the code is COMMUNICATION_ERROR, otherwise
    STOWED when [IsStowed] holds, that is when pan is within wraparound
    tolerance of 0 and tilt within wraparound tolerance of 180, otherwise
    DEPLOYED. The current state itself is left to the caller. *)
Theorem Result_resolves (response : Z) (send : bool) (n : ArmNodelet) :
  let r := Result response send n in
  (forall t j, joints_ n !! t = Some j -> joints_ (after r) !! t = Some (snap j))
  /\ goals_held (joints_ (after r))
  /\ (tracking (fsm_ n) = true ->
      calls r = [SendResult (channel response) response])
  /\ value r = (if response =? RESPONSE.COMMUNICATION_ERROR then STATE.INITIALIZING
               else if value (IsStowed n) then STATE.STOWED
               else STATE.DEPLOYED)
  /\ value (IsStowed n)
     = value (Equal PAN 0%float n) && value (Equal TILT 180%float n)
  /\ fsm_ (after r) = fsm_ n.
Proof.
  intros r. subst r.
  destruct (Result_run response send n) as (jm' & -> & Hext & _). cbn.
  rewrite IsStowed_value, !Equal_value.
  repeat split.
  - intros t j E. by apply (extends_snap_lookup _ _ _ _ Hext).
  - by apply (extends_snap_held (joints_ n)).
  - by intros ->.
Qed.

Lemma Result_resolves_witness :
  let n := example_arm STATE.TILTING 0 0 178.5 180 (-100) (-100) in
  let r := Result RESPONSE.SUCCESS false n in
  tracking (fsm_ n) = true
  /\ calls r = [SendResult AS_SUCCESS RESPONSE.SUCCESS]
  /\ value r = STATE.STOWED
  /\ joints_ (after r) !! TILT
     = Some (mkJointInfo "arm_tilt" "tilt" 178.5 178.5 3 90 K_RADS_TO_DEGS).
Proof.
  pose proof (Result_resolves RESPONSE.SUCCESS false
                (example_arm STATE.TILTING 0 0 178.5 180 (-100) (-100)))
    as (Hsnap & _ & Hsend & Hnext & _).
  split; [reflexivity|].
  split; [exact (Hsend eq_refl)|].
  split; [rewrite Hnext; reflexivity|].
  apply (Hsnap TILT (mkJointInfo "arm_tilt" "tilt" 178.5 180 3 90 K_RADS_TO_DEGS)).
  reflexivity.
Defined.

(** C4, as the code has it: a call of [Result] publishes no joint goal at
    all. It writes the hold-position target into the goal field of every
    joint of the registry, and the only call it can make is the report on
    the result channel. *)
Theorem Result_publishes_no_joint_goal (response : Z) (send : bool) (n : ArmNodelet) :
  let r := Result response send n in
  (forall joint position, ~ In (PubJointGoal joint position) (calls r))
  /\ (calls r = [] \/ calls r = [SendResult (channel response) response])
  /\ goals_held (joints_ (after r)).
Proof.
  intros r. subst r.
  destruct (Result_run response send n) as (jm' & -> & Hext & _). cbn.
  split; [|split].
  - intros joint position. destruct (tracking (fsm_ n) || send); cbn; [|tauto].
    intros [H|[]]. discriminate H.
  - destruct (tracking (fsm_ n) || send); auto.
  - by apply (extends_snap_held (joints_ n)).
Qed.

(** C4 as stated fails: the pan sub-action of an arm that is panning, at
    20 degrees on its way to 45, is resolved with PAN_FAILED, and no joint goal is
    published for any of the three joints. *)
Lemma Result_hold_command_counterexample :
  let n := example_arm STATE.PANNING 20 45 90 90 30 30 in
  ~ (forall t, exists position,
       In (PubJointGoal (name (peek t (joints_ n))) position)
          (calls (Result RESPONSE.PAN_FAILED false n))).
Proof.
  cbv zeta. intros H. destruct (H PAN) as [position Hin].
  vm_compute in Hin. destruct Hin as [Hin|[]]. discriminate Hin.
Qed.

(** ** The tolerant comparison: [Equal] *)

(** C5: [Equal] computes [180 - | |value - target| - 180 | < tolerance];
    the comparison is unchanged when value and target are swapped; and
    with a tolerance of 3 degrees, 179 and -179 degrees are at target of
    each other. *)
Theorem Equal_wraparound (t : JointType) (v : float) (n : ArmNodelet) :
  let j := peek t (joints_ n) in
  value (Equal t v n)
  = (180 - abs (abs (val j - v) - 180) <? tol j)%float
  /\ value (Equal t v n)
     = value (Equal t (val j) (after (joints_assign t (set_val v) n)))
  /\ (forall x y tolerance : float, wrap_lt x y tolerance = wrap_lt y x tolerance)
  /\ wrap_lt 179 (-179) 3 = true
  /\ wrap_lt (-179) 179 3 = true.
Proof.
  intros j. subst j. rewrite !Equal_value.
  assert (Hsym : forall x y tolerance : float,
             wrap_lt x y tolerance = wrap_lt y x tolerance).
  { intros x y tolerance. unfold wrap_lt. by rewrite (abs_sub_comm x y). }
  repeat split; try done.
  unfold within, joints_assign, peek. cbn. rewrite lookup_insert_eq. cbn.
  apply Hsym.
Qed.

(** ** Running the state machine *)

Lemma bind_run {A B} (m : M A) (f : A -> M B) (n : ArmNodelet) :
  bind m f n
  = (value (f (value (m n)) (after (m n))),
     after (f (value (m n)) (after (m n))),
     calls (m n) ++ calls (f (value (m n)) (after (m n)))).
Proof.
  unfold bind. destruct (m n) as [[a n1] o1]. cbn.
  by destruct (f a n1) as [[b n2] o2].
Qed.

Lemma Arm_run (type : JointType) (n : ArmNodelet) :
  Arm type n
  = match joints_ n !! type with
    | None => (false, n, [])
    | Some it =>
        (true, n,
         [PubJointGoal (name it) ((goal it - offset it) / scale it)%float;
          TimerStop timer_goal_;
          TimerSetPeriod timer_goal_ (timeout_goal (cfg_ n));
          TimerStart timer_goal_])
    end.
Proof. unfold Arm, bind, get. cbn. by destruct (joints_ n !! type). Qed.

Lemma UpdateCallback_run (s : STATE.t) (e : Event) (n : ArmNodelet) :
  exists g j,
    UpdateCallback s e n
    = (tt, with_joints (touch GRIPPER (joints_ n)) n, [PubState s; PubArmState g j]).
Proof.
  unfold UpdateCallback, bind, call, joints_at, ret. cbn.
  rewrite !peek_touch, !touch_touch.
  destruct (val (peek GRIPPER (joints_ n)) <? 0)%float; cbn.
  - destruct s; cbn; eauto.
  - rewrite !peek_touch, !touch_touch.
    destruct (abs _ <? _)%float; destruct s; cbn; eauto.
Qed.

Lemma fsm_SetState_run (s : STATE.t) (n : ArmNodelet) :
  fsm_SetState s n = (tt, with_state s n, []).
Proof. reflexivity. Qed.

Lemma fsm_Update_ignored (e : Event) (n : ArmNodelet) :
  fsm_find fsm_table (fsm_ n) e = None ->
  fsm_Update e n = (tt, n, [FsmUpdate e]).
Proof. intros H. unfold fsm_Update, bind, call, get. cbn. by rewrite H. Qed.

Lemma fsm_Update_fires (e : Event) (n : ArmNodelet) (cb : TransitionCallback) :
  fsm_find fsm_table (fsm_ n) e = Some cb ->
  exists g j,
    fsm_Update e n
    = (tt,
       with_state (value (cb e n))
         (with_joints (touch GRIPPER (joints_ (after (cb e n)))) (after (cb e n))),
       FsmUpdate e :: calls (cb e n)
         ++ [PubState (value (cb e n)); PubArmState g j]).
Proof.
  intros H. unfold fsm_Update, bind, call, get. cbn. rewrite H.
  destruct (cb e n) as [[s n1] o1]. unfold fsm_SetState, bind, get, put. cbn.
  destruct (UpdateCallback_run s e (with_state s n1)) as (g & j & ->). cbn.
  by exists g, j.
Qed.

Lemma fsm_find_None (tbl : Table) (s : STATE.t) (e : Event) :
  fsm_find tbl s e = None <-> ~ In (s, e) (map fst tbl).
Proof.
  induction tbl as [|[[s' e'] cb] tbl IH]; [cbn; tauto|].
  unfold fsm_find; fold fsm_find. cbn [map fst In].
  destruct (bool_decide_reflect (s = s')) as [->|Hs]; cbn [andb].
  - destruct (Z.eqb_spec e e') as [->|He].
    + split; [discriminate | tauto].
    + rewrite IH. split; [intros H [F|F]; [congruence | tauto] | tauto].
  - rewrite IH. split; [intros H [F|F]; [congruence | tauto] | tauto].
Qed.

(** The constructor's table has an entry for exactly the pairs of the
    specification's table. *)
Lemma fsm_table_entries (s : STATE.t) (e : Event) :
  fsm_find fsm_table s e = None <-> ~ In (s, e) table_pairs.
Proof.
  rewrite fsm_find_None.
  assert (Hp : forall p, In p (map fst fsm_table) <-> In p table_pairs).
  { intros p. vm_compute. tauto. }
  by rewrite Hp.
Qed.

(** C2: when the table has no entry for the current state and the event,
    delivering the event changes nothing: the nodelet, hence its current
    state and the goal of each of the three joints, is as before, and no
    call is made beyond the delivery itself. *)
Theorem fsm_Update_without_entry (e : Event) (n : ArmNodelet) :
  fsm_find fsm_table (fsm_ n) e = None ->
  let r := fsm_Update e n in
  after r = n
  /\ fsm_ (after r) = fsm_ n
  /\ (forall t, joints_ (after r) !! t = joints_ n !! t)
  /\ goal (peek PAN (joints_ (after r))) = goal (peek PAN (joints_ n))
  /\ goal (peek TILT (joints_ (after r))) = goal (peek TILT (joints_ n))
  /\ goal (peek GRIPPER (joints_ (after r))) = goal (peek GRIPPER (joints_ n))
  /\ calls r = [FsmUpdate e].
Proof.
  intros H r. subst r. by rewrite (fsm_Update_ignored _ _ H).
Qed.

Lemma fsm_Update_without_entry_witness :
  let n := example_arm STATE.STOWED 0 0 180 180 20 20 in
  fsm_find fsm_table (fsm_ n) PAN_COMPLETE = None
  /\ after (fsm_Update PAN_COMPLETE n) = n.
Proof.
  split; [reflexivity|].
  apply (fsm_Update_without_entry PAN_COMPLETE
           (example_arm STATE.STOWED 0 0 180 180 20 20)).
  reflexivity.
Defined.

(** ** Link loss: [WatchdogCallback] *)

(** C8: when the watchdog expires in PANNING the state becomes
    INITIALIZING, COMMUNICATION_ERROR is reported (as aborted) on the
    result channel, and every goal, those of pan and tilt among them, is
    set to the joint's current value. *)
Theorem WatchdogCallback_in_panning (n : ArmNodelet) :
  fsm_ n = STATE.PANNING ->
  let r := WatchdogCallback n in
  fsm_ (after r) = STATE.INITIALIZING
  /\ calls r = [SendResult AS_ABORTED RESPONSE.COMMUNICATION_ERROR]
  /\ joints_ (after r) = snap <$> joints_ n
  /\ goal (peek PAN (joints_ (after r))) = val (peek PAN (joints_ n))
  /\ goal (peek TILT (joints_ (after r))) = val (peek TILT (joints_ n))
  /\ val (peek PAN (joints_ (after r))) = val (peek PAN (joints_ n))
  /\ val (peek TILT (joints_ (after r))) = val (peek TILT (joints_ n)).
Proof.
  intros Hs r. subst r. unfold WatchdogCallback, bind.
  destruct (Result_run RESPONSE.COMMUNICATION_ERROR false n)
    as (jm' & -> & _ & Hjm).
  rewrite (Hjm eq_refl), Hs, fsm_SetState_run. cbn. rewrite !peek_snap. done.
Qed.

Lemma WatchdogCallback_in_panning_witness :
  let n := example_arm STATE.PANNING 20 45 90 60 30 30 in
  let r := WatchdogCallback n in
  fsm_ n = STATE.PANNING
  /\ fsm_ (after r) = STATE.INITIALIZING
  /\ goal (peek PAN (joints_ (after r))) = 20%float
  /\ goal (peek TILT (joints_ (after r))) = 90%float.
Proof.
  pose proof (WatchdogCallback_in_panning
                (example_arm STATE.PANNING 20 45 90 60 30 30) eq_refl)
    as (Hs & _ & _ & Hp & Ht & _).
  split; [reflexivity|].
  split; [exact Hs|].
  split; [rewrite Hp; reflexivity | rewrite Ht; reflexivity].
Defined.

(** ** Stowing: GOAL_STOW in DEPLOYED *)

Lemma find_DEPLOYED_GOAL_STOW :
  fsm_find fsm_table STATE.DEPLOYED GOAL_STOW
  = Some (fun event =>
      rc <- RequiresClosing ;;
      if rc then
        ok <- Arm GRIPPER ;;
        if negb ok then Result RESPONSE.GRIPPER_FAILED false else
        ret STATE.STOWING_SETTING
      else
      ok <- Arm PAN ;;
      if negb ok then Result RESPONSE.PAN_FAILED false else
      ret STATE.STOWING_PANNING).
Proof. reflexivity. Qed.

Lemma find_DEPLOYED_GOAL_CALIBRATE :
  fsm_find fsm_table STATE.DEPLOYED GOAL_CALIBRATE
  = Some (fun event =>
      ok <- Arm GRIPPER ;;
      if negb ok then Result RESPONSE.CALIBRATE_FAILED false else
      ret STATE.CALIBRATING).
Proof. reflexivity. Qed.

Lemma lookup_touch_eq (t : JointType) (jm : JointMap) :
  touch t jm !! t = Some (peek t jm).
Proof.
  unfold touch, peek. destruct (jm !! t) eqn:E; cbn.
  - by rewrite E.
  - by rewrite lookup_insert_eq.
Qed.

(** C7: from DEPLOYED, GOAL_STOW leads to STOWING_SETTING, with the
    gripper (and no other joint) commanded, exactly when [RequiresClosing]
    holds, that is when the gripper is neither within tolerance of the
    calibration value -100 nor within tolerance of the stow position 20
    (both by [Equal]). Otherwise, in particular when the gripper is at the
    stow position, pan (and no other joint) is commanded and the next state
    is STOWING_PANNING. The pan joint is taken to be in the registry, as
    it is after initialisation. *)
Theorem GOAL_STOW_from_deployed (n : ArmNodelet) :
  fsm_ n = STATE.DEPLOYED ->
  is_Some (joints_ n !! PAN) ->
  let r := fsm_Update GOAL_STOW n in
  value (RequiresClosing n)
  = negb (value (Equal GRIPPER (-100)%float n))
    && negb (value (Equal GRIPPER 20%float n))
  /\ (fsm_ (after r) = STATE.STOWING_SETTING <-> value (RequiresClosing n) = true)
  /\ (value (RequiresClosing n) = true ->
      joint_goals (calls r) = [driver_goal (peek GRIPPER (joints_ n))])
  /\ (value (RequiresClosing n) = false ->
      fsm_ (after r) = STATE.STOWING_PANNING
      /\ joint_goals (calls r) = [driver_goal (peek PAN (joints_ n))])
  /\ (value (Equal GRIPPER K_GRIPPER_STOW n) = true ->
      fsm_ (after r) = STATE.STOWING_PANNING).
Proof.
  intros Hs [p Hp] r. subst r.
  rewrite RequiresClosing_value, !Equal_value.
  split; [reflexivity|].
  assert (Hfind := find_DEPLOYED_GOAL_STOW). rewrite <- Hs in Hfind.
  destruct (fsm_Update_fires _ _ _ Hfind) as (g & j & ->). clear Hfind.
  rewrite !bind_run, !RequiresClosing_run. cbn [value after calls fst snd].
  assert (Hpan : touch GRIPPER (joints_ n) !! PAN = Some p)
    by by apply (extends_lookup _ _ _ _ (extends_touch _ _)).
  assert (Hcl : within GRIPPER K_GRIPPER_STOW (joints_ n) = true ->
                requires_closing (joints_ n) = false).
  { intros H. unfold requires_closing. rewrite H. by rewrite andb_false_r. }
  rewrite (peek_lookup _ _ _ Hp).
  destruct (requires_closing (joints_ n)) eqn:Hrc.
  - rewrite !bind_run, !Arm_run. cbn [joints_ with_joints].
    rewrite lookup_touch_eq. cbn.
    repeat split; try done.
    intros H. by specialize (Hcl H).
  - rewrite !bind_run, !Arm_run. cbn [joints_ with_joints].
    rewrite Hpan. cbn.
    repeat split; try done.
Qed.

Lemma GOAL_STOW_from_deployed_witness :
  let n := example_arm STATE.DEPLOYED 0 0 0 180 45 20 in
  let r := fsm_Update GOAL_STOW n in
  (fsm_ n = STATE.DEPLOYED /\ is_Some (joints_ n !! PAN))
  /\ value (RequiresClosing n) = true
  /\ fsm_ (after r) = STATE.STOWING_SETTING.
Proof.
  assert (Hpan : is_Some (joints_ (example_arm STATE.DEPLOYED 0 0 0 180 45 20) !! PAN)).
  { eexists. reflexivity. }
  pose proof (GOAL_STOW_from_deployed
                (example_arm STATE.DEPLOYED 0 0 0 180 45 20) eq_refl Hpan)
    as (_ & Hiff & _).
  split; [split; [reflexivity | exact Hpan]|].
  split; [reflexivity|].
  apply Hiff. reflexivity.
Defined.

(** ** Commands: [GoalCallback] *)

(** A rejection: [Result(code, true); return;]. *)
Lemma reject_run (code : Z) (n : ArmNodelet) :
  exists jm',
    (Result code true ;; ret tt) n
    = (tt, with_joints jm' n, [SendResult (channel code) code])
    /\ extends (snap <$> joints_ n) jm'.
Proof.
  unfold bind. destruct (Result_run code true n) as (jm' & -> & Hext & _).
  rewrite orb_true_r. cbn. by exists jm'.
Qed.

Lemma peek_insert_eq (t : JointType) (j : JointInfo) (jm : JointMap) :
  peek t (<[t := j]> jm) = j.
Proof. unfold peek. by rewrite lookup_insert_eq. Qed.

Lemma peek_insert_ne (t t' : JointType) (j : JointInfo) (jm : JointMap) :
  t <> t' -> peek t' (<[t := j]> jm) = peek t' jm.
Proof. intros H. unfold peek. by rewrite lookup_insert_ne. Qed.

Lemma get_bind_run {A} (f : ArmNodelet -> M A) (n : ArmNodelet) :
  bind get f n = f n n.
Proof. unfold bind, get. destruct (f n n) as [[a n1] o1]. by cbn. Qed.

Lemma joints_assign_bind_run {A} (t : JointType) (upd : JointInfo -> JointInfo)
    (f : unit -> M A) (n : ArmNodelet) :
  bind (joints_assign t upd) f n
  = f tt (with_joints (<[t := upd (peek t (joints_ n))]> (joints_ n)) n).
Proof. unfold bind, joints_assign. by destruct (f tt _) as [[a n1] o1]. Qed.

Lemma joints_at_bind_run {A} (t : JointType) (f : JointInfo -> M A) (n : ArmNodelet) :
  bind (joints_at t) f n
  = f (peek t (joints_ n)) (with_joints (touch t (joints_ n)) n).
Proof. unfold bind, joints_at. by destruct (f _ _) as [[a n1] o1]. Qed.

Lemma GoalCallback_calibrate_run (goal_ : ArmGoal) (n : ArmNodelet) :
  command goal_ = GRIPPER_CALIBRATE ->
  fsm_ n = STATE.DEPLOYED ->
  GoalCallback goal_ n
  = fsm_Update GOAL_CALIBRATE
      (with_joints (<[TILT := set_goal K_GRIPPER_CAL (peek TILT (joints_ n))]>
                      (joints_ n)) n).
Proof.
  intros Hc Hs. unfold GoalCallback. rewrite Hc, get_bind_run, Hs.
  apply joints_assign_bind_run.
Qed.

Lemma fsm_Update_head (e : Event) (n : ArmNodelet) :
  exists rest, calls (fsm_Update e n) = FsmUpdate e :: rest.
Proof.
  destruct (fsm_find fsm_table (fsm_ n) e) as [cb|] eqn:Hfind.
  - destruct (fsm_Update_fires _ _ _ Hfind) as (g & j & ->). by eexists.
  - rewrite (fsm_Update_ignored _ _ Hfind). by eexists.
Qed.

Lemma GOAL_CALIBRATE_fires (n : ArmNodelet) (gr : JointInfo) :
  fsm_ n = STATE.DEPLOYED ->
  joints_ n !! GRIPPER = Some gr ->
  exists g j,
    fsm_Update GOAL_CALIBRATE n
    = (tt,
       with_state STATE.CALIBRATING (with_joints (touch GRIPPER (joints_ n)) n),
       [FsmUpdate GOAL_CALIBRATE;
        PubJointGoal (name gr) ((goal gr - offset gr) / scale gr)%float;
        TimerStop timer_goal_;
        TimerSetPeriod timer_goal_ (timeout_goal (cfg_ n));
        TimerStart timer_goal_;
        PubState STATE.CALIBRATING; PubArmState g j]).
Proof.
  intros Hs Hg.
  assert (Hfind := find_DEPLOYED_GOAL_CALIBRATE). rewrite <- Hs in Hfind.
  destruct (fsm_Update_fires _ _ _ Hfind) as (g & j & ->). clear Hfind.
  rewrite !bind_run, !Arm_run, Hg. cbn. by exists g, j.
Qed.

(** C9: a GRIPPER_CALIBRATE command received in DEPLOYED writes the
    calibration value -100 into the goal of the tilt joint, not of the
    gripper joint, leaves the goals of pan and gripper as they are, and
    raises GOAL_CALIBRATE on the nodelet so changed. With the gripper in
    the registry, the transition then commands the gripper and the
    callback ends in CALIBRATING with these goals. *)
Theorem GRIPPER_CALIBRATE_sets_tilt_goal (goal_ : ArmGoal) (n : ArmNodelet) :
  command goal_ = GRIPPER_CALIBRATE ->
  fsm_ n = STATE.DEPLOYED ->
  let raised := after (joints_assign TILT (set_goal K_GRIPPER_CAL) n) in
  let r := GoalCallback goal_ n in
  r = fsm_Update GOAL_CALIBRATE raised
  /\ In (FsmUpdate GOAL_CALIBRATE) (calls r)
  /\ goal (peek TILT (joints_ raised)) = (-100)%float
  /\ goal (peek PAN (joints_ raised)) = goal (peek PAN (joints_ n))
  /\ goal (peek GRIPPER (joints_ raised)) = goal (peek GRIPPER (joints_ n))
  /\ (is_Some (joints_ n !! GRIPPER) ->
      fsm_ (after r) = STATE.CALIBRATING
      /\ goal (peek TILT (joints_ (after r))) = (-100)%float
      /\ goal (peek PAN (joints_ (after r))) = goal (peek PAN (joints_ n))
      /\ goal (peek GRIPPER (joints_ (after r))) = goal (peek GRIPPER (joints_ n))
      /\ joint_goals (calls r) = [driver_goal (peek GRIPPER (joints_ n))]).
Proof.
  intros Hc Hs raised r. subst raised r.
  rewrite (GoalCallback_calibrate_run _ _ Hc Hs).
  split; [reflexivity|].
  split; [destruct (fsm_Update_head GOAL_CALIBRATE
                     (with_joints (<[TILT := set_goal K_GRIPPER_CAL
                                      (peek TILT (joints_ n))]> (joints_ n)) n))
            as [rest ->]; by left|].
  cbn [after joints_assign fst snd joints_ with_joints].
  rewrite peek_insert_eq, !peek_insert_ne by done.
  repeat split; try done.
  all: destruct H as [gr Hg];
    assert (Hg' : <[TILT:=set_goal K_GRIPPER_CAL (peek TILT (joints_ n))]>
                    (joints_ n) !! GRIPPER = Some gr)
      by (by rewrite lookup_insert_ne);
    destruct (GOAL_CALIBRATE_fires
                (with_joints (<[TILT := set_goal K_GRIPPER_CAL
                                 (peek TILT (joints_ n))]> (joints_ n)) n)
                gr Hs Hg') as (g & j & ->);
    cbn; rewrite ?peek_touch, ?peek_insert_eq, ?peek_insert_ne by done;
    rewrite ?(peek_lookup _ _ _ Hg); done.
Qed.

Lemma GRIPPER_CALIBRATE_sets_tilt_goal_witness :
  let n := example_arm STATE.DEPLOYED 0 0 45 45 (-100) 20 in
  let r := GoalCallback (mkArmGoal GRIPPER_CALIBRATE 0 0 0) n in
  fsm_ n = STATE.DEPLOYED
  /\ goal (peek TILT (joints_ (after r))) = (-100)%float
  /\ goal (peek GRIPPER (joints_ (after r))) = 20%float
  /\ fsm_ (after r) = STATE.CALIBRATING.
Proof.
  assert (Hg : is_Some (joints_ (example_arm STATE.DEPLOYED 0 0 45 45 (-100) 20)
                          !! GRIPPER)).
  { eexists. reflexivity. }
  pose proof (GRIPPER_CALIBRATE_sets_tilt_goal
                (mkArmGoal GRIPPER_CALIBRATE 0 0 0)
                (example_arm STATE.DEPLOYED 0 0 45 45 (-100) 20)
                eq_refl eq_refl) as (_ & _ & _ & _ & _ & Hfin).
  destruct (Hfin Hg) as (Hs & Ht & _ & Hgr & _).
  split; [reflexivity|].
  split; [exact Ht|].
  split; [rewrite Hgr; reflexivity | exact Hs].
Defined.

Lemma GoalCallback_move_run (goal_ : ArmGoal) (n : ArmNodelet) :
  moving_command (command goal_) = true ->
  resting (fsm_ n) = true ->
  let new_p := proposed_pan goal_ (peek PAN (joints_ n)) in
  let new_t := proposed_tilt goal_ (peek TILT (joints_ n)) in
  GoalCallback goal_ n
  = (if tilt_out_of_bounds new_t then
       Result RESPONSE.BAD_TILT_VALUE true ;; ret tt
     else if pan_out_of_bounds new_p then
       Result RESPONSE.BAD_PAN_VALUE true ;; ret tt
     else if would_collide new_p new_t then
       Result RESPONSE.COLLISION_AVOIDED true ;; ret tt
     else
       joints_assign PAN (set_goal new_p) ;;
       joints_assign TILT (set_goal new_t) ;;
       fsm_Update GOAL_MOVE)
      (with_joints (touch TILT (touch PAN (joints_ n))) n).
Proof.
  intros Hc Hs new_p new_t. subst new_p new_t.
  assert (Hst : bool_decide (fsm_ n = STATE.DEPLOYED)
                || bool_decide (fsm_ n = STATE.STOWED) = true)
    by (destruct (fsm_ n); done).
  unfold GoalCallback.
  destruct (command goal_) eqn:Ec; try discriminate Hc;
    rewrite get_bind_run, Hst, !joints_at_bind_run;
    cbn [joints_ with_joints]; rewrite peek_touch;
    unfold proposed_pan, proposed_tilt; rewrite Ec; reflexivity.
Qed.

(** C6, with the order of the checks: a PAN, TILT or MOVE command
    received in STOWED or DEPLOYED is rejected with BAD_TILT_VALUE when the
    proposed tilt is below -20 or above 180; with BAD_PAN_VALUE when the
    tilt is within these bounds and the proposed pan is below -90 or above
    90; with COLLISION_AVOIDED when both are within their bounds and the
    proposed tilt is above 90 while the proposed pan is more than 0.1 away
    from the stow pan 0. The first check that fails decides the code. Each
    rejection is a single aborted result, leaves the current state as it
    is and publishes no joint goal; so whenever one of the three
    conditions holds the command is rejected in this way with one of the
    three codes. *)
#[warnings="-inexact-float"]
Theorem move_command_rejections (goal_ : ArmGoal) (n : ArmNodelet) :
  moving_command (command goal_) = true ->
  resting (fsm_ n) = true ->
  let new_p := proposed_pan goal_ (peek PAN (joints_ n)) in
  let new_t := proposed_tilt goal_ (peek TILT (joints_ n)) in
  let r := GoalCallback goal_ n in
  let rejected code :=
    calls r = [SendResult AS_ABORTED code]
    /\ fsm_ (after r) = fsm_ n
    /\ joint_goals (calls r) = [] in
  ((new_t <? -20)%float || (180 <? new_t)%float = true ->
   rejected RESPONSE.BAD_TILT_VALUE)
  /\ ((new_t <? -20)%float || (180 <? new_t)%float = false ->
      (new_p <? -90)%float || (90 <? new_p)%float = true ->
      rejected RESPONSE.BAD_PAN_VALUE)
  /\ ((new_t <? -20)%float || (180 <? new_t)%float = false ->
      (new_p <? -90)%float || (90 <? new_p)%float = false ->
      (90 <? new_t)%float && (0.1 <? abs (new_p - 0))%float = true ->
      rejected RESPONSE.COLLISION_AVOIDED)
  /\ ((new_t <? -20)%float || (180 <? new_t)%float
        || ((new_p <? -90)%float || (90 <? new_p)%float)
        || ((90 <? new_t)%float
            && (0.1 <? abs (new_p - 0))%float) = true ->
      rejected RESPONSE.BAD_TILT_VALUE \/ rejected RESPONSE.BAD_PAN_VALUE
      \/ rejected RESPONSE.COLLISION_AVOIDED).
Proof.
  intros Hc Hs new_p new_t r rejected. subst r.
  assert (Hrun := GoalCallback_move_run goal_ n Hc Hs).
  cbv zeta in Hrun. fold new_p new_t in Hrun.
  change ((new_t <? -20)%float || (180 <? new_t)%float)
    with (tilt_out_of_bounds new_t).
  change ((new_p <? -90)%float || (90 <? new_p)%float)
    with (pan_out_of_bounds new_p).
  change ((90 <? new_t)%float && (0x1.999999999999ap-4 <? abs (new_p - 0))%float)
    with (would_collide new_p new_t).
  assert (Hrej : forall code,
    (code <? 0) = true ->
    GoalCallback goal_ n
    = (Result code true ;; ret tt) (with_joints (touch TILT (touch PAN (joints_ n))) n) ->
    rejected code).
  { intros code Hneg E. subst rejected. cbv beta. rewrite E.
    destruct (reject_run code (with_joints (touch TILT (touch PAN (joints_ n))) n))
      as (jm' & -> & _).
    assert (Hch : channel code = AS_ABORTED).
    { unfold channel. rewrite Hneg.
      destruct (Z.ltb_spec 0 code) as [H|H]; [|done].
      apply Z.ltb_lt in Hneg. lia. }
    rewrite Hch. done. }
  destruct (tilt_out_of_bounds new_t) eqn:Et;
    [|destruct (pan_out_of_bounds new_p) eqn:Ep;
      [|destruct (would_collide new_p new_t) eqn:Ew]].
  - assert (H := Hrej RESPONSE.BAD_TILT_VALUE eq_refl Hrun).
    split; [done|]. split; [done|]. split; [done|]. by left.
  - assert (H := Hrej RESPONSE.BAD_PAN_VALUE eq_refl Hrun).
    split; [done|]. split; [done|]. split; [done|]. by right; left.
  - assert (H := Hrej RESPONSE.COLLISION_AVOIDED eq_refl Hrun).
    split; [done|]. split; [done|]. split; [done|]. by right; right.
  - split; [done|]. split; [done|]. split; done.
Qed.

(** The two rejections named by the specification, MOVE with tilt 200 and
    MOVE with pan 45 and tilt 150, and two commands that fail more than one
    check, MOVE with pan 100 and tilt 200 and MOVE with pan 100 and tilt
    150, sent to a stowed arm. *)
Lemma move_command_rejections_witness :
  let n := example_arm STATE.STOWED 0 0 180 180 20 20 in
  let r1 := GoalCallback (mkArmGoal ARM_MOVE 0 200 0) n in
  let r2 := GoalCallback (mkArmGoal ARM_MOVE 45 150 0) n in
  let r3 := GoalCallback (mkArmGoal ARM_MOVE 100 200 0) n in
  let r4 := GoalCallback (mkArmGoal ARM_MOVE 100 150 0) n in
  (moving_command ARM_MOVE = true /\ resting (fsm_ n) = true)
  /\ (calls r1 = [SendResult AS_ABORTED RESPONSE.BAD_TILT_VALUE]
      /\ fsm_ (after r1) = STATE.STOWED /\ joint_goals (calls r1) = [])
  /\ (calls r2 = [SendResult AS_ABORTED RESPONSE.COLLISION_AVOIDED]
      /\ fsm_ (after r2) = STATE.STOWED /\ joint_goals (calls r2) = [])
  /\ (calls r3 = [SendResult AS_ABORTED RESPONSE.BAD_TILT_VALUE]
      /\ fsm_ (after r3) = STATE.STOWED /\ joint_goals (calls r3) = [])
  /\ (calls r4 = [SendResult AS_ABORTED RESPONSE.BAD_PAN_VALUE]
      /\ fsm_ (after r4) = STATE.STOWED /\ joint_goals (calls r4) = []).
Proof.
  pose proof (move_command_rejections (mkArmGoal ARM_MOVE 0 200 0)
                (example_arm STATE.STOWED 0 0 180 180 20 20) eq_refl eq_refl)
    as (Htilt & _).
  pose proof (move_command_rejections (mkArmGoal ARM_MOVE 45 150 0)
                (example_arm STATE.STOWED 0 0 180 180 20 20) eq_refl eq_refl)
    as (_ & _ & Hcol & _).
  pose proof (move_command_rejections (mkArmGoal ARM_MOVE 100 200 0)
                (example_arm STATE.STOWED 0 0 180 180 20 20) eq_refl eq_refl)
    as (Hfirst & _).
  pose proof (move_command_rejections (mkArmGoal ARM_MOVE 100 150 0)
                (example_arm STATE.STOWED 0 0 180 180 20 20) eq_refl eq_refl)
    as (_ & Hpan & _).
  split; [split; reflexivity|].
  split; [exact (Htilt eq_refl)|].
  split; [exact (Hcol eq_refl eq_refl eq_refl)|].
  split; [exact (Hfirst eq_refl) | exact (Hpan eq_refl eq_refl)].
Defined.

(** C6 as stated fails for a command that fails more than one check. A
    stowed arm is sent MOVE with pan 100 and tilt 200: the proposed pan is
    outside [-90, 90], and the result is not BAD_PAN_VALUE but
    BAD_TILT_VALUE. It is sent MOVE with pan 100 and tilt 150: the
    proposed tilt exceeds 90 and the proposed pan is 100 away from the
    stow pan, and the result is not COLLISION_AVOIDED but BAD_PAN_VALUE. *)
#[warnings="-inexact-float"]
Lemma move_command_rejections_counterexample :
  let n := example_arm STATE.STOWED 0 0 180 180 20 20 in
  let g1 := mkArmGoal ARM_MOVE 100 200 0 in
  let g2 := mkArmGoal ARM_MOVE 100 150 0 in
  let new_p goal_ := proposed_pan goal_ (peek PAN (joints_ n)) in
  let new_t goal_ := proposed_tilt goal_ (peek TILT (joints_ n)) in
  (moving_command (command g1) = true /\ resting (fsm_ n) = true)
  /\ ~ ((new_p g1 <? -90)%float || (90 <? new_p g1)%float = true ->
        calls (GoalCallback g1 n)
        = [SendResult AS_ABORTED RESPONSE.BAD_PAN_VALUE])
  /\ calls (GoalCallback g1 n)
     = [SendResult AS_ABORTED RESPONSE.BAD_TILT_VALUE]
  /\ ~ ((90 <? new_t g2)%float && (0.1 <? abs (new_p g2 - 0))%float = true ->
        calls (GoalCallback g2 n)
        = [SendResult AS_ABORTED RESPONSE.COLLISION_AVOIDED])
  /\ calls (GoalCallback g2 n)
     = [SendResult AS_ABORTED RESPONSE.BAD_PAN_VALUE].
Proof.
  cbv zeta.
  split; [split; reflexivity|].
  split; [intros H; specialize (H eq_refl); vm_compute in H; discriminate H|].
  split; [vm_compute; reflexivity|].
  split; [intros H; specialize (H eq_refl); vm_compute in H; discriminate H|].
  vm_compute; reflexivity.
Qed.

(** ** Rejections and the goals *)

Lemma oar_nil : only_action_results [].
Proof. intros ch c []. Qed.

Lemma oar_app (cs cs' : list Call) :
  only_action_results cs -> only_action_results cs' ->
  only_action_results (cs ++ cs').
Proof. intros H H' ch c Hin. apply in_app_or in Hin as [Hin|Hin]; eauto. Qed.

Lemma oar_bind {A B} (m : M A) (f : A -> M B) :
  (forall n, only_action_results (calls (m n))) ->
  (forall a n, only_action_results (calls (f a n))) ->
  forall n, only_action_results (calls (bind m f n)).
Proof. intros Hm Hf n. rewrite bind_run. cbn. by apply oar_app. Qed.

Lemma oar_ret {A} (a : A) (n : ArmNodelet) : only_action_results (calls (ret a n)).
Proof. apply oar_nil. Qed.

Lemma oar_Arm (t : JointType) (n : ArmNodelet) :
  only_action_results (calls (Arm t n)).
Proof.
  rewrite Arm_run. destruct (joints_ n !! t); [|apply oar_nil].
  intros ch c [H|[H|[H|[H|[]]]]]; discriminate H.
Qed.

Lemma oar_RequiresClosing (n : ArmNodelet) :
  only_action_results (calls (RequiresClosing n)).
Proof. rewrite RequiresClosing_run. apply oar_nil. Qed.

Lemma oar_Result (code : Z) (send : bool) (n : ArmNodelet) :
  In code action_codes -> only_action_results (calls (Result code send n)).
Proof.
  intros Hc. destruct (Result_run code send n) as (jm' & -> & _). cbn.
  destruct (tracking (fsm_ n) || send); [|apply oar_nil].
  intros ch c [H|[]]. by injection H as _ <-.
Qed.

Ltac oar_step :=
  intros;
  first
    [ apply oar_ret
    | apply oar_Arm
    | apply oar_RequiresClosing
    | apply oar_Result; cbn; tauto
    | apply oar_bind; intros
    | match goal with
      | |- context [if ?b then _ else _] => destruct b
      end ].

Lemma all_transitions_Add P s mask cb tbl :
  P cb -> all_transitions P tbl -> all_transitions P (fsm_Add s mask cb tbl).
Proof.
  intros Hcb Htbl. unfold fsm_Add, all_transitions.
  apply Forall_app. split; [|done].
  apply Forall_forall. intros entry Hin.
  apply list_elem_of_In, in_map_iff in Hin as (e & <- & _). done.
Qed.

Lemma all_transitions_Add2 P s1 s2 mask cb tbl :
  P cb -> all_transitions P tbl -> all_transitions P (fsm_Add2 s1 s2 mask cb tbl).
Proof.
  intros Hcb Htbl. unfold fsm_Add2.
  apply all_transitions_Add; [done|]. by apply all_transitions_Add.
Qed.

Lemma all_transitions_find P tbl s e cb :
  all_transitions P tbl -> fsm_find tbl s e = Some cb -> P cb.
Proof.
  induction tbl as [|[[s' e'] cb'] tbl IH]; [done|].
  intros Hall. apply Forall_cons in Hall as [Hcb Htbl].
  unfold fsm_find; fold fsm_find.
  destruct (bool_decide (s = s') && (e =? e')); [|by apply IH].
  by intros [= <-].
Qed.

Lemma fsm_table_action_results :
  all_transitions
    (fun cb => forall e n, only_action_results (calls (cb e n))) fsm_table.
Proof.
  unfold fsm_table. cbn [fold_left].
  repeat first [ apply all_transitions_Add | apply all_transitions_Add2 ];
    try (intros e n; repeat oar_step).
  constructor.
Qed.

Lemma oar_fsm_Update (e : Event) (n : ArmNodelet) :
  only_action_results (calls (fsm_Update e n)).
Proof.
  destruct (fsm_find fsm_table (fsm_ n) e) as [cb|] eqn:Hfind.
  - destruct (fsm_Update_fires _ _ _ Hfind) as (g & j & ->). cbn.
    pose proof (all_transitions_find _ _ _ _ _ fsm_table_action_results Hfind e n)
      as Hcb.
    intros ch c [H|H]; [discriminate H|].
    apply in_app_or in H as [H|[H|[H|[]]]]; try discriminate H. eauto.
  - rewrite (fsm_Update_ignored _ _ Hfind). intros ch c [H|[]]. discriminate H.
Qed.

Lemma extends_touch_r (jm jm' : JointMap) (t : JointType) :
  extends jm jm' -> extends jm (touch t jm').
Proof. intros H. eapply extends_trans; [exact H | apply extends_touch]. Qed.

Lemma rejections_sound_reject (n0 n : ArmNodelet) (code : Z) :
  (code <? 0) = true ->
  fsm_ n = fsm_ n0 ->
  extends (joints_ n0) (joints_ n) ->
  rejections_sound n0 ((Result code true ;; ret tt) n).
Proof.
  intros Hneg Hs Hext ch c Hc Hin.
  destruct (reject_run code n) as (jm' & E & Hext').
  rewrite E in Hin |- *. destruct Hin as [Hin|[]]. injection Hin as Hch <-.
  assert (Hab : channel code = AS_ABORTED).
  { unfold channel. rewrite Hneg.
    destruct (Z.ltb_spec 0 code) as [H|H]; [|done].
    apply Z.ltb_lt in Hneg. lia. }
  rewrite Hab. repeat split; [done|].
  eapply extends_trans; [apply extends_snap, Hext | exact Hext'].
Qed.

Lemma rejections_sound_Update (n0 n : ArmNodelet) (e : Event) :
  rejections_sound n0 (fsm_Update e n).
Proof.
  intros ch c Hc Hin. apply oar_fsm_Update in Hin.
  exfalso. revert Hc Hin. unfold rejection_codes, action_codes. cbn.
  intros Hc Hin.
  repeat (destruct Hc as [<-|Hc]; [intuition discriminate|]). done.
Qed.

Ltac goal_step :=
  first
    [ rewrite get_bind_run
    | rewrite joints_at_bind_run
    | rewrite joints_assign_bind_run
    | apply rejections_sound_Update
    | apply rejections_sound_reject;
        [ reflexivity | reflexivity
        | cbn [joints_ with_joints];
          repeat apply extends_touch_r; apply extends_refl ]
    | match goal with
      | |- context [if ?b then _ else _] => destruct b
      end ].

Lemma GoalCallback_rejections_sound (goal_ : ArmGoal) (n : ArmNodelet) :
  rejections_sound n (GoalCallback goal_ n).
Proof.
  unfold GoalCallback, not_allowed, need_to_calibrate.
  destruct (command goal_); repeat goal_step.
Qed.

Lemma rejection_sent (code : Z) (n : ArmNodelet) :
  (code <? 0) = true ->
  In (SendResult AS_ABORTED code) (calls ((Result code true ;; ret tt) n)).
Proof.
  intros Hneg. destruct (reject_run code n) as (jm' & -> & _).
  unfold channel. rewrite Hneg.
  destruct (Z.ltb_spec 0 code) as [H|H]; [|by left].
  apply Z.ltb_lt in Hneg. lia.
Qed.

Lemma resting_decide (s : STATE.t) :
  bool_decide (s = STATE.DEPLOYED) || bool_decide (s = STATE.STOWED)
  = resting s.
Proof. by destruct s. Qed.

Ltac refusal_step :=
  first
    [ rewrite get_bind_run
    | rewrite joints_at_bind_run
    | rewrite joints_assign_bind_run
    | rewrite negb_involutive
    | progress cbn [negb andb fsm_ with_joints]
    | apply oar_fsm_Update
    | split; [cbn; tauto | by apply rejection_sent]
    | match goal with
      | |- context [calls ((if ?b then _ else _) _)] => destruct b
      end ].

(** [refusal] tells when [GoalCallback] sends a rejection: it sends the
    code that [refusal] gives, and none when [refusal] gives none. *)
Lemma GoalCallback_refusal (goal_ : ArmGoal) (n : ArmNodelet) :
  match refusal goal_ n with
  | Some code =>
      In code rejection_codes
      /\ In (SendResult AS_ABORTED code) (calls (GoalCallback goal_ n))
  | None => only_action_results (calls (GoalCallback goal_ n))
  end.
Proof.
  unfold refusal. destruct (moving_command (command goal_)) eqn:Hm.
  - assert (Hg : gripper_motion (command goal_) = false)
      by (destruct (command goal_); done).
    assert (Hr : gripper_in_range goal_ = true)
      by (unfold gripper_in_range; destruct (command goal_); done).
    assert (Ha : accepted_in (command goal_) (fsm_ n) = resting (fsm_ n))
      by (destruct (command goal_); done).
    rewrite Hg, Hr, Ha. cbn [andb negb].
    destruct (resting (fsm_ n)) eqn:Hs; cbn [negb].
    + rewrite (GoalCallback_move_run goal_ n Hm Hs).
      destruct (command goal_); try discriminate Hm;
        repeat refusal_step.
    + assert (Hor := resting_decide (fsm_ n)). rewrite Hs in Hor.
      unfold GoalCallback, not_allowed.
      destruct (command goal_); try discriminate Hm;
        rewrite get_bind_run, Hor; repeat refusal_step.
  - unfold GoalCallback, not_allowed, need_to_calibrate, gripper_in_range.
    destruct (command goal_); try discriminate Hm;
      cbn [gripper_motion accepted_in andb negb];
      repeat refusal_step.
Qed.

(** C10: a command that [GoalCallback] refuses itself, with one of the
    codes BAD_TILT_VALUE, BAD_PAN_VALUE, COLLISION_AVOIDED,
    NEED_TO_CALIBRATE, BAD_GRIPPER_VALUE, INVALID_COMMAND and NOT_ALLOWED,
    gets that code as a single aborted result and leaves the current state
    unchanged; yet afterwards the goal of each of the three joints is the
    value the joint had, every joint of the registry has its goal
    overwritten with its value, and a joint whose goal differed from its
    value no longer has the entry it had. Which commands are refused, and
    with which code, is told by [refusal] from the command, the state and
    the registry; a command that is not refused sends none of the seven
    codes. *)
Theorem rejection_overwrites_goals (goal_ : ArmGoal) (n : ArmNodelet) :
  let r := GoalCallback goal_ n in
  match refusal goal_ n with
  | Some code =>
      In code rejection_codes
      /\ calls r = [SendResult AS_ABORTED code]
      /\ fsm_ (after r) = fsm_ n
      /\ (forall t, goal (peek t (joints_ (after r))) = val (peek t (joints_ n)))
      /\ (forall t j, joints_ n !! t = Some j ->
                      joints_ (after r) !! t = Some (snap j))
      /\ goals_held (joints_ (after r))
      /\ (forall t j, joints_ n !! t = Some j -> goal j <> val j ->
                      joints_ (after r) !! t <> joints_ n !! t)
  | None =>
      forall ch code,
        In code rejection_codes -> ~ In (SendResult ch code) (calls r)
  end.
Proof.
  intros r. subst r.
  pose proof (GoalCallback_refusal goal_ n) as H. revert H.
  destruct (refusal goal_ n) as [code|].
  - intros [Hc Hin].
    destruct (GoalCallback_rejections_sound goal_ n _ code Hc Hin)
      as (Hcalls & Hs & Hext).
    split; [done|]. split; [done|]. split; [done|].
    split.
    { intros t. unfold peek.
      destruct (Hext t) as [E|[E1 E2]]; rewrite lookup_fmap in *.
      - rewrite E. by destruct (joints_ n !! t).
      - rewrite E2. by destruct (joints_ n !! t). }
    split; [intros t j E; by apply (extends_snap_lookup _ _ _ _ Hext)|].
    split; [by apply (extends_snap_held (joints_ n))|].
    intros t j E Hne. rewrite (extends_snap_lookup _ _ _ _ Hext E), E.
    intros [= Heq]. apply Hne. by rewrite <- Heq at 1.
  - intros Hoar ch code Hc Hin. apply Hoar in Hin.
    revert Hc Hin. unfold rejection_codes, action_codes. cbn.
    intros Hc Hin.
    repeat (destruct Hc as [<-|Hc]; [intuition discriminate|]). done.
Qed.

(** Each of the seven codes is given. A deployed arm whose pan has drifted
    to 44 under a goal of 45 refuses MOVE with tilt 200, MOVE with pan
    100, MOVE with pan 45 and tilt 150, a gripper opening of 50, an unknown
    command and DEPLOY; with an uncalibrated gripper it refuses to open the
    gripper. Each time the state stays DEPLOYED and the pan goal is 44
    afterwards. *)
Lemma rejection_overwrites_goals_witness :
  let n := example_arm STATE.DEPLOYED 44 45 0 0 20 20 in
  let n' := example_arm STATE.DEPLOYED 44 45 0 0 (-100) 20 in
  let refused goal_ m code :=
    refusal goal_ m = Some code
    /\ calls (GoalCallback goal_ m) = [SendResult AS_ABORTED code]
    /\ fsm_ (after (GoalCallback goal_ m)) = STATE.DEPLOYED
    /\ goal (peek PAN (joints_ m)) = 45%float
    /\ joints_ (after (GoalCallback goal_ m)) !! PAN
       = Some (mkJointInfo "arm_pan" "pan" 44 44 3 0 K_RADS_TO_DEGS) in
  refused (mkArmGoal ARM_MOVE 0 200 0) n RESPONSE.BAD_TILT_VALUE
  /\ refused (mkArmGoal ARM_MOVE 100 0 0) n RESPONSE.BAD_PAN_VALUE
  /\ refused (mkArmGoal ARM_MOVE 45 150 0) n RESPONSE.COLLISION_AVOIDED
  /\ refused (mkArmGoal GRIPPER_OPEN 0 0 0) n' RESPONSE.NEED_TO_CALIBRATE
  /\ refused (mkArmGoal GRIPPER_SET 0 0 50) n RESPONSE.BAD_GRIPPER_VALUE
  /\ refused (mkArmGoal OTHER_COMMAND 0 0 0) n RESPONSE.INVALID_COMMAND
  /\ refused (mkArmGoal ARM_DEPLOY 0 0 0) n RESPONSE.NOT_ALLOWED.
Proof.
  cbv beta zeta.
  repeat match goal with
  | |- (_ /\ _) /\ _ => split
  | |- refusal ?g ?m = Some ?code /\ _ =>
      assert (E : refusal g m = Some code) by (vm_compute; reflexivity);
      pose proof (rejection_overwrites_goals g m) as H; cbv zeta in H;
      rewrite E in H; destruct H as (_ & Hc & Hs & _ & Hsnap & _);
      split; [exact E|]; split; [exact Hc|]; split; [by rewrite Hs|];
      split; [reflexivity|];
      apply (Hsnap PAN
               (mkJointInfo "arm_pan" "pan" 44 45 3 0 K_RADS_TO_DEGS));
      reflexivity
  end.
Defined.

(** ** Telemetry and completion *)

Lemma call_bind_run {A} (c : Call) (f : unit -> M A) (n : ArmNodelet) :
  bind (call c) f n = (value (f tt n), after (f tt n), c :: calls (f tt n)).
Proof. by rewrite bind_run. Qed.

Lemma cond_assign_run (b : bool) (t : JointType) (upd : JointInfo -> JointInfo)
    (n : ArmNodelet) :
  (if b then joints_assign t upd else ret tt) n
  = (tt,
     with_joints (if b then <[t := upd (peek t (joints_ n))]> (joints_ n)
                  else joints_ n) n,
     []).
Proof. destruct b; [reflexivity | by destruct n]. Qed.

Lemma ingest_run (msg : list JointState) (acc : list JointSample) (n : ArmNodelet) :
  exists jm' samples,
    ingest msg acc n = (samples, with_joints jm' n, [])
    /\ (recognised msg n -> samples <> [])
    /\ (acc <> [] -> samples <> []).
Proof.
  revert acc n. induction msg as [|m msg IH]; intros acc n.
  - exists (joints_ n), acc. cbn. unfold ret.
    split; [by destruct n|]. split; [by intros (m & [] & _) | done].
  - cbn [ingest]. rewrite get_bind_run.
    destruct (dictionary_ n !! s_name m) as [g|] eqn:Hd.
    + rewrite !joints_at_bind_run, joints_assign_bind_run, joints_at_bind_run.
      rewrite bind_run, cond_assign_run. cbn [value after calls fst snd app].
      rewrite !joints_at_bind_run. cbn [joints_ with_joints].
      match goal with
      | |- context [ingest msg ?acc' ?n'] =>
          destruct (IH acc' n') as (jm' & samples & -> & _ & Hacc)
      end.
      exists jm', samples. cbn. split; [done|].
      assert (Hne : samples <> []).
      { apply Hacc. by destruct acc. }
      by split.
    + destruct (IH acc n) as (jm' & samples & -> & Hrec & Hacc).
      exists jm', samples. split; [done|]. split; [|done].
      intros (m' & [<-|Hin] & Hsome).
      * rewrite Hd in Hsome. by destruct Hsome.
      * apply Hrec. by exists m'.
Qed.

Lemma update_state_machine_tracking (n : ArmNodelet) :
  tracking (fsm_ n) = true ->
  calls (update_state_machine n)
  = if completion_test n then
      TimerStop timer_goal_
      :: calls (fsm_Update (complete_event (fsm_ n))
                  (with_joints (touch (awaited_joint (fsm_ n)) (joints_ n)) n))
    else [].
Proof.
  intros Ht. unfold update_state_machine, completion_test.
  generalize fsm_Update. intros raise.
  rewrite get_bind_run.
  destruct (fsm_ n) eqn:Hs; try discriminate Ht; clear Ht;
    rewrite ?joints_at_bind_run, bind_run, Equal_run;
    cbn [value after calls fst snd app joints_ with_joints
         awaited_joint complete_event];
    rewrite ?touch_touch, ?(within_extends _ _ _ _ (extends_touch _ _));
    match goal with
    | |- context [if ?b then _ else _] => destruct b
    end;
    cbn [negb]; rewrite ?bind_run; cbn [call ret value after calls fst snd app];
    rewrite ?app_nil_r; reflexivity.
Qed.

Lemma send_feedback_calls (n : ArmNodelet) :
  calls (send_feedback n) = []
  \/ exists s p t g, calls (send_feedback n) = [SendFeedback s p t g].
Proof.
  unfold send_feedback. rewrite get_bind_run.
  destruct (tracking (fsm_ n)); [|by left].
  rewrite !joints_at_bind_run. right. by eexists _, _, _, _.
Qed.

(** The calls of [JointStateCallback] on a message with a recognised
    entry: the watchdog timer is restarted, the switch on the state runs on
    the nodelet with the new joint values, and what follows publishes the
    samples and the feedback only. *)
Lemma JointStateCallback_calls (msg : list JointState) (n : ArmNodelet) :
  recognised msg n ->
  exists tail,
    calls (JointStateCallback msg n)
    = TimerStop timer_watchdog_
      :: TimerSetPeriod timer_watchdog_ (timeout_watchdog (cfg_ n))
      :: TimerStart timer_watchdog_
      :: calls (update_state_machine (after (ingest msg [] n))) ++ tail
    /\ forall c, In c tail ->
         (exists l, c = PubJointSample l)
         \/ (exists s p t g, c = SendFeedback s p t g).
Proof.
  intros Hrec. unfold JointStateCallback. rewrite bind_run.
  destruct (ingest_run msg [] n) as (jm' & samples & -> & Hne & _).
  cbn [value after calls fst snd app].
  destruct samples as [|s0 samples]; [by destruct (Hne Hrec)|].
  rewrite get_bind_run, !call_bind_run, bind_run.
  cbn [value after calls fst snd app cfg_ with_joints].
  destruct (value (update_state_machine (with_joints jm' n))).
  - rewrite call_bind_run. cbn [calls snd].
    eexists. split; [reflexivity|].
    intros c [<-|Hin]; [left; by eexists|].
    destruct (send_feedback_calls (after (update_state_machine (with_joints jm' n))))
      as [E|(s & p & t & g & E)]; rewrite E in Hin; [by destruct Hin|].
    destruct Hin as [<-|[]]. right. by eexists _, _, _, _.
  - exists []. split; [reflexivity | by intros c []].
Qed.

(** C3, as the code has it: in a tracking state, when a message with at
    least one recognised entry is processed, the goal timer is stopped and
    the completion event of the state is raised exactly when the test of
    the state succeeds on the new joint values. In the eight states other
    than CALIBRATING the test is [Equal] of the awaited joint and its goal;
    in CALIBRATING the test is that the gripper is not within tolerance of
    the calibration value -100, whatever the goal of the gripper. *)
Theorem telemetry_completion (msg : list JointState) (n : ArmNodelet) :
  tracking (fsm_ n) = true ->
  recognised msg n ->
  let n1 := after (ingest msg [] n) in
  let r := JointStateCallback msg n in
  let at_target :=
    value (Equal (awaited_joint (fsm_ n))
             (goal (peek (awaited_joint (fsm_ n)) (joints_ n1))) n1) in
  let test :=
    match fsm_ n with
    | STATE.CALIBRATING => negb (value (Equal GRIPPER (-100)%float n1))
    | _ => at_target
    end in
  (In (TimerStop timer_goal_) (calls r) <-> test = true)
  /\ (In (FsmUpdate (complete_event (fsm_ n))) (calls r) <-> test = true).
Proof.
  intros Ht Hrec n1 r at_target test. subst n1 r at_target test.
  destruct (JointStateCallback_calls msg n Hrec) as (tail & -> & Htail).
  destruct (ingest_run msg [] n) as (jm' & samples & E & _). rewrite E.
  cbn [after fst snd].
  rewrite (update_state_machine_tracking (with_joints jm' n) Ht).
  rewrite !Equal_value.
  assert (Htest :
    match fsm_ n with
    | STATE.CALIBRATING => negb (within GRIPPER (-100)%float (joints_ (with_joints jm' n)))
    | _ => within (awaited_joint (fsm_ n))
             (goal (peek (awaited_joint (fsm_ n)) (joints_ (with_joints jm' n))))
             (joints_ (with_joints jm' n))
    end = completion_test (with_joints jm' n)).
  { unfold completion_test. cbn [fsm_ with_joints joints_]. by destruct (fsm_ n). }
  rewrite Htest. clear Htest.
  assert (Hno1 : ~ In (TimerStop timer_goal_) tail).
  { intros Hin. destruct (Htail _ Hin) as [[l H]|(s & p & t & g & H)]; discriminate H. }
  assert (Hno2 : ~ In (FsmUpdate (complete_event (fsm_ n))) tail).
  { intros Hin. destruct (Htail _ Hin) as [[l H]|(s & p & t & g & H)]; discriminate H. }
  destruct (completion_test (with_joints jm' n)).
  - cbn [fsm_ with_joints].
    destruct (fsm_Update_head (complete_event (fsm_ n))
                (with_joints (touch (awaited_joint (fsm_ n))
                   (joints_ (with_joints jm' n))) (with_joints jm' n)))
      as [rest ->].
    split; (split; [done|intros _]).
    + do 3 right. by left.
    + do 4 right. by left.
  - cbn [app].
    split; (split; [|done]).
    + intros [H|[H|[H|H]]]; try discriminate H. by destruct (Hno1 H).
    + intros [H|[H|[H|H]]]; try discriminate H. by destruct (Hno2 H).
Qed.

Lemma telemetry_completion_witness :
  let n := example_arm STATE.PANNING 0 45 90 60 30 30 in
  let msg := [mkJointState "arm_pan" 0.78125 0 0; mkJointState "camera" 1 0 0] in
  let r := JointStateCallback msg n in
  (tracking (fsm_ n) = true /\ recognised msg n)
  /\ In (TimerStop timer_goal_) (calls r)
  /\ In (FsmUpdate PAN_COMPLETE) (calls r)
  /\ fsm_ (after r) = STATE.TILTING.
Proof.
  assert (Hrec : recognised
            [mkJointState "arm_pan" 0.78125 0 0; mkJointState "camera" 1 0 0]
            (example_arm STATE.PANNING 0 45 90 60 30 30)).
  { exists (mkJointState "arm_pan" 0.78125 0 0).
    split; [by left | by eexists]. }
  pose proof (telemetry_completion
                [mkJointState "arm_pan" 0.78125 0 0; mkJointState "camera" 1 0 0]
                (example_arm STATE.PANNING 0 45 90 60 30 30) eq_refl Hrec)
    as [Hstop Hraise].
  split; [split; [reflexivity | exact Hrec]|].
  split; [apply Hstop; reflexivity|].
  split; [apply Hraise; reflexivity | reflexivity].
Defined.

(** C3 as stated fails in CALIBRATING: the gripper reports 45 percent
    while its goal is 20; it is not within its tolerance of the goal (nor
    of the calibration value), and yet the goal timer is stopped and
    CALIBRATE_COMPLETE is raised. *)
Lemma telemetry_completion_counterexample :
  let n := example_arm STATE.CALIBRATING 0 0 0 (-100) (-100) 20 in
  let msg := [mkJointState "arm_gripper" 100 0 0] in
  let n1 := after (ingest msg [] n) in
  let r := JointStateCallback msg n in
  ~ (In (TimerStop timer_goal_) (calls r)
     /\ In (FsmUpdate CALIBRATE_COMPLETE) (calls r)
     <-> value (Equal GRIPPER (goal (peek GRIPPER (joints_ n1))) n1) = true).
Proof.
  cbv zeta. intros [Hraised _].
  assert (Hfalse :
    value (Equal GRIPPER
             (goal (peek GRIPPER (joints_ (after (ingest
                [mkJointState "arm_gripper" 100 0 0] []
                (example_arm STATE.CALIBRATING 0 0 0 (-100) (-100) 20))))))
             (after (ingest [mkJointState "arm_gripper" 100 0 0] []
                (example_arm STATE.CALIBRATING 0 0 0 (-100) (-100) 20))))
    = false) by reflexivity.
  rewrite Hfalse in Hraised. clear Hfalse.
  assert (Hnot : false = true -> False) by discriminate.
  apply Hnot, Hraised. clear Hraised Hnot.
  split; vm_compute.
  - do 3 right. left. reflexivity.
  - do 4 right. left. reflexivity.
Qed.


(** ** What the callbacks keep *)

Section Preservation.
Context {X : Type} (view : JointInfo -> X).
Hypothesis view_set_goal : forall v j, view (set_goal v j) = view j.

Lemma keeps_refl (jm : JointMap) : keeps view jm jm.
Proof. by intros t. Qed.

Lemma keeps_trans (jm1 jm2 jm3 : JointMap) :
  keeps view jm1 jm2 -> keeps view jm2 jm3 -> keeps view jm1 jm3.
Proof.
  intros H12 H23 t. destruct (H12 t) as [S12 E12], (H23 t) as [S23 E23].
  split; [auto | congruence].
Qed.

Lemma keeps_extends (jm jm' : JointMap) : extends jm jm' -> keeps view jm jm'.
Proof.
  intros H t. split; [|by rewrite (extends_peek _ _ _ H)].
  intros [j E]. exists j. by apply (extends_lookup _ _ _ _ H).
Qed.

Lemma keeps_snap (jm : JointMap) : keeps view jm (snap <$> jm).
Proof.
  intros t. rewrite peek_snap, lookup_fmap. split; [|apply view_set_goal].
  intros [j ->]. by eexists.
Qed.

Lemma keeps_insert (jm : JointMap) (t : JointType) (j : JointInfo) :
  view j = view (peek t jm) -> keeps view jm (<[t := j]> jm).
Proof.
  intros Hj t'. destruct (decide (t = t')) as [<-|Hne].
  - rewrite lookup_insert_eq, peek_insert_eq. split; [by eexists | done].
  - by rewrite lookup_insert_ne, peek_insert_ne.
Qed.

Lemma preserves_same {A} (m : M A) :
  (forall n, after (m n) = n) -> preserves view m.
Proof. intros H n. rewrite H. split; [apply keeps_refl | done]. Qed.

Lemma preserves_joints {A} (m : M A) :
  (forall n, exists jm', after (m n) = with_joints jm' n
                         /\ keeps view (joints_ n) jm') ->
  preserves view m.
Proof. intros H n. destruct (H n) as (jm' & -> & Hk). by cbn. Qed.

Lemma preserves_ret {A} (a : A) : preserves view (ret a).
Proof. by apply preserves_same. Qed.

Lemma preserves_get : preserves view get.
Proof. by apply preserves_same. Qed.

Lemma preserves_call (c : Call) : preserves view (call c).
Proof. by apply preserves_same. Qed.

Lemma preserves_bind {A B} (m : M A) (f : A -> M B) :
  preserves view m -> (forall a, preserves view (f a)) ->
  preserves view (bind m f).
Proof.
  intros Hm Hf n. rewrite bind_run. cbn [after fst snd].
  destruct (Hm n) as (K1 & C1 & D1).
  destruct (Hf (value (m n)) (after (m n))) as (K2 & C2 & D2).
  split; [by eapply keeps_trans | split; congruence].
Qed.

Lemma preserves_joints_at (t : JointType) : preserves view (joints_at t).
Proof.
  apply preserves_joints. intros n. eexists. split; [reflexivity|].
  apply keeps_extends, extends_touch.
Qed.

Lemma preserves_assign (t : JointType) (upd : JointInfo -> JointInfo) :
  (forall j, view (upd j) = view j) -> preserves view (joints_assign t upd).
Proof.
  intros Hupd. apply preserves_joints. intros n. eexists.
  split; [reflexivity|]. by apply keeps_insert.
Qed.

Lemma preserves_assign_goal (t : JointType) (v : float) :
  preserves view (joints_assign t (set_goal v)).
Proof. apply preserves_assign. apply view_set_goal. Qed.

Lemma preserves_Equal (t : JointType) (v : float) : preserves view (Equal t v).
Proof.
  apply preserves_joints. intros n. rewrite Equal_run. eexists.
  split; [reflexivity|]. apply keeps_extends, extends_touch.
Qed.

Lemma preserves_IsStowed : preserves view IsStowed.
Proof.
  apply preserves_joints. intros n.
  destruct (IsStowed_run n) as (jm' & -> & Hext).
  exists jm'. split; [reflexivity | by apply keeps_extends].
Qed.

Lemma preserves_RequiresClosing : preserves view RequiresClosing.
Proof.
  apply preserves_joints. intros n. rewrite RequiresClosing_run. eexists.
  split; [reflexivity|]. apply keeps_extends, extends_touch.
Qed.

Lemma preserves_Arm (t : JointType) : preserves view (Arm t).
Proof.
  apply preserves_same. intros n. rewrite Arm_run.
  by destruct (joints_ n !! t).
Qed.

Lemma preserves_Result (response : Z) (send : bool) :
  preserves view (Result response send).
Proof.
  apply preserves_joints. intros n.
  destruct (Result_run response send n) as (jm' & -> & Hext & _).
  exists jm'. split; [reflexivity|].
  eapply keeps_trans; [apply keeps_snap | by apply keeps_extends].
Qed.

Lemma preserves_UpdateCallback (s : STATE.t) (e : Event) :
  preserves view (UpdateCallback s e).
Proof.
  apply preserves_joints. intros n.
  destruct (UpdateCallback_run s e n) as (g & j & ->). eexists.
  split; [reflexivity|]. apply keeps_extends, extends_touch.
Qed.

Lemma preserves_SetState (s : STATE.t) : preserves view (fsm_SetState s).
Proof.
  intros n. rewrite fsm_SetState_run. cbn. split; [apply keeps_refl | done].
Qed.
End Preservation.

Lemma observed_set_goal (v : float) (j : JointInfo) :
  observed (set_goal v j) = observed j.
Proof. reflexivity. Qed.

Lemma static_set_goal (v : float) (j : JointInfo) :
  static (set_goal v j) = static j.
Proof. reflexivity. Qed.

Lemma static_set_val (v : float) (j : JointInfo) :
  static (set_val v j) = static j.
Proof. reflexivity. Qed.

Ltac preserves_side :=
  try first [ assumption | exact static_set_goal | exact observed_set_goal ].

Ltac preserves_local :=
  lazymatch goal with
  | |- preserves _ (ret _) => apply preserves_ret
  | |- preserves _ get => apply preserves_get
  | |- preserves _ (call _) => apply preserves_call
  | |- preserves _ (joints_at _) => apply preserves_joints_at
  | |- preserves _ (joints_assign _ (set_goal _)) => apply preserves_assign_goal
  | |- preserves _ (joints_assign _ (set_val _)) =>
      apply preserves_assign, static_set_val
  | |- preserves _ (Equal _ _) => apply preserves_Equal
  | |- preserves _ IsStowed => apply preserves_IsStowed
  | |- preserves _ RequiresClosing => apply preserves_RequiresClosing
  | |- preserves _ (Arm _) => apply preserves_Arm
  | |- preserves _ (Result _ _) => apply preserves_Result
  | |- preserves _ (UpdateCallback _ _) => apply preserves_UpdateCallback
  | |- preserves _ (fsm_SetState _) => apply preserves_SetState
  | |- preserves _ (bind _ _) => apply preserves_bind; [|intros ?]
  | |- preserves _ (if ?b then _ else _) => destruct b
  | |- preserves _ (match ?x with _ => _ end) => destruct x
  end; preserves_side.

Lemma fsm_table_preserves {X} (view : JointInfo -> X) :
  (forall v j, view (set_goal v j) = view j) ->
  all_transitions (fun cb => forall e, preserves view (cb e)) fsm_table.
Proof.
  intros Hview. unfold fsm_table. cbn [fold_left].
  repeat first [ apply all_transitions_Add | apply all_transitions_Add2 ];
    try (intros e; repeat preserves_local).
  constructor.
Qed.

Lemma preserves_fsm_Update {X} (view : JointInfo -> X) (e : Event) :
  (forall v j, view (set_goal v j) = view j) ->
  preserves view (fsm_Update e).
Proof.
  intros Hview n.
  destruct (fsm_find fsm_table (fsm_ n) e) as [cb|] eqn:Hfind.
  - destruct (fsm_Update_fires _ _ _ Hfind) as (g & j & ->).
    pose proof (all_transitions_find _ _ _ _ _ (fsm_table_preserves view Hview)
                  Hfind e n) as (K & C & D).
    cbn. split; [|done].
    eapply keeps_trans; [exact K | apply keeps_extends, extends_touch].
  - rewrite (fsm_Update_ignored _ _ Hfind). cbn.
    split; [apply keeps_refl | done].
Qed.

Ltac preserves_step :=
  first
    [ match goal with
      | |- preserves _ (fsm_Update _) => apply preserves_fsm_Update
      end; preserves_side
    | preserves_local ].

Lemma preserves_GoalCallback {X} (view : JointInfo -> X) (goal_ : ArmGoal) :
  (forall v j, view (set_goal v j) = view j) ->
  preserves view (GoalCallback goal_).
Proof.
  intros Hview. unfold GoalCallback, not_allowed, need_to_calibrate.
  destruct (command goal_); repeat preserves_step.
Qed.

Lemma preserves_observed_only_goals {A} (m : M A) (n : ArmNodelet) :
  preserves observed m -> only_goals_differ n (after (m n)).
Proof.
  intros H. destruct (H n) as (K & C & D).
  split; [done|]. split; [done|]. intros t. destruct (K t) as [S E].
  split; [done|]. unfold observed, static in E. by injection E.
Qed.

Lemma preserves_static_calibration {A} (m : M A) (n : ArmNodelet) :
  preserves static m -> calibration_kept n (after (m n)).
Proof.
  intros H. destruct (H n) as (K & C & D).
  split; [done|]. split; [done|]. intros t. destruct (K t) as [S E].
  split; [done|]. unfold static in E. by injection E.
Qed.

(** Commands, cancellations and the two timers never touch what is
    observed or configured: after [GoalCallback], [PreemptCallback],
    [CancelCallback], [TimeoutCallback] and [WatchdogCallback] every joint
    is still in the registry with the same names, value, tolerance, offset
    and scale, and configuration and dictionary are the same. Only goals
    (and the current state) can differ. *)
Theorem commands_and_timers_change_goals_only (goal_ : ArmGoal) (n : ArmNodelet) :
  only_goals_differ n (after (GoalCallback goal_ n))
  /\ only_goals_differ n (after (PreemptCallback n))
  /\ only_goals_differ n (after (CancelCallback n))
  /\ only_goals_differ n (after (TimeoutCallback n))
  /\ only_goals_differ n (after (WatchdogCallback n)).
Proof.
  split; [|split; [|split; [|split]]]; apply preserves_observed_only_goals.
  - apply preserves_GoalCallback, observed_set_goal.
  - apply preserves_fsm_Update, observed_set_goal.
  - apply preserves_fsm_Update, observed_set_goal.
  - apply preserves_fsm_Update, observed_set_goal.
  - unfold WatchdogCallback. repeat preserves_step.
Qed.

Lemma preserves_ingest {X} (view : JointInfo -> X)
    (msg : list JointState) (acc : list JointSample) :
  (forall v j, view (set_val v j) = view j) ->
  preserves view (ingest msg acc).
Proof.
  intros Hval. revert acc. induction msg as [|m msg IH]; intros acc; cbn [ingest].
  - apply preserves_ret.
  - apply preserves_bind; [apply preserves_get|]. intros n.
    destruct (dictionary_ n !! s_name m) as [g|]; [|apply IH].
    repeat first
      [ apply IH
      | match goal with
        | |- preserves _ (joints_assign _ (set_val _)) =>
            apply preserves_assign; intros ?; apply Hval
        end
      | preserves_step ].
Qed.

Lemma preserves_update_state_machine : preserves static update_state_machine.
Proof.
  unfold update_state_machine.
  apply preserves_bind; [apply preserves_get|]. intros n.
  destruct (fsm_ n); repeat preserves_step.
Qed.

Lemma preserves_send_feedback : preserves static send_feedback.
Proof.
  unfold send_feedback. repeat preserves_step.
Qed.

(** Telemetry never touches the calibration: after [JointStateCallback]
    every joint is still in the registry with the same names, tolerance,
    offset and scale, and configuration and dictionary are the same. *)
Theorem telemetry_keeps_calibration (msg : list JointState) (n : ArmNodelet) :
  calibration_kept n (after (JointStateCallback msg n)).
Proof.
  apply preserves_static_calibration. unfold JointStateCallback.
  apply preserves_bind; [apply preserves_ingest, static_set_val|]. intros samples.
  destruct samples; [apply preserves_ret|].
  repeat first
    [ apply preserves_update_state_machine
    | apply preserves_send_feedback
    | preserves_step ].
Qed.

(** ** Telemetry outside an action *)

Lemma recognised_or_not (msg : list JointState) (n : ArmNodelet) :
  recognised msg n \/ (forall m, In m msg -> dictionary_ n !! s_name m = None).
Proof.
  induction msg as [|m msg IH]; [by right; intros m []|].
  destruct (dictionary_ n !! s_name m) as [g|] eqn:Hd.
  - left. exists m. split; [by left | by rewrite Hd].
  - destruct IH as [(m' & Hin & Hs)|Hnone].
    + left. exists m'. split; [by right | done].
    + right. intros m' [<-|Hin]; [done | by apply Hnone].
Qed.

Lemma ingest_unrecognised (msg : list JointState) (acc : list JointSample)
    (n : ArmNodelet) :
  (forall m, In m msg -> dictionary_ n !! s_name m = None) ->
  ingest msg acc n = (acc, n, []).
Proof.
  induction msg as [|m msg IH]; intros Hnone; [reflexivity|].
  cbn [ingest]. rewrite get_bind_run, (Hnone m) by by left.
  apply IH. intros m' Hin. apply Hnone. by right.
Qed.

(** A message without a recognised entry, the empty message included, is
    ignored altogether: nothing changes and no call is made, so the
    watchdog timer keeps running. A message with a recognised entry
    restarts the watchdog timer with the configured period before anything
    else. *)
Theorem telemetry_restarts_watchdog (msg : list JointState) (n : ArmNodelet) :
  let r := JointStateCallback msg n in
  (~ recognised msg n -> r = (tt, n, []))
  /\ (recognised msg n ->
      exists rest,
        calls r = TimerStop timer_watchdog_
                  :: TimerSetPeriod timer_watchdog_ (timeout_watchdog (cfg_ n))
                  :: TimerStart timer_watchdog_ :: rest)
  /\ (In (TimerStart timer_watchdog_) (calls r) <-> recognised msg n).
Proof.
  intros r. subst r.
  assert (Hnoop : (forall m, In m msg -> dictionary_ n !! s_name m = None) ->
                  JointStateCallback msg n = (tt, n, [])).
  { intros Hnone. unfold JointStateCallback.
    by rewrite bind_run, (ingest_unrecognised _ _ _ Hnone). }
  split; [|split].
  - intros Hnot. destruct (recognised_or_not msg n) as [H|H]; [done | auto].
  - intros Hrec. destruct (JointStateCallback_calls msg n Hrec) as (tail & -> & _).
    by eexists.
  - split.
    + intros Hin. destruct (recognised_or_not msg n) as [H|H]; [done|].
      rewrite (Hnoop H) in Hin. by destruct Hin.
    + intros Hrec. destruct (JointStateCallback_calls msg n Hrec) as (tail & -> & _).
      do 2 right. by left.
Qed.

Lemma plain_transition (e : Event) (n : ArmNodelet) (s : STATE.t) :
  fsm_find fsm_table (fsm_ n) e = Some (fun _ => ret s) ->
  exists g j,
    fsm_Update e n
    = (tt, with_state s (with_joints (touch GRIPPER (joints_ n)) n),
       [FsmUpdate e; PubState s; PubArmState g j]).
Proof.
  intros Hfind. destruct (fsm_Update_fires _ _ _ Hfind) as (g & j & ->).
  by exists g, j.
Qed.

Lemma quiet_silent (cs : list Call) :
  Forall quiet cs -> results cs = [] /\ joint_goals cs = [].
Proof.
  induction 1 as [|c cs Hc _ [IH1 IH2]]; [done|].
  destruct c; try done; cbn; by rewrite ?IH1, ?IH2.
Qed.

Lemma update_state_machine_background (n : ArmNodelet) :
  tracking (fsm_ n) = false ->
  exists continue jm' cs,
    update_state_machine n
    = (continue,
       with_state (background_state (fsm_ n) (stowed_pose (joints_ n)))
         (with_joints jm' n), cs)
    /\ extends (joints_ n) jm' /\ Forall quiet cs.
Proof.
  intros Ht. unfold update_state_machine. rewrite get_bind_run.
  destruct (fsm_ n) eqn:Hs; try discriminate Ht; clear Ht.
  - (* INITIALIZING *)
    rewrite bind_run.
    assert (Hfind : fsm_find fsm_table (fsm_ n) READY
                    = Some (fun _ => ret STATE.UNKNOWN)) by by rewrite Hs.
    destruct (plain_transition _ _ _ Hfind) as (g & j & ->). cbn.
    eexists _, _, _. split; [reflexivity|].
    split; [apply extends_touch | by repeat constructor].
  - (* UNKNOWN *)
    rewrite bind_run. destruct (IsStowed_run n) as (jm' & -> & Hext).
    cbn [value after calls fst snd].
    destruct (stowed_pose (joints_ n)); rewrite bind_run.
    + assert (Hfind : fsm_find fsm_table (fsm_ (with_joints jm' n)) STOWED
                      = Some (fun _ => ret STATE.STOWED)) by (cbn; by rewrite Hs).
      destruct (plain_transition _ _ _ Hfind) as (g & j & ->). cbn.
      eexists _, _, _. split; [reflexivity|].
      split; [by apply extends_touch_r | by repeat constructor].
    + assert (Hfind : fsm_find fsm_table (fsm_ (with_joints jm' n)) DEPLOYED
                      = Some (fun _ => ret STATE.DEPLOYED)) by (cbn; by rewrite Hs).
      destruct (plain_transition _ _ _ Hfind) as (g & j & ->). cbn.
      eexists _, _, _. split; [reflexivity|].
      split; [by apply extends_touch_r | by repeat constructor].
  - (* STOWED *)
    rewrite bind_run. destruct (IsStowed_run n) as (jm' & -> & Hext).
    cbn [value after calls fst snd].
    destruct (stowed_pose (joints_ n)); cbn [negb].
    + exists true, jm', []. unfold with_joints, with_state, ret. cbn.
      rewrite Hs. by repeat split.
    + rewrite bind_run.
      assert (Hfind : fsm_find fsm_table (fsm_ (with_joints jm' n)) DEPLOYED
                      = Some (fun _ => ret STATE.DEPLOYED)) by (cbn; by rewrite Hs).
      destruct (plain_transition _ _ _ Hfind) as (g & j & ->). cbn.
      eexists _, _, _. split; [reflexivity|].
      split; [by apply extends_touch_r | by repeat constructor].
  - (* DEPLOYED *)
    rewrite bind_run. destruct (IsStowed_run n) as (jm' & -> & Hext).
    cbn [value after calls fst snd].
    destruct (stowed_pose (joints_ n)).
    + rewrite bind_run.
      assert (Hfind : fsm_find fsm_table (fsm_ (with_joints jm' n)) STOWED
                      = Some (fun _ => ret STATE.STOWED)) by (cbn; by rewrite Hs).
      destruct (plain_transition _ _ _ Hfind) as (g & j & ->). cbn.
      eexists _, _, _. split; [reflexivity|].
      split; [by apply extends_touch_r | by repeat constructor].
    + exists true, jm', []. unfold with_joints, with_state, ret. cbn.
      rewrite Hs. by repeat split.
Qed.

Lemma send_feedback_run (n : ArmNodelet) :
  exists jm', after (send_feedback n) = with_joints jm' n
              /\ extends (joints_ n) jm'.
Proof.
  unfold send_feedback. rewrite get_bind_run.
  destruct (tracking (fsm_ n)).
  - rewrite !joints_at_bind_run. cbn. eexists. split; [reflexivity|].
    repeat apply extends_touch_r. apply extends_refl.
  - exists (joints_ n). split; [by destruct n | apply extends_refl].
Qed.

(** The nodelet that [JointStateCallback] leaves, on a message with a
    recognised entry. *)
Lemma JointStateCallback_after (msg : list JointState) (n : ArmNodelet) :
  recognised msg n ->
  let u := update_state_machine (after (ingest msg [] n)) in
  exists jm',
    after (JointStateCallback msg n) = with_joints jm' (after u)
    /\ extends (joints_ (after u)) jm'.
Proof.
  intros Hrec u. subst u. unfold JointStateCallback. rewrite bind_run.
  destruct (ingest_run msg [] n) as (jm1 & samples & -> & Hne & _).
  cbn [value after calls fst snd app].
  destruct samples as [|s0 samples]; [by destruct (Hne Hrec)|].
  rewrite get_bind_run, !call_bind_run, bind_run.
  cbn [value after calls fst snd app].
  destruct (value (update_state_machine (with_joints jm1 n))).
  - rewrite call_bind_run. cbn [after fst snd]. apply send_feedback_run.
  - unfold ret. cbn [after fst snd].
    exists (joints_ (after (update_state_machine (with_joints jm1 n)))).
    split; [|apply extends_refl].
    by destruct (after (update_state_machine (with_joints jm1 n))).
Qed.

Lemma goal_set_val (v : float) (j : JointInfo) : goal (set_val v j) = goal j.
Proof. reflexivity. Qed.

(** Outside an action, telemetry classifies the arm and does nothing else.
    In INITIALIZING, UNKNOWN, STOWED or DEPLOYED, a message with a
    recognised entry takes INITIALIZING to UNKNOWN and any of the other
    three to STOWED when [IsStowed] holds of the new values and to
    DEPLOYED otherwise; it leaves every goal as it was, sends no result and
    publishes no joint goal. *)
Theorem telemetry_classifies_background (msg : list JointState) (n : ArmNodelet) :
  tracking (fsm_ n) = false ->
  recognised msg n ->
  let n1 := after (ingest msg [] n) in
  let r := JointStateCallback msg n in
  fsm_ (after r) = background_state (fsm_ n) (value (IsStowed n1))
  /\ (forall t, goal (peek t (joints_ (after r))) = goal (peek t (joints_ n))
                /\ val (peek t (joints_ (after r))) = val (peek t (joints_ n1)))
  /\ results (calls r) = []
  /\ joint_goals (calls r) = [].
Proof.
  intros Ht Hrec n1 r. subst n1 r.
  destruct (JointStateCallback_after msg n Hrec) as (jm2 & -> & Hext2).
  destruct (JointStateCallback_calls msg n Hrec) as (tail & -> & Htail).
  pose proof (preserves_ingest goal msg [] goal_set_val n) as (Kgoal & _).
  rewrite IsStowed_value.
  destruct (ingest_run msg [] n) as (jm1 & samples & E & _).
  rewrite E in Kgoal, Hext2 |- *.
  cbn [after fst snd joints_ with_joints] in Kgoal, Hext2 |- *.
  destruct (update_state_machine_background (with_joints jm1 n) Ht)
    as (continue & jm' & cs & Eu & Hext & Hquiet).
  rewrite Eu in Hext2 |- *.
  cbn [after calls fst snd joints_ fsm_ with_joints with_state] in Hext2 |- *.
  split; [done|]. split.
  - intros t. rewrite (extends_peek _ _ _ Hext2), (extends_peek _ _ _ Hext).
    split; [apply Kgoal | done].
  - assert (Htail' : results tail = [] /\ joint_goals tail = []).
    { clear -Htail. induction tail as [|c tail IH]; [done|].
      destruct IH as [IH1 IH2]; [intros c' Hc'; apply Htail; by right|].
      destruct (Htail c) as [[l ->]|(s & p & t & g & ->)]; [by left | |];
        cbn; by rewrite ?IH1, ?IH2. }
    destruct (quiet_silent _ Hquiet) as [Q1 Q2], Htail' as [T1 T2].
    unfold results, joint_goals in *. cbn [omap list_omap].
    rewrite !omap_app. by rewrite Q1, Q2, T1, T2.
Qed.

Lemma telemetry_classifies_background_witness :
  let n := example_arm STATE.STOWED 0 0 180 180 20 20 in
  let msg := [mkJointState "arm_tilt" 0 0 0] in
  let r := JointStateCallback msg n in
  (tracking (fsm_ n) = false /\ recognised msg n)
  /\ fsm_ (after r) = STATE.DEPLOYED
  /\ val (peek TILT (joints_ (after r))) = 90%float
  /\ goal (peek TILT (joints_ (after r))) = 180%float.
Proof.
  assert (Hrec : recognised [mkJointState "arm_tilt" 0 0 0]
                   (example_arm STATE.STOWED 0 0 180 180 20 20)).
  { exists (mkJointState "arm_tilt" 0 0 0). split; [by left | by eexists]. }
  pose proof (telemetry_classifies_background [mkJointState "arm_tilt" 0 0 0]
                (example_arm STATE.STOWED 0 0 180 180 20 20) eq_refl Hrec)
    as (Hs & Hj & _).
  destruct (Hj TILT) as [Hg Hv].
  split; [split; [reflexivity | exact Hrec]|].
  split; [rewrite Hs; reflexivity|].
  split; [rewrite Hv; reflexivity | rewrite Hg; reflexivity].
Defined.

(** ** Timeouts, cancellations and completions *)

Lemma find_abort (s : STATE.t) :
  abortable s = true ->
  fsm_find fsm_table s TIMEOUT = Some (fun _ => Result (failure_code s) false)
  /\ fsm_find fsm_table s GOAL_CANCEL
     = Some (fun _ => Result (failure_code s) false).
Proof. destruct s; try discriminate; intros _; split; reflexivity. Qed.

Lemma find_no_abort (s : STATE.t) :
  abortable s = false ->
  fsm_find fsm_table s TIMEOUT = None /\ fsm_find fsm_table s GOAL_CANCEL = None.
Proof. destruct s; try discriminate; intros _; split; reflexivity. Qed.

Lemma find_final (s : STATE.t) :
  final s = true ->
  fsm_find fsm_table s (complete_event s)
  = Some (fun _ => Result RESPONSE.SUCCESS false).
Proof. destruct s; try discriminate; intros _; reflexivity. Qed.

Lemma find_chained (s : STATE.t) :
  chained s = true ->
  fsm_find fsm_table s (complete_event s)
  = Some (fun _ =>
      ok <- Arm (next_joint s) ;;
      if negb ok then Result (match s with
                              | STATE.STOWING_SETTING => RESPONSE.PAN_FAILED
                              | _ => RESPONSE.TILT_FAILED
                              end) false
      else ret (next_state s)).
Proof. destruct s; try discriminate; intros _; reflexivity. Qed.

(** An event whose transition is [Result(code)], taken in a tracking
    state. *)
Lemma resolving_transition (e : Event) (n : ArmNodelet) (code : Z) :
  fsm_find fsm_table (fsm_ n) e = Some (fun _ => Result code false) ->
  tracking (fsm_ n) = true ->
  code <> RESPONSE.COMMUNICATION_ERROR ->
  let r := fsm_Update e n in
  results (calls r) = [(channel code, code)]
  /\ fsm_ (after r) = resting_state (value (IsStowed n))
  /\ goals_held (joints_ (after r))
  /\ (forall t, val (peek t (joints_ (after r))) = val (peek t (joints_ n)))
  /\ joint_goals (calls r) = [].
Proof.
  intros Hfind Ht Hc r. subst r.
  destruct (fsm_Update_fires _ _ _ Hfind) as (g & j & ->).
  destruct (Result_run code false n) as (jm' & -> & Hext & _).
  rewrite Ht, IsStowed_value. cbn.
  destruct (Z.eqb_spec code RESPONSE.COMMUNICATION_ERROR) as [|_]; [done|].
  split; [done|]. split; [by destruct (stowed_pose (joints_ n))|].
  split; [|split; [|done]].
  - apply (extends_snap_held (joints_ n)). by apply extends_touch_r.
  - intros t. by rewrite peek_touch, (extends_peek _ _ _ Hext), peek_snap.
Qed.

(** A timeout or a cancellation aborts the sub-action in progress. In
    PANNING, TILTING, SETTING, CALIBRATING and the three stowing states,
    [TimeoutCallback], [CancelCallback] and [PreemptCallback] send exactly
    one result, aborted, with the failure code of the awaited joint
    (CALIBRATE_FAILED in CALIBRATING); the state becomes STOWED or DEPLOYED
    by the pose; every goal is set to the joint's value; and no joint goal
    is published. *)
Theorem timeout_or_cancel_aborts (n : ArmNodelet) :
  abortable (fsm_ n) = true ->
  let aborted r :=
    results (calls r) = [(AS_ABORTED, failure_code (fsm_ n))]
    /\ fsm_ (after r) = resting_state (value (IsStowed n))
    /\ goals_held (joints_ (after r))
    /\ joint_goals (calls r) = [] in
  aborted (TimeoutCallback n) /\ aborted (CancelCallback n)
  /\ aborted (PreemptCallback n).
Proof.
  intros Ha aborted. subst aborted. cbv beta.
  destruct (find_abort _ Ha) as [Ft Fc].
  assert (Ht : tracking (fsm_ n) = true) by (by destruct (fsm_ n)).
  assert (Hc : failure_code (fsm_ n) <> RESPONSE.COMMUNICATION_ERROR)
    by (by destruct (fsm_ n)).
  assert (Hch : channel (failure_code (fsm_ n)) = AS_ABORTED)
    by (by destruct (fsm_ n)).
  pose proof (resolving_transition _ _ _ Ft Ht Hc) as (T1 & T2 & T3 & _ & T5).
  pose proof (resolving_transition _ _ _ Fc Ht Hc) as (C1 & C2 & C3 & _ & C5).
  rewrite Hch in T1, C1.
  unfold TimeoutCallback, CancelCallback, PreemptCallback. by repeat split.
Qed.

Lemma timeout_or_cancel_aborts_witness :
  let n := example_arm STATE.STOWING_TILTING 0 0 120 180 20 20 in
  abortable (fsm_ n) = true
  /\ results (calls (TimeoutCallback n)) = [(AS_ABORTED, RESPONSE.TILT_FAILED)]
  /\ fsm_ (after (TimeoutCallback n)) = STATE.DEPLOYED.
Proof.
  pose proof (timeout_or_cancel_aborts
                (example_arm STATE.STOWING_TILTING 0 0 120 180 20 20) eq_refl)
    as ((R & S & _) & _).
  split; [reflexivity|]. split; [exact R|]. rewrite S. reflexivity.
Defined.

(** Where there is nothing to abort, a timeout or a cancellation is
    ignored. This holds in INITIALIZING, UNKNOWN, STOWED and DEPLOYED, and
    also in DEPLOYING_PANNING and DEPLOYING_TILTING: a deployment can be
    neither cancelled nor timed out. *)
Theorem timeout_or_cancel_ignored (n : ArmNodelet) :
  abortable (fsm_ n) = false ->
  TimeoutCallback n = (tt, n, [FsmUpdate TIMEOUT])
  /\ CancelCallback n = (tt, n, [FsmUpdate GOAL_CANCEL])
  /\ PreemptCallback n = (tt, n, [FsmUpdate GOAL_CANCEL]).
Proof.
  intros Ha. destruct (find_no_abort _ Ha) as [Ft Fc].
  unfold TimeoutCallback, CancelCallback, PreemptCallback.
  by rewrite (fsm_Update_ignored _ _ Ft), (fsm_Update_ignored _ _ Fc).
Qed.

Lemma timeout_or_cancel_ignored_witness :
  let n := example_arm STATE.DEPLOYING_PANNING 30 0 180 0 20 20 in
  abortable (fsm_ n) = false
  /\ TimeoutCallback n = (tt, n, [FsmUpdate TIMEOUT])
  /\ CancelCallback n = (tt, n, [FsmUpdate GOAL_CANCEL]).
Proof.
  pose proof (timeout_or_cancel_ignored
                (example_arm STATE.DEPLOYING_PANNING 30 0 180 0 20 20) eq_refl)
    as (T & C & _).
  split; [reflexivity|]. split; [exact T | exact C].
Defined.

(** The completion event of the last sub-action reports success. In
    TILTING, STOWING_TILTING, DEPLOYING_TILTING, SETTING and CALIBRATING the
    completion event of the state sends exactly one result, SUCCESS on the
    success channel; the state becomes STOWED or DEPLOYED by the pose;
    every goal is set to the joint's value; no joint goal is published. *)
Theorem final_completion_succeeds (n : ArmNodelet) :
  final (fsm_ n) = true ->
  let r := fsm_Update (complete_event (fsm_ n)) n in
  results (calls r) = [(AS_SUCCESS, RESPONSE.SUCCESS)]
  /\ fsm_ (after r) = resting_state (value (IsStowed n))
  /\ goals_held (joints_ (after r))
  /\ (forall t, val (peek t (joints_ (after r))) = val (peek t (joints_ n)))
  /\ joint_goals (calls r) = [].
Proof.
  intros Hf r. subst r.
  assert (Ht : tracking (fsm_ n) = true) by (by destruct (fsm_ n)).
  by apply (resolving_transition _ _ _ (find_final _ Hf) Ht).
Qed.

Lemma final_completion_succeeds_witness :
  let n := example_arm STATE.DEPLOYING_TILTING 0 0 1 0 20 20 in
  let r := fsm_Update TILT_COMPLETE n in
  final (fsm_ n) = true
  /\ results (calls r) = [(AS_SUCCESS, RESPONSE.SUCCESS)]
  /\ fsm_ (after r) = STATE.DEPLOYED.
Proof.
  pose proof (final_completion_succeeds
                (example_arm STATE.DEPLOYING_TILTING 0 0 1 0 20 20) eq_refl)
    as (R & S & _).
  split; [reflexivity|]. split; [exact R|].
  etransitivity; [exact S | reflexivity].
Defined.

(** The completion event of an earlier sub-action starts the next one. In
    PANNING, STOWING_PANNING and DEPLOYING_PANNING, PAN_COMPLETE commands
    tilt and leads to the tilting state of the same action; in
    STOWING_SETTING, GRIPPER_COMPLETE commands pan and leads to
    STOWING_PANNING. Exactly one joint goal is published, the goal timer is
    restarted, no result is sent, and the joints keep their goals and
    values. The joint commanded next is taken to be in the registry. *)
Theorem completion_starts_next (n : ArmNodelet) :
  chained (fsm_ n) = true ->
  is_Some (joints_ n !! next_joint (fsm_ n)) ->
  let r := fsm_Update (complete_event (fsm_ n)) n in
  fsm_ (after r) = next_state (fsm_ n)
  /\ joint_goals (calls r) = [driver_goal (peek (next_joint (fsm_ n)) (joints_ n))]
  /\ In (TimerStart timer_goal_) (calls r)
  /\ results (calls r) = []
  /\ (forall t, peek t (joints_ (after r)) = peek t (joints_ n)).
Proof.
  intros Hc [j Hj] r. subst r.
  destruct (fsm_Update_fires _ _ _ (find_chained _ Hc)) as (g & j' & ->).
  rewrite !bind_run, !Arm_run, Hj, (peek_lookup _ _ _ Hj). cbn.
  split; [done|]. split; [done|]. split; [tauto|]. split; [done|].
  intros t. apply peek_touch.
Qed.

Lemma completion_starts_next_witness :
  let n := example_arm STATE.DEPLOYING_PANNING 0 0 180 0 20 20 in
  let r := fsm_Update PAN_COMPLETE n in
  (chained (fsm_ n) = true /\ is_Some (joints_ n !! TILT))
  /\ fsm_ (after r) = STATE.DEPLOYING_TILTING
  /\ joint_goals (calls r) = [("arm_tilt", ((0 - 90) / K_RADS_TO_DEGS)%float)].
Proof.
  assert (Hj : is_Some (joints_ (example_arm STATE.DEPLOYING_PANNING 0 0 180 0 20 20)
                          !! TILT)) by (by eexists).
  pose proof (completion_starts_next
                (example_arm STATE.DEPLOYING_PANNING 0 0 180 0 20 20) eq_refl Hj)
    as (S & G & _).
  split; [split; [reflexivity | exact Hj]|].
  split; [exact S | exact G].
Defined.

(** ** One result per action *)

Lemma all_entries_Add P s mask cb tbl :
  (forall e, P s e cb) -> all_entries P tbl ->
  all_entries P (fsm_Add s mask cb tbl).
Proof.
  intros Hcb Htbl. unfold fsm_Add, all_entries.
  apply Forall_app. split; [|done].
  apply Forall_forall. intros entry Hin.
  apply list_elem_of_In, in_map_iff in Hin as (e & <- & _). apply Hcb.
Qed.

Lemma all_entries_Add2 P s1 s2 mask cb tbl :
  (forall e, P s1 e cb) -> (forall e, P s2 e cb) -> all_entries P tbl ->
  all_entries P (fsm_Add2 s1 s2 mask cb tbl).
Proof.
  intros H1 H2 Htbl. unfold fsm_Add2.
  apply all_entries_Add; [done|]. by apply all_entries_Add.
Qed.

Lemma all_entries_find P tbl s e cb :
  all_entries P tbl -> fsm_find tbl s e = Some cb -> P s e cb.
Proof.
  induction tbl as [|[[s' e'] cb'] tbl IH]; [done|].
  intros Hall. apply Forall_cons in Hall as [Hcb Htbl].
  unfold fsm_find; fold fsm_find.
  destruct (bool_decide_reflect (s = s')) as [->|_]; [|by apply IH].
  destruct (Z.eqb_spec e e') as [->|_]; [|by apply IH].
  by intros [= <-].
Qed.

Lemma one_result_ret (s s' : STATE.t) (n : ArmNodelet) :
  (tracking s = true -> tracking s' = true) -> one_result s (ret s' n).
Proof. intros H. by left. Qed.

Lemma one_result_Result (s : STATE.t) (n : ArmNodelet) (code : Z) :
  fsm_ n = s -> code <> RESPONSE.COMMUNICATION_ERROR ->
  one_result s (Result code false n).
Proof.
  intros Hs Hc. destruct (Result_run code false n) as (jm' & -> & _).
  rewrite Hs, orb_false_r.
  destruct (Z.eqb_spec code RESPONSE.COMMUNICATION_ERROR) as [|_]; [done|].
  unfold one_result. cbn [value calls fst snd].
  destruct (tracking s).
  - right. exists (channel code), code.
    split; [done|]. split; [done|]. by destruct (stowed_pose (joints_ n)).
  - by left.
Qed.

Lemma one_result_bind {A} (s : STATE.t) (m : M A) (f : A -> M STATE.t)
    (n : ArmNodelet) :
  results (calls (m n)) = [] ->
  one_result s (f (value (m n)) (after (m n))) ->
  one_result s (bind m f n).
Proof.
  intros Hm Hf. rewrite bind_run. unfold one_result in *.
  cbn [value calls fst snd]. unfold results in *. rewrite omap_app, Hm.
  exact Hf.
Qed.

Lemma results_Arm (t : JointType) (n : ArmNodelet) : results (calls (Arm t n)) = [].
Proof. rewrite Arm_run. by destruct (joints_ n !! t). Qed.

Lemma after_Arm (t : JointType) (n : ArmNodelet) : after (Arm t n) = n.
Proof. rewrite Arm_run. by destruct (joints_ n !! t). Qed.

Ltac one_result_step Hs :=
  lazymatch goal with
  | |- one_result _ (ret _ _) => apply one_result_ret; try done
  | |- one_result _ (Result _ _ _) =>
      apply one_result_Result; [exact Hs | done]
  | |- one_result _ (bind (Arm _) _ _) =>
      apply one_result_bind; [apply results_Arm | rewrite after_Arm]
  | |- one_result _ (bind RequiresClosing _ _) =>
      apply one_result_bind; rewrite RequiresClosing_run; [done|];
      cbn [value after fst snd]
  | |- one_result _ ((if ?b then _ else _) _) => destruct b
  end.

Lemma fsm_table_one_result :
  all_entries (fun s e cb => forall n, fsm_ n = s -> one_result s (cb e n))
    fsm_table.
Proof.
  unfold fsm_table. cbn [fold_left].
  repeat first [ apply all_entries_Add | apply all_entries_Add2 ];
    try (intros e n Hs; repeat one_result_step Hs).
  constructor.
Qed.

Lemma fsm_Update_one_result (e : Event) (n : ArmNodelet) :
  (results (calls (fsm_Update e n)) = []
   /\ (tracking (fsm_ n) = true -> tracking (fsm_ (after (fsm_Update e n))) = true))
  \/ (exists ch code,
        results (calls (fsm_Update e n)) = [(ch, code)]
        /\ tracking (fsm_ n) = true
        /\ tracking (fsm_ (after (fsm_Update e n))) = false).
Proof.
  destruct (fsm_find fsm_table (fsm_ n) e) as [cb|] eqn:Hfind.
  - destruct (fsm_Update_fires _ _ _ Hfind) as (g & j & ->).
    pose proof (all_entries_find _ _ _ _ _ fsm_table_one_result Hfind n eq_refl)
      as Hcb.
    unfold one_result in Hcb. cbn [value after calls fst snd fsm_ with_state].
    assert (Hres : results (FsmUpdate e :: calls (cb e n)
                              ++ [PubState (value (cb e n)); PubArmState g j])
                   = results (calls (cb e n))).
    { unfold results. cbn [omap list_omap]. rewrite omap_app. cbn.
      by rewrite app_nil_r. }
    rewrite Hres. exact Hcb.
  - rewrite (fsm_Update_ignored _ _ Hfind). by left.
Qed.

(** An action gets its result exactly when the state machine leaves it.
    Whatever the event, [fsm_.Update] sends at most one result; it sends
    one if and only if the state before is a tracking state and the state
    after is not. *)
Theorem one_result_per_action (e : Event) (n : ArmNodelet) :
  let r := fsm_Update e n in
  (results (calls r) = [] \/ exists ch code, results (calls r) = [(ch, code)])
  /\ (results (calls r) <> [] <->
      tracking (fsm_ n) = true /\ tracking (fsm_ (after r)) = false).
Proof.
  intros r. subst r.
  destruct (fsm_Update_one_result e n)
    as [[Hnone Hstay]|(ch & code & Hone & Ht & Hleft)].
  - split; [by left|]. rewrite Hnone. split; [done|].
    intros [Ht Hf]. rewrite (Hstay Ht) in Hf. discriminate Hf.
  - split; [right; by exists ch, code|]. rewrite Hone. by split.
Qed.

(** ** Commands that are refused *)

Lemma reject_calls (code : Z) (n : ArmNodelet) :
  (code <? 0) = true ->
  calls ((Result code true ;; ret tt) n) = [SendResult AS_ABORTED code]
  /\ fsm_ (after ((Result code true ;; ret tt) n)) = fsm_ n.
Proof.
  intros Hneg. destruct (reject_run code n) as (jm' & -> & _).
  unfold channel. rewrite Hneg.
  destruct (Z.ltb_spec 0 code) as [H|H]; [|done].
  apply Z.ltb_lt in Hneg. lia.
Qed.

(** A gripper that reports a negative opening is uncalibrated, and
    GRIPPER_SET, GRIPPER_OPEN and GRIPPER_CLOSE are then refused with
    NEED_TO_CALIBRATE in every state, also where the command would not be
    allowed anyway; the state is unchanged. *)
Theorem uncalibrated_gripper_refused (goal_ : ArmGoal) (n : ArmNodelet) :
  gripper_motion (command goal_) = true ->
  (val (peek GRIPPER (joints_ n)) <? 0)%float = true ->
  let r := GoalCallback goal_ n in
  calls r = [SendResult AS_ABORTED RESPONSE.NEED_TO_CALIBRATE]
  /\ fsm_ (after r) = fsm_ n.
Proof.
  intros Hc Hv r. subst r. unfold GoalCallback, need_to_calibrate.
  destruct (command goal_); try discriminate Hc;
    rewrite joints_at_bind_run, Hv;
    exact (reject_calls RESPONSE.NEED_TO_CALIBRATE _ eq_refl).
Qed.

Lemma uncalibrated_gripper_refused_witness :
  let n := example_arm STATE.STOWED 0 0 180 180 (-100) 20 in
  let r := GoalCallback (mkArmGoal GRIPPER_SET 0 0 30) n in
  (gripper_motion GRIPPER_SET = true
   /\ (val (peek GRIPPER (joints_ n)) <? 0)%float = true)
  /\ calls r = [SendResult AS_ABORTED RESPONSE.NEED_TO_CALIBRATE]
  /\ fsm_ (after r) = STATE.STOWED.
Proof.
  pose proof (uncalibrated_gripper_refused (mkArmGoal GRIPPER_SET 0 0 30)
                (example_arm STATE.STOWED 0 0 180 180 (-100) 20) eq_refl eq_refl)
    as [C S].
  split; [split; reflexivity|]. split; [exact C | exact S].
Defined.

(** A command received in a state that does not accept it is refused with
    NOT_ALLOWED, and a command that is none of the ten known ones with
    INVALID_COMMAND in every state: one aborted result, the state
    unchanged, no joint goal published. DEPLOY is accepted in STOWED only;
    STOW, the gripper commands and calibration in DEPLOYED only; PAN, TILT
    and MOVE in STOWED and DEPLOYED. (For the three commands that move the
    gripper the gripper must report a non-negative opening, or the refusal
    is NEED_TO_CALIBRATE instead.) *)
Theorem command_refused_in_wrong_state (goal_ : ArmGoal) (n : ArmNodelet) :
  accepted_in (command goal_) (fsm_ n) = false ->
  gripper_motion (command goal_)
    && (val (peek GRIPPER (joints_ n)) <? 0)%float = false ->
  let r := GoalCallback goal_ n in
  calls r = [SendResult AS_ABORTED
               (match command goal_ with
                | OTHER_COMMAND => RESPONSE.INVALID_COMMAND
                | _ => RESPONSE.NOT_ALLOWED
                end)]
  /\ fsm_ (after r) = fsm_ n
  /\ joint_goals (calls r) = [].
Proof.
  intros Ha Hg r. subst r.
  assert (Hrej : forall code n',
    (code <? 0) = true -> fsm_ n' = fsm_ n ->
    calls ((Result code true ;; ret tt) n') = [SendResult AS_ABORTED code]
    /\ fsm_ (after ((Result code true ;; ret tt) n')) = fsm_ n
    /\ joint_goals (calls ((Result code true ;; ret tt) n')) = []).
  { intros code n' Hneg Hs. destruct (reject_calls code n' Hneg) as [-> ->].
    by rewrite Hs. }
  assert (Hor : resting (fsm_ n) = false ->
                bool_decide (fsm_ n = STATE.DEPLOYED)
                || bool_decide (fsm_ n = STATE.STOWED) = false)
    by (destruct (fsm_ n); done).
  unfold GoalCallback, not_allowed, need_to_calibrate.
  destruct (command goal_); cbn [accepted_in gripper_motion andb] in Ha, Hg;
    try discriminate Ha;
    rewrite ?joints_at_bind_run, ?Hg, ?get_bind_run;
    cbn [fsm_ with_joints]; try rewrite (Hor Ha); rewrite ?Ha;
    by apply Hrej.
Qed.

Lemma command_refused_in_wrong_state_witness :
  let n := example_arm STATE.PANNING 10 45 90 90 20 20 in
  let r := GoalCallback (mkArmGoal ARM_STOW 0 0 0) n in
  (accepted_in ARM_STOW (fsm_ n) = false
   /\ gripper_motion ARM_STOW
        && (val (peek GRIPPER (joints_ n)) <? 0)%float = false)
  /\ calls r = [SendResult AS_ABORTED RESPONSE.NOT_ALLOWED]
  /\ fsm_ (after r) = STATE.PANNING.
Proof.
  pose proof (command_refused_in_wrong_state (mkArmGoal ARM_STOW 0 0 0)
                (example_arm STATE.PANNING 10 45 90 90 20 20) eq_refl eq_refl)
    as (C & S & _).
  split; [split; reflexivity|]. split; [exact C | exact S].
Defined.

(** ** Commands that start an action *)

Lemma starting_transition (e : Event) (n : ArmNodelet) (t : JointType)
    (code : Z) (s' : STATE.t) (j : JointInfo) :
  fsm_find fsm_table (fsm_ n) e
  = Some (fun _ => ok <- Arm t ;;
                   if negb ok then Result code false else ret s') ->
  joints_ n !! t = Some j ->
  exists g jj,
    fsm_Update e n
    = (tt, with_state s' (with_joints (touch GRIPPER (joints_ n)) n),
       [FsmUpdate e;
        PubJointGoal (name j) ((goal j - offset j) / scale j)%float;
        TimerStop timer_goal_;
        TimerSetPeriod timer_goal_ (timeout_goal (cfg_ n));
        TimerStart timer_goal_;
        PubState s'; PubArmState g jj]).
Proof.
  intros Hfind Hj. destruct (fsm_Update_fires _ _ _ Hfind) as (g & jj & ->).
  rewrite !bind_run, !Arm_run, Hj. cbn. by exists g, jj.
Qed.

Lemma find_GOAL_MOVE (s : STATE.t) :
  resting s = true ->
  fsm_find fsm_table s GOAL_MOVE
  = Some (fun _ => ok <- Arm PAN ;;
                   if negb ok then Result RESPONSE.PAN_FAILED false
                   else ret STATE.PANNING).
Proof. destruct s; try discriminate; intros _; reflexivity. Qed.

Lemma find_STOWED_GOAL_DEPLOY :
  fsm_find fsm_table STATE.STOWED GOAL_DEPLOY
  = Some (fun _ => ok <- Arm PAN ;;
                   if negb ok then Result RESPONSE.PAN_FAILED false
                   else ret STATE.DEPLOYING_PANNING).
Proof. reflexivity. Qed.

Lemma find_DEPLOYED_GOAL_SET :
  fsm_find fsm_table STATE.DEPLOYED GOAL_SET
  = Some (fun _ => ok <- Arm GRIPPER ;;
                   if negb ok then Result RESPONSE.GRIPPER_FAILED false
                   else ret STATE.SETTING).
Proof. reflexivity. Qed.

(** A PAN, TILT or MOVE command that passes the three checks, received in
    STOWED or DEPLOYED, starts a move: the goals of pan and tilt become the
    proposed values, the state becomes PANNING, and the pan joint alone is
    commanded, with the proposed pan in driver units; tilt is commanded
    only later. The goal timer is started, no result is sent, and the
    gripper is left alone. *)
Theorem move_command_accepted (goal_ : ArmGoal) (n : ArmNodelet) :
  moving_command (command goal_) = true ->
  resting (fsm_ n) = true ->
  let pan_ := peek PAN (joints_ n) in
  let new_p := proposed_pan goal_ pan_ in
  let new_t := proposed_tilt goal_ (peek TILT (joints_ n)) in
  tilt_out_of_bounds new_t = false ->
  pan_out_of_bounds new_p = false ->
  would_collide new_p new_t = false ->
  let r := GoalCallback goal_ n in
  fsm_ (after r) = STATE.PANNING
  /\ peek PAN (joints_ (after r)) = set_goal new_p pan_
  /\ peek TILT (joints_ (after r)) = set_goal new_t (peek TILT (joints_ n))
  /\ peek GRIPPER (joints_ (after r)) = peek GRIPPER (joints_ n)
  /\ joint_goals (calls r)
     = [(name pan_, ((new_p - offset pan_) / scale pan_)%float)]
  /\ In (TimerStart timer_goal_) (calls r)
  /\ results (calls r) = [].
Proof.
  intros Hc Hs pan_ new_p new_t Ht Hp Hw r. subst r.
  pose proof (GoalCallback_move_run goal_ n Hc Hs) as Hrun. cbv zeta in Hrun.
  fold pan_ new_p new_t in Hrun. rewrite Ht, Hp, Hw in Hrun.
  rewrite Hrun, !joints_assign_bind_run. clear Hrun.
  cbn [joints_ with_joints].
  rewrite !peek_insert_ne, !peek_touch by done.
  set (jm4 := <[TILT := _]> (<[PAN := _]> _)).
  assert (Hpan : jm4 !! PAN = Some (set_goal new_p pan_)).
  { subst jm4. rewrite lookup_insert_ne by done. apply lookup_insert_eq. }
  assert (Hfind := find_GOAL_MOVE _ Hs).
  match goal with
  | |- context [fsm_Update GOAL_MOVE ?n4] =>
      destruct (starting_transition GOAL_MOVE n4 PAN _ _ _ Hfind Hpan)
        as (g & jj & ->)
  end.
  cbn [after calls fst snd fsm_ joints_ with_state with_joints].
  rewrite ?peek_touch. subst jm4.
  rewrite (peek_insert_ne TILT PAN), !peek_insert_eq by done.
  rewrite !peek_insert_ne, ?peek_touch by done.
  repeat split; try done. cbn. tauto.
Qed.

Lemma move_command_accepted_witness :
  let n := example_arm STATE.DEPLOYED 0 0 0 0 20 20 in
  let r := GoalCallback (mkArmGoal ARM_MOVE 45 60 0) n in
  (moving_command ARM_MOVE = true /\ resting (fsm_ n) = true
   /\ tilt_out_of_bounds 60 = false /\ pan_out_of_bounds 45 = false
   /\ would_collide 45 60 = false)
  /\ fsm_ (after r) = STATE.PANNING
  /\ joint_goals (calls r) = [("arm_pan", ((45 - 0) / K_RADS_TO_DEGS)%float)].
Proof.
  pose proof (move_command_accepted (mkArmGoal ARM_MOVE 45 60 0)
                (example_arm STATE.DEPLOYED 0 0 0 0 20 20)
                eq_refl eq_refl eq_refl eq_refl eq_refl)
    as (S & _ & _ & _ & G & _).
  split; [repeat split; reflexivity|]. split; [exact S | exact G].
Defined.

(** The goals of all three joints are assigned, and then an event is
    raised: the shape of the DEPLOY and STOW branches. *)
Lemma assign_three_run (p t g : float) (e : Event) (n : ArmNodelet) :
  (joints_assign PAN (set_goal p) ;;
   joints_assign TILT (set_goal t) ;;
   joints_assign GRIPPER (set_goal g) ;;
   fsm_Update e) n
  = fsm_Update e
      (with_joints
         (<[GRIPPER := set_goal g (peek GRIPPER (joints_ n))]>
            (<[TILT := set_goal t (peek TILT (joints_ n))]>
               (<[PAN := set_goal p (peek PAN (joints_ n))]> (joints_ n)))) n).
Proof.
  rewrite !joints_assign_bind_run. cbn [joints_ with_joints].
  by rewrite !peek_insert_ne by done.
Qed.

(** DEPLOY received in STOWED sets the goals to the deployed pose (pan 0,
    tilt 0, gripper 20), leads to DEPLOYING_PANNING and commands the pan
    joint alone, with goal 0 in driver units; no result is sent. *)
Theorem deploy_command_starts (goal_ : ArmGoal) (n : ArmNodelet) :
  command goal_ = ARM_DEPLOY ->
  fsm_ n = STATE.STOWED ->
  let r := GoalCallback goal_ n in
  let pan_ := peek PAN (joints_ n) in
  fsm_ (after r) = STATE.DEPLOYING_PANNING
  /\ peek PAN (joints_ (after r)) = set_goal 0 pan_
  /\ peek TILT (joints_ (after r)) = set_goal 0 (peek TILT (joints_ n))
  /\ peek GRIPPER (joints_ (after r)) = set_goal 20 (peek GRIPPER (joints_ n))
  /\ joint_goals (calls r) = [(name pan_, ((0 - offset pan_) / scale pan_)%float)]
  /\ results (calls r) = [].
Proof.
  intros Hc Hs r pan_. subst r pan_.
  unfold GoalCallback. rewrite Hc, get_bind_run, Hs.
  change (bool_decide (STATE.STOWED = STATE.STOWED)) with true. cbv iota.
  rewrite assign_three_run.
  assert (Hfind := find_STOWED_GOAL_DEPLOY). rewrite <- Hs in Hfind.
  match goal with
  | |- context [fsm_Update GOAL_DEPLOY ?n3] =>
      assert (Hpan : joints_ n3 !! PAN
                     = Some (set_goal K_PAN_DEPLOY (peek PAN (joints_ n))))
        by (cbn [joints_ with_joints];
            rewrite !lookup_insert_ne by done; apply lookup_insert_eq);
      destruct (starting_transition GOAL_DEPLOY n3 PAN _ _ _ Hfind Hpan)
        as (g & jj & ->)
  end.
  cbn [after calls fst snd fsm_ joints_ with_state with_joints].
  rewrite !peek_touch, peek_insert_eq.
  rewrite (peek_insert_ne GRIPPER TILT), peek_insert_eq by done.
  rewrite !peek_insert_ne, peek_insert_eq by done.
  by repeat split.
Qed.

Lemma deploy_command_starts_witness :
  let n := example_arm STATE.STOWED 0 0 180 180 20 20 in
  let r := GoalCallback (mkArmGoal ARM_DEPLOY 0 0 0) n in
  fsm_ n = STATE.STOWED
  /\ fsm_ (after r) = STATE.DEPLOYING_PANNING
  /\ goal (peek TILT (joints_ (after r))) = 0%float
  /\ joint_goals (calls r) = [("arm_pan", ((0 - 0) / K_RADS_TO_DEGS)%float)].
Proof.
  pose proof (deploy_command_starts (mkArmGoal ARM_DEPLOY 0 0 0)
                (example_arm STATE.STOWED 0 0 180 180 20 20) eq_refl eq_refl)
    as (S & _ & T & _ & G & _).
  split; [reflexivity|]. split; [exact S|].
  split; [rewrite T; reflexivity | exact G].
Defined.

(** GRIPPER_SET, GRIPPER_OPEN and GRIPPER_CLOSE received in DEPLOYED with
    a calibrated gripper. A GRIPPER_SET below 20 or above 45 is refused
    with BAD_GRIPPER_VALUE and changes no state. Otherwise the gripper
    goal becomes the requested opening (45 for OPEN, 20 for CLOSE), the
    state becomes SETTING, the gripper alone is commanded with that goal
    in driver units, and no result is sent. *)
Theorem gripper_command_in_deployed (goal_ : ArmGoal) (n : ArmNodelet) :
  gripper_motion (command goal_) = true ->
  fsm_ n = STATE.DEPLOYED ->
  (val (peek GRIPPER (joints_ n)) <? 0)%float = false ->
  let r := GoalCallback goal_ n in
  let gripper_ := peek GRIPPER (joints_ n) in
  if gripper_in_range goal_ then
    fsm_ (after r) = STATE.SETTING
    /\ peek GRIPPER (joints_ (after r)) = set_goal (gripper_target goal_) gripper_
    /\ joint_goals (calls r)
       = [(name gripper_,
           ((gripper_target goal_ - offset gripper_) / scale gripper_)%float)]
    /\ results (calls r) = []
  else
    calls r = [SendResult AS_ABORTED RESPONSE.BAD_GRIPPER_VALUE]
    /\ fsm_ (after r) = STATE.DEPLOYED.
Proof.
  intros Hc Hs Hv r gripper_. subst r gripper_.
  assert (Hfind := find_DEPLOYED_GOAL_SET). rewrite <- Hs in Hfind.
  assert (Hstart : forall v,
    let r := fsm_Update GOAL_SET
               (with_joints (<[GRIPPER := set_goal v (peek GRIPPER (joints_ n))]>
                               (touch GRIPPER (joints_ n))) n) in
    fsm_ (after r) = STATE.SETTING
    /\ peek GRIPPER (joints_ (after r)) = set_goal v (peek GRIPPER (joints_ n))
    /\ joint_goals (calls r)
       = [(name (peek GRIPPER (joints_ n)),
           ((v - offset (peek GRIPPER (joints_ n)))
            / scale (peek GRIPPER (joints_ n)))%float)]
    /\ results (calls r) = []).
  { intros v r. subst r.
    match goal with
    | |- context [fsm_Update GOAL_SET ?n2] =>
        assert (Hg : joints_ n2 !! GRIPPER
                     = Some (set_goal v (peek GRIPPER (joints_ n))))
          by apply lookup_insert_eq;
        destruct (starting_transition GOAL_SET n2 GRIPPER _ _ _ Hfind Hg)
          as (g & jj & ->)
    end.
    cbn [after calls fst snd fsm_ joints_ with_state with_joints].
    rewrite peek_touch, peek_insert_eq. by repeat split. }
  unfold GoalCallback, gripper_in_range, gripper_target.
  destruct (command goal_); try discriminate Hc;
    rewrite joints_at_bind_run, Hv, get_bind_run;
    cbn [fsm_ with_joints]; rewrite Hs;
    change (bool_decide (STATE.DEPLOYED = STATE.DEPLOYED)) with true; cbv iota.
  - destruct ((gripper goal_ <? K_GRIPPER_CLOSE)%float
              || (K_GRIPPER_OPEN <? gripper goal_)%float); cbn [negb].
    + destruct (reject_calls RESPONSE.BAD_GRIPPER_VALUE
                  (with_joints (touch GRIPPER (joints_ n)) n) eq_refl) as [-> ->].
      by rewrite <- Hs.
    + rewrite joints_assign_bind_run. cbn [joints_ with_joints].
      rewrite peek_touch. apply Hstart.
  - rewrite joints_assign_bind_run. cbn [joints_ with_joints].
    rewrite peek_touch. apply Hstart.
  - rewrite joints_assign_bind_run. cbn [joints_ with_joints].
    rewrite peek_touch. apply Hstart.
Qed.

Lemma gripper_command_in_deployed_witness :
  let n := example_arm STATE.DEPLOYED 0 0 0 0 20 20 in
  let r := GoalCallback (mkArmGoal GRIPPER_SET 0 0 30) n in
  (gripper_motion GRIPPER_SET = true /\ fsm_ n = STATE.DEPLOYED
   /\ (val (peek GRIPPER (joints_ n)) <? 0)%float = false)
  /\ fsm_ (after r) = STATE.SETTING
  /\ joint_goals (calls r) = [("arm_gripper", ((30 - 20) / 0.25)%float)].
Proof.
  pose proof (gripper_command_in_deployed (mkArmGoal GRIPPER_SET 0 0 30)
                (example_arm STATE.DEPLOYED 0 0 0 0 20 20)
                eq_refl eq_refl eq_refl) as H.
  change (gripper_in_range (mkArmGoal GRIPPER_SET 0 0 30)) with true in H.
  destruct H as (S & _ & G & _).
  split; [repeat split; reflexivity|]. split; [exact S | exact G].
Defined.

Lemma GOAL_STOW_fires (n : ArmNodelet) (p : JointInfo) :
  fsm_ n = STATE.DEPLOYED ->
  joints_ n !! PAN = Some p ->
  let rc := requires_closing (joints_ n) in
  let commanded := if rc then peek GRIPPER (joints_ n) else p in
  let s' := if rc then STATE.STOWING_SETTING else STATE.STOWING_PANNING in
  exists g jj,
    fsm_Update GOAL_STOW n
    = (tt, with_state s' (with_joints (touch GRIPPER (joints_ n)) n),
       [FsmUpdate GOAL_STOW;
        PubJointGoal (name commanded)
          ((goal commanded - offset commanded) / scale commanded)%float;
        TimerStop timer_goal_;
        TimerSetPeriod timer_goal_ (timeout_goal (cfg_ n));
        TimerStart timer_goal_;
        PubState s'; PubArmState g jj]).
Proof.
  intros Hs Hp rc commanded s'. subst rc commanded s'.
  assert (Hfind := find_DEPLOYED_GOAL_STOW). rewrite <- Hs in Hfind.
  destruct (fsm_Update_fires _ _ _ Hfind) as (g & jj & ->). clear Hfind.
  rewrite !bind_run, !RequiresClosing_run. cbn [value after calls fst snd].
  assert (Hpan : touch GRIPPER (joints_ n) !! PAN = Some p)
    by by apply (extends_lookup _ _ _ _ (extends_touch _ _)).
  destruct (requires_closing (joints_ n)).
  - rewrite !bind_run, !Arm_run. cbn [joints_ with_joints].
    rewrite lookup_touch_eq. cbn. rewrite touch_touch. by exists g, jj.
  - rewrite !bind_run, !Arm_run. cbn [joints_ with_joints].
    rewrite Hpan. cbn. rewrite touch_touch. by exists g, jj.
Qed.

(** STOW received in DEPLOYED sets the goals to the stowed pose (pan 0,
    tilt 180, gripper 20) and starts with the gripper when
    [RequiresClosing] holds, leading to STOWING_SETTING, and with pan
    otherwise, leading to STOWING_PANNING. The one joint goal published is
    the stow goal of that joint in driver units; no result is sent. *)
Theorem stow_command_starts (goal_ : ArmGoal) (n : ArmNodelet) :
  command goal_ = ARM_STOW ->
  fsm_ n = STATE.DEPLOYED ->
  let r := GoalCallback goal_ n in
  let pan_ := peek PAN (joints_ n) in
  let gripper_ := peek GRIPPER (joints_ n) in
  peek PAN (joints_ (after r)) = set_goal 0 pan_
  /\ peek TILT (joints_ (after r)) = set_goal 180 (peek TILT (joints_ n))
  /\ peek GRIPPER (joints_ (after r)) = set_goal 20 gripper_
  /\ results (calls r) = []
  /\ if value (RequiresClosing n) then
       fsm_ (after r) = STATE.STOWING_SETTING
       /\ joint_goals (calls r)
          = [(name gripper_, ((20 - offset gripper_) / scale gripper_)%float)]
     else
       fsm_ (after r) = STATE.STOWING_PANNING
       /\ joint_goals (calls r)
          = [(name pan_, ((0 - offset pan_) / scale pan_)%float)].
Proof.
  intros Hc Hs r pan_ gripper_. subst r pan_ gripper_.
  unfold GoalCallback. rewrite Hc, get_bind_run, Hs.
  change (bool_decide (STATE.DEPLOYED = STATE.DEPLOYED)) with true. cbv iota.
  rewrite assign_three_run, RequiresClosing_value.
  match goal with
  | |- context [fsm_Update GOAL_STOW ?n3] =>
      assert (Hpan : joints_ n3 !! PAN
                     = Some (set_goal K_PAN_STOW (peek PAN (joints_ n))))
        by (cbn [joints_ with_joints];
            rewrite !lookup_insert_ne by done; apply lookup_insert_eq);
      assert (Hrc : requires_closing (joints_ n3) = requires_closing (joints_ n))
        by (unfold requires_closing, within; cbn [joints_ with_joints];
            by rewrite peek_insert_eq);
      destruct (GOAL_STOW_fires n3 _ Hs Hpan) as (g & jj & ->);
      rewrite Hrc
  end.
  cbn [after calls fst snd fsm_ joints_ with_state with_joints].
  rewrite !peek_touch, peek_insert_eq.
  rewrite (peek_insert_ne GRIPPER TILT), peek_insert_eq by done.
  rewrite !peek_insert_ne, peek_insert_eq by done.
  split; [done|]. split; [done|]. split; [done|].
  destruct (requires_closing (joints_ n)); by repeat split.
Qed.

Lemma stow_command_starts_witness :
  let n := example_arm STATE.DEPLOYED 0 0 0 0 20 20 in
  let r := GoalCallback (mkArmGoal ARM_STOW 0 0 0) n in
  fsm_ n = STATE.DEPLOYED
  /\ fsm_ (after r) = STATE.STOWING_PANNING
  /\ goal (peek TILT (joints_ (after r))) = 180%float.
Proof.
  pose proof (stow_command_starts (mkArmGoal ARM_STOW 0 0 0)
                (example_arm STATE.DEPLOYED 0 0 0 0 20 20) eq_refl eq_refl)
    as (_ & T & _ & _ & H).
  change (value (RequiresClosing (example_arm STATE.DEPLOYED 0 0 0 0 20 20)))
    with false in H.
  destruct H as [S _].
  split; [reflexivity|]. split; [exact S | rewrite T; reflexivity].
Defined.

Lemma stowed_pose_keeps (jm jm' : JointMap) :
  keeps observed jm jm' -> stowed_pose jm' = stowed_pose jm.
Proof.
  intros K. unfold stowed_pose, within.
  destruct (K PAN) as [_ Ep], (K TILT) as [_ Et].
  unfold observed, static in Ep, Et.
  injection Ep as _ _ -> _ _ ->. injection Et as _ _ -> _ _ ->. done.
Qed.

Lemma peek_freeze (t t' : JointType) (jm : JointMap) :
  peek t' (freeze t jm)
  = if decide (t = t') then snap (peek t jm) else peek t' jm.
Proof.
  unfold freeze. destruct (decide (t = t')) as [<-|Hne].
  - by rewrite peek_insert_eq.
  - by rewrite peek_insert_ne, peek_touch.
Qed.

Lemma lookup_freeze (t t' : JointType) (jm : JointMap) :
  t = t' \/ is_Some (jm !! t') -> is_Some (freeze t jm !! t').
Proof.
  unfold freeze. destruct (decide (t = t')) as [<-|Hne].
  - intros _. rewrite lookup_insert_eq. by eexists.
  - intros [|[j Hj]]; [done|]. rewrite lookup_insert_ne by done.
    exists j. by apply (extends_lookup _ _ _ _ (extends_touch _ _)).
Qed.

Lemma stop_run (goal_ : ArmGoal) (n : ArmNodelet) :
  command goal_ = ARM_STOP ->
  GoalCallback goal_ n
  = fsm_Update GOAL_CANCEL
      (with_joints (freeze GRIPPER (freeze TILT (freeze PAN (joints_ n)))) n).
Proof.
  intros Hc. unfold GoalCallback. rewrite Hc.
  rewrite joints_at_bind_run, joints_assign_bind_run,
    joints_at_bind_run, joints_assign_bind_run,
    joints_at_bind_run, joints_assign_bind_run.
  cbn [joints_ with_joints]. by rewrite !peek_touch.
Qed.

(** STOP freezes the goals and cancels, but commands no joint. Afterwards
    all three joints are in the registry with their goals at their
    (unchanged) values, and no joint goal has been published. In a state
    with a transition for GOAL_CANCEL the action is aborted with the
    failure code of the state and the state becomes STOWED or DEPLOYED by
    the pose; in every other state, the two deploying states included, the
    state is unchanged and no result is sent at all. *)
Theorem stop_command (goal_ : ArmGoal) (n : ArmNodelet) :
  command goal_ = ARM_STOP ->
  let r := GoalCallback goal_ n in
  (forall t, is_Some (joints_ (after r) !! t)
             /\ goal (peek t (joints_ (after r))) = val (peek t (joints_ n))
             /\ val (peek t (joints_ (after r))) = val (peek t (joints_ n)))
  /\ joint_goals (calls r) = []
  /\ if abortable (fsm_ n) then
       results (calls r) = [(AS_ABORTED, failure_code (fsm_ n))]
       /\ fsm_ (after r) = resting_state (value (IsStowed n))
     else
       results (calls r) = [] /\ fsm_ (after r) = fsm_ n.
Proof.
  intros Hc r. subst r. rewrite (stop_run _ _ Hc).
  set (jm3 := freeze GRIPPER (freeze TILT (freeze PAN (joints_ n)))).
  assert (P : forall t, peek t jm3 = snap (peek t (joints_ n))).
  { intros t. subst jm3. rewrite !peek_freeze. by destruct t. }
  assert (S3 : forall t, is_Some (jm3 !! t)).
  { intros t. subst jm3.
    destruct t; repeat first [ apply lookup_freeze; by left
                             | apply lookup_freeze; right ]. }
  assert (Hpose : stowed_pose jm3 = stowed_pose (joints_ n)).
  { unfold stowed_pose, within. by rewrite !P. }
  pose proof (preserves_fsm_Update observed GOAL_CANCEL observed_set_goal
                (with_joints jm3 n)) as (K & _).
  cbn [joints_ with_joints] in K.
  destruct (abortable (fsm_ n)) eqn:Ha.
  - destruct (find_abort _ Ha) as [_ Fc].
    assert (Ht : tracking (fsm_ n) = true) by (by destruct (fsm_ n)).
    assert (Hcode : failure_code (fsm_ n) <> RESPONSE.COMMUNICATION_ERROR)
      by (by destruct (fsm_ n)).
    assert (Hch : channel (failure_code (fsm_ n)) = AS_ABORTED)
      by (by destruct (fsm_ n)).
    pose proof (resolving_transition GOAL_CANCEL (with_joints jm3 n) _ Fc Ht Hcode)
      as (R & S & G & V & J).
    rewrite IsStowed_value in S |- *. cbn [joints_ with_joints] in S, V.
    rewrite Hpose in S. rewrite Hch in R.
    split; [|by repeat split].
    intros t. destruct (K t) as [Ks _]. destruct (Ks (S3 t)) as [j Hj].
    split; [by exists j|].
    assert (Hval : val (peek t (joints_ (after (fsm_Update GOAL_CANCEL
                          (with_joints jm3 n))))) = val (peek t (joints_ n)))
      by (by rewrite V, P).
    split; [|done].
    rewrite <- Hval, (peek_lookup _ _ _ Hj). by apply (G t).
  - destruct (find_no_abort _ Ha) as [_ Fc].
    rewrite (fsm_Update_ignored GOAL_CANCEL (with_joints jm3 n) Fc).
    cbn [after calls fst snd joints_ with_joints fsm_].
    split; [|by repeat split].
    intros t. rewrite P. by repeat split.
Qed.

Lemma stop_command_witness :
  let n := example_arm STATE.DEPLOYING_PANNING 30 0 180 0 20 20 in
  let r := GoalCallback (mkArmGoal ARM_STOP 0 0 0) n in
  results (calls r) = [] /\ fsm_ (after r) = STATE.DEPLOYING_PANNING
  /\ goal (peek PAN (joints_ (after r))) = 30%float.
Proof.
  pose proof (stop_command (mkArmGoal ARM_STOP 0 0 0)
                (example_arm STATE.DEPLOYING_PANNING 30 0 180 0 20 20) eq_refl)
    as (G & _ & H).
  change (abortable (fsm_ (example_arm STATE.DEPLOYING_PANNING 30 0 180 0 20 20)))
    with false in H.
  destruct H as [R S]. destruct (G PAN) as (_ & Hg & _).
  split; [exact R|]. split; [exact S | rewrite Hg; reflexivity].
Defined.

(** ** Link loss in any state *)

(** When the watchdog expires the state becomes INITIALIZING whatever it
    was, every goal is set to the joint's value, and no joint goal is
    published. COMMUNICATION_ERROR is reported, as aborted, exactly when a
    goal was being tracked; otherwise nothing is sent. *)
Theorem watchdog_in_any_state (n : ArmNodelet) :
  let r := WatchdogCallback n in
  fsm_ (after r) = STATE.INITIALIZING
  /\ joints_ (after r) = snap <$> joints_ n
  /\ calls r = (if tracking (fsm_ n)
                then [SendResult AS_ABORTED RESPONSE.COMMUNICATION_ERROR]
                else []).
Proof.
  intros r. subst r. unfold WatchdogCallback, bind.
  destruct (Result_run RESPONSE.COMMUNICATION_ERROR false n)
    as (jm' & -> & _ & Hjm).
  rewrite (Hjm eq_refl), fsm_SetState_run, orb_false_r. cbn.
  by destruct (tracking (fsm_ n)).
Qed.

(** ** Reconfiguration *)

Lemma put_bind_run {A} (n' : ArmNodelet) (f : unit -> M A) (n : ArmNodelet) :
  bind (put n') f n = f tt n'.
Proof. unfold bind, put. by destruct (f tt n') as [[a n1] o1]. Qed.

(** Reconfiguration is accepted in DEPLOYED, STOWED and UNKNOWN only. In
    any other state [ReconfigureCallback] returns false and changes
    nothing. In those three states it returns what the configuration
    server returned, and the tolerances of the three joints are read
    afresh from the configuration, whether or not the server reported
    success; state, values, goals, offsets, scales and names are
    untouched, and no call is made. *)
Theorem reconfigure_only_at_rest (outcome : bool * Config) (n : ArmNodelet) :
  let r := ReconfigureCallback outcome n in
  if reconfigurable (fsm_ n) then
    value r = outcome.1
    /\ calls r = []
    /\ fsm_ (after r) = fsm_ n
    /\ cfg_ (after r) = outcome.2
    /\ dictionary_ (after r) = dictionary_ n
    /\ peek PAN (joints_ (after r))
       = set_tol (tol_pan outcome.2) (peek PAN (joints_ n))
    /\ peek TILT (joints_ (after r))
       = set_tol (tol_tilt outcome.2) (peek TILT (joints_ n))
    /\ peek GRIPPER (joints_ (after r))
       = set_tol (tol_gripper outcome.2) (peek GRIPPER (joints_ n))
  else r = (false, n, []).
Proof.
  intros r. subst r. unfold ReconfigureCallback. rewrite get_bind_run.
  assert (Hrun :
    (put (mkArmNodelet (fsm_ n) outcome.2 (joints_ n) (dictionary_ n)) ;;
     n0 <- get ;; joints_assign PAN (set_tol (tol_pan (cfg_ n0))) ;;
     n1 <- get ;; joints_assign TILT (set_tol (tol_tilt (cfg_ n1))) ;;
     n2 <- get ;; joints_assign GRIPPER (set_tol (tol_gripper (cfg_ n2))) ;;
     ret outcome.1) n
    = (outcome.1,
       mkArmNodelet (fsm_ n) outcome.2
         (<[GRIPPER := set_tol (tol_gripper outcome.2) (peek GRIPPER (joints_ n))]>
            (<[TILT := set_tol (tol_tilt outcome.2) (peek TILT (joints_ n))]>
               (<[PAN := set_tol (tol_pan outcome.2) (peek PAN (joints_ n))]>
                  (joints_ n))))
         (dictionary_ n), [])).
  { rewrite put_bind_run, get_bind_run, joints_assign_bind_run,
      get_bind_run, joints_assign_bind_run,
      get_bind_run, joints_assign_bind_run.
    cbn [ret cfg_ joints_ with_joints].
    by rewrite !peek_insert_ne by done. }
  destruct (fsm_ n) eqn:Hs; cbn [reconfigurable]; try reflexivity;
    rewrite Hrun; cbn [value after calls fst snd fsm_ cfg_ joints_ dictionary_];
    rewrite peek_insert_eq, (peek_insert_ne GRIPPER TILT), peek_insert_eq,
      !peek_insert_ne, peek_insert_eq by done;
    by repeat split.
Qed.

(** ** Initialisation *)

Lemma dictionary_assign_bind_run {A} (nm : string) (t : JointType)
    (f : unit -> M A) (n : ArmNodelet) :
  bind (dictionary_assign nm t) f n
  = f tt (mkArmNodelet (fsm_ n) (cfg_ n) (joints_ n)
            (<[nm := t]> (dictionary_ n))).
Proof. unfold bind, dictionary_assign. by destruct (f tt _) as [[a n1] o1]. Qed.

Lemma call_run (c : Call) (n : ArmNodelet) : call c n = (tt, n, [c]).
Proof. reflexivity. Qed.

Lemma peek_empty (t : JointType) : peek t ∅ = JointInfo_default.
Proof. reflexivity. Qed.

(** One statement of a block of [Initialize] that registers a joint. *)
Ltac register_step H :=
  first [ rewrite joints_assign_bind_run in H
        | rewrite get_bind_run in H
        | rewrite dictionary_assign_bind_run in H ];
  cbn [fsm_ cfg_ joints_ dictionary_ with_joints] in H;
  rewrite ?peek_insert_eq, ?insert_insert_eq in H;
  rewrite ?peek_insert_ne, ?peek_empty in H by done.

(** Which joints are registered, once it is known which names the table
    holds. *)
Ltac read_names :=
  unfold registers, configured_name;
  cbn [read_up_to forallb config_key];
  repeat match goal with
         | H : ?tbl !! ?k = _ |- context [?tbl !! ?k] => rewrite H
         end;
  cbn [andb].

(** The properties of an initialisation whose run [Hr] is known. *)
Ltac initialized Hr :=
  rewrite Hr; clear Hr; rewrite ?call_run;
  cbn [after calls fst snd fsm_ cfg_ joints_ dictionary_];
  split; [reflexivity|]; split; [reflexivity|];
  split;
  [ intros []; read_names;
    rewrite ?lookup_insert_ne by done;
    rewrite ?lookup_insert_eq, ?lookup_empty; reflexivity |];
  match goal with
  | |- ?known /\ ?found /\ _ =>
      assert (Hknown : known);
      [ intros s t0; rewrite ?lookup_insert, ?lookup_empty;
        repeat case_decide; intros [= <-]; subst; read_names;
        split; reflexivity |];
      assert (Hfound : found);
      [ intros [] s; read_names; try (intros Hf; discriminate Hf);
        intros _ [= <-]; rewrite ?lookup_insert;
        repeat case_decide; eauto; done |];
      split; [exact Hknown|]; split; [exact Hfound|];
      split;
      [ intros t0 s Hreg Hnm Hone;
        destruct (Hfound t0 s Hreg Hnm) as [t1 E];
        destruct (Hknown s t1 E) as [R1 N1];
        by rewrite (Hone t1 R1 N1) in E |]
  end;
  read_names; first [ reflexivity | eexists; reflexivity ].

(** [Initialize], run on the nodelet as constructed, registers the joints
    in the order pan, tilt, gripper and stops at the first name it cannot
    read. A joint is in the registry exactly when the configuration could
    be listened to, has the table of joints, and names that joint and
    every joint before it; its entry then has the configured name, value
    and goal zero, the tolerance of the loaded configuration, and the
    offset and scale of the joint. The dictionary knows only names of
    registered joints, knows the name of every registered joint, and takes
    a name that a single registered joint bears to that joint. When the
    three joints are registered the two timers are created with the
    configured periods and the endpoints are set up, and no fault is
    asserted; otherwise the one call made is an INITIALIZATION_FAULT:
    no timer, subscriber, publisher, service or action server exists. *)
Theorem Initialize_registers (unset loaded : Config) (listen : bool)
    (table : option ConfigTable) :
  let r := Initialize loaded listen table (constructed unset) in
  let n := after r in
  let nm := configured_name listen table in
  let reg := registers listen table in
  fsm_ n = STATE.INITIALIZING
  /\ cfg_ n = loaded
  /\ (forall t, joints_ n !! t
                = if reg t then initial_entry loaded t <$> nm t else None)
  /\ (forall s t, dictionary_ n !! s = Some t -> reg t = true /\ nm t = Some s)
  /\ (forall t s, reg t = true -> nm t = Some s -> is_Some (dictionary_ n !! s))
  /\ (forall t s, reg t = true -> nm t = Some s ->
        (forall t', reg t' = true -> nm t' = Some s -> t' = t) ->
        dictionary_ n !! s = Some t)
  /\ (if reg GRIPPER then calls r = setup loaded
      else exists message,
             calls r = [AssertFault "INITIALIZATION_FAULT" message]).
Proof.
  intros r n nm reg. subst n nm reg.
  assert (Hr : r = Initialize loaded listen table (constructed unset))
    by reflexivity.
  clearbody r.
  unfold Initialize, constructed in Hr.
  rewrite get_bind_run, put_bind_run in Hr.
  cbn [fsm_ cfg_ joints_ dictionary_] in Hr.
  destruct listen; cbn [negb] in Hr; [|initialized Hr].
  destruct table as [tbl|]; [|initialized Hr].
  destruct (tbl !! "pan") as [p|] eqn:Hp; [|initialized Hr].
  do 7 register_step Hr.
  destruct (tbl !! "tilt") as [t|] eqn:Ht; [|initialized Hr].
  do 7 register_step Hr.
  destruct (tbl !! "gripper") as [g|] eqn:Hg; [|initialized Hr].
  do 7 register_step Hr.
  cbv [bind call get] in Hr. cbn [app] in Hr.
  initialized Hr.
Qed.
(** The example configuration registers the three joints; without the key
    "tilt" only pan is registered, and the initialisation ends in a
    fault. *)
Lemma Initialize_registers_witness :
  let r := Initialize example_cfg true (Some example_joints)
             (constructed example_cfg) in
  let r' := Initialize example_cfg true (Some (delete "tilt" example_joints))
              (constructed example_cfg) in
  (after r = example_initialized
   /\ joints_ (after r) !! TILT
      = Some (mkJointInfo "arm_tilt" "tilt" 0 0 3 90 K_RADS_TO_DEGS)
   /\ dictionary_ (after r) !! "arm_tilt" = Some TILT
   /\ calls r = setup example_cfg)
  /\ (joints_ (after r') !! PAN
      = Some (mkJointInfo "arm_pan" "pan" 0 0 3 0 K_RADS_TO_DEGS)
      /\ joints_ (after r') !! TILT = None
      /\ joints_ (after r') !! GRIPPER = None
      /\ exists message,
           calls r' = [AssertFault "INITIALIZATION_FAULT" message]).
Proof.
  pose proof (Initialize_registers example_cfg example_cfg true
                (Some example_joints)) as (_ & _ & Hj & _ & _ & Hone & Hc).
  pose proof (Initialize_registers example_cfg example_cfg true
                (Some (delete "tilt" example_joints)))
    as (_ & _ & Hj' & _ & _ & _ & Hc').
  split; [split; [|split; [|split]] | split; [|split; [|split]]].
  - vm_compute. reflexivity.
  - etransitivity; [apply Hj | vm_compute; reflexivity].
  - apply (Hone TILT "arm_tilt"); [vm_compute; reflexivity.. |].
    intros [] _ E; vm_compute in E; congruence.
  - assert (E : registers true (Some example_joints) GRIPPER = true)
      by (vm_compute; reflexivity).
    rewrite E in Hc. exact Hc.
  - etransitivity; [apply Hj' | vm_compute; reflexivity].
  - etransitivity; [apply Hj' | vm_compute; reflexivity].
  - etransitivity; [apply Hj' | vm_compute; reflexivity].
  - assert (E : registers true (Some (delete "tilt" example_joints)) GRIPPER
                = false) by (vm_compute; reflexivity).
    rewrite E in Hc'. exact Hc'.
Defined.


(** ** The conversion of telemetry *)

(** One recognised entry of a message sets the value of its joint to
    position * scale + offset, except that a joint whose generic name is
    "gripper" and whose position is exactly -100 gets the value -100: the
    uncalibrated mark survives the conversion. The sample reported carries
    the generic name, that value, and the entry's velocity and effort.
    Goal, tolerance, offset, scale and names of the joint, and all other
    joints, are as before. *)
Theorem telemetry_converts (m : JointState) (n : ArmNodelet) (g : JointType) :
  dictionary_ n !! s_name m = Some g ->
  let j := peek g (joints_ n) in
  let r := ingest [m] [] n in
  peek g (joints_ (after r)) = set_val (human_value j (s_position m)) j
  /\ value r = [mkJointSample (generic j) (human_value j (s_position m))
                  (s_velocity m) (s_effort m)]
  /\ (forall t, t <> g -> peek t (joints_ (after r)) = peek t (joints_ n))
  /\ calls r = [].
Proof.
  intros Hd j r. subst j r. cbn [ingest].
  rewrite get_bind_run, Hd.
  rewrite !joints_at_bind_run, joints_assign_bind_run, joints_at_bind_run.
  rewrite bind_run, cond_assign_run. cbn [value after calls fst snd app].
  rewrite !joints_at_bind_run. cbn [joints_ with_joints ret value after calls fst snd].
  rewrite !peek_touch, !peek_insert_eq. cbn [generic set_val].
  unfold human_value.
  destruct (String.eqb (generic (peek g (joints_ n))) "gripper"
            && (s_position m =? K_GRIPPER_CAL)%float).
  - repeat (rewrite peek_touch || rewrite peek_insert_eq).
    cbn [val set_val generic]. repeat split; try done.
    intros t Hne.
    by repeat (rewrite peek_touch || rewrite peek_insert_ne by done).
  - repeat (rewrite peek_touch || rewrite peek_insert_eq).
    cbn [val set_val generic]. repeat split; try done.
    intros t Hne.
    by repeat (rewrite peek_touch || rewrite peek_insert_ne by done).
Qed.

Lemma telemetry_converts_witness :
  let n := example_arm STATE.CALIBRATING 0 0 0 0 30 20 in
  let m := mkJointState "arm_gripper" (-100) 0 0 in
  dictionary_ n !! s_name m = Some GRIPPER
  /\ val (peek GRIPPER (joints_ (after (ingest [m] [] n)))) = (-100)%float.
Proof.
  pose proof (telemetry_converts (mkJointState "arm_gripper" (-100) 0 0)
                (example_arm STATE.CALIBRATING 0 0 0 0 30 20) GRIPPER eq_refl)
    as (H & _).
  split; [reflexivity|]. rewrite H. reflexivity.
Defined.
